(** * QuantumLiquidity execution core: position, risk and order-lifecycle accounting

    A shallow embedding of
      - [cpp/src/execution/position_manager.cpp]  (module [PositionManager]),
      - [cpp/src/risk/risk_manager.cpp]           (module [RiskManager]),
      - [cpp/src/execution/execution_engine.cpp]  (module [ExecutionEngine]),
      - [cpp/src/execution/providers/mock_broker.cpp]  (module [MockBroker]),
    together with the plain structs of [cpp/include/quantumliquidity/execution/types.hpp].

    Conventions of the embedding.
      - A C++ [double] is an exact rational ([Q]); comparisons are the boolean
        tests of the source ([<], [<=], [==], [>]) evaluated on rationals.
        Rounding, NaN and infinities are outside the model: an equality
        between numbers computed along different sequences of operations
        holds in exact arithmetic, and in the doubles of the source up to
        rounding; an equality along one and the same sequence of operations
        holds in both.  A
        zero stands for the double [+0.0]; where the source prints a value
        whose zero can be negative (a negation, a product), the sign is
        modelled ([to_string_signed]).  Where the source divides by zero
        (NaN or an infinity), the model's quotient, 0, is not the source's
        value, and the statements exclude the case.  Module
        [PositionManagerBinary64] replays the position accounting in
        binary64 arithmetic where rounding decides.
      - [int] counters and [int64_t] nanosecond timestamps are integers ([Z]):
        counters only count up from zero and timestamps are epoch
        nanoseconds, whose differences fit in 64 bits.  The one conversion
        the source performs, [static_cast<size_t>], is written out as a
        reduction modulo 2^64.
      - [std::map<std::string, T>] is a [gmap string T]; [std::vector] is a list.
      - Every member function runs under the object's mutex, so it is one
        atomic state transformer.  Reads of the system clock are arguments.
      - Logger calls have no effect on the modelled state and are omitted. *)

From Stdlib Require Import ZArith QArith Qminmax Qabs Qround Lqa Lia Ascii String DecimalString Sorted.
From Stdlib Require Import Floats.PrimFloat.
From stdpp Require Import base gmap strings list fin_maps.

Local Open Scope Q_scope.

(* Decimal literals of binary64 numbers are read to the nearest double. *)
Set Warnings "-inexact-float".

(** ** Numeric helpers: the comparisons and library calls used by the source *)

Abbreviation double := Q.

(** [a < b] on doubles. *)
Definition Qltb (a b : Q) : bool := negb (Qle_bool b a).

(** [a <= b] on doubles. *)
Definition Qleb (a b : Q) : bool := Qle_bool a b.

(** [a == b] on doubles. *)
Definition Qeqb (a b : Q) : bool := Qeq_bool a b.

(** [std::min(a, b)]: returns [b] when [b < a], else [a]. *)
Definition std_min (a b : Q) : Q := if Qltb b a then b else a.

(** [std::abs] on doubles. *)
Definition std_abs (a : Q) : Q := Qabs a.

(** The literal [1e-8]. *)
Definition EPS : Q := 1 # 100000000.

(** Nearest integer of a rational, ties to even (the rounding of [printf]). *)
Definition round_half_even (x : Q) : Z :=
  let f := Qfloor x in
  match Qcompare (x - inject_Z f) (1 # 2) with
  | Lt => f
  | Gt => (f + 1)%Z
  | Eq => if Z.even f then f else (f + 1)%Z
  end.

(** Decimal digits of a non-negative integer. *)
Definition string_of_Z (n : Z) : string := NilZero.string_of_int (Z.to_int n).

(** Left-pad a digit string with zeros up to [width] characters. *)
Fixpoint zeros (n : nat) : string :=
  match n with
  | O => EmptyString
  | S k => String "0"%char (zeros k)
  end.

Definition zero_pad (width : nat) (s : string) : string :=
  String.append (zeros (width - String.length s)) s.

(** [std::to_string(double)]: the ["%f"] format, six digits after the point;
    a zero prints as [+0.0] does. *)
Definition to_string_double (x : Q) : string :=
  let n := round_half_even (Qabs x * 1000000) in
  String.append (if Qltb x 0 then "-" else "")
    (String.append (string_of_Z (n / 1000000))
       (String.append "." (zero_pad 6 (string_of_Z (n mod 1000000))))).

(** [std::to_string] of a double whose zero is negative when [negative_zero]
    says so: [-0.0] prints as ["-0.000000"]. *)
Definition to_string_signed (negative_zero : bool) (x : Q) : string :=
  if Qeqb x 0 then (if negative_zero then "-0.000000" else "0.000000")
  else to_string_double x.

(** [std::to_string(int)]. *)
Definition to_string_int (n : Z) : string := string_of_Z n.

(** ** Plain data: [execution/types.hpp] *)

Inductive OrderSide := BUY | SELL.

Inductive OrderType := MARKET | LIMIT | STOP | STOP_LIMIT.

Inductive TimeInForce := DAY | GTC | IOC | FOK.

Inductive OrderStatus :=
  | PENDING | SUBMITTED | ACKNOWLEDGED | PARTIALLY_FILLED
  | FILLED | CANCELLED | REJECTED | ERROR | EXPIRED.

#[global] Instance OrderSide_eq_dec : EqDecision OrderSide.
Proof. solve_decision. Defined.

#[global] Instance OrderType_eq_dec : EqDecision OrderType.
Proof. solve_decision. Defined.

#[global] Instance OrderStatus_eq_dec : EqDecision OrderStatus.
Proof. solve_decision. Defined.

(** [(side == OrderSide::BUY ? 1.0 : -1.0)] *)
Definition side_sign (s : OrderSide) : Q :=
  match s with BUY => 1 | SELL => -1 end.

Module OrderRequest.
Record t := mk {
  order_id : string;
  instrument : string;
  side : OrderSide;
  type : OrderType;
  quantity : double;
  price : double;
  tif : TimeInForce;
  strategy_id : string;
  user_comment : string;
  timestamp_ns : Z;
  stop_price : option double
}.
End OrderRequest.

Module OrderUpdate.
Record t := mk {
  order_id : string;
  status : OrderStatus;
  filled_qty : double;
  remaining_qty : double;
  avg_fill_price : double;
  reason : string;
  timestamp_ns : Z;
  exchange_order_id : option string
}.
End OrderUpdate.

Module Fill.
Record t := mk {
  fill_id : string;
  order_id : string;
  instrument : string;
  side : OrderSide;
  quantity : double;
  price : double;
  commission : double;
  timestamp_ns : Z;
  exchange_trade_id : option string
}.
End Fill.

Module Position.
Record t := mk {
  instrument : string;
  quantity : double;
  entry_price : double;
  unrealized_pnl : double;
  realized_pnl : double;
  last_update_ns : Z;
  num_fills_today : Z;
  total_commission : double
}.
End Position.

Module RiskCheckResult.
Record t := mk {
  allowed : bool;
  reason : string;
  reserved_capital : double;
  new_exposure : double;
  new_position_size : double
}.
End RiskCheckResult.

(** ** [PositionManager] *)

Module PositionManager.

Record t := mk {
  positions_ : gmap string Position.t;
  total_realized_pnl_ : double;
  total_fills_today_ : Z
}.

(** The constructor. *)
Definition init : t :=
  {| positions_ := ∅; total_realized_pnl_ := 0; total_fills_today_ := 0 |}.

Definition calculate_weighted_avg_price
  (current_qty current_entry fill_qty fill_price : double) : double :=
  if Qltb (std_abs (current_qty + fill_qty)) EPS then 0
  else
    let total_cost := current_qty * current_entry + fill_qty * fill_price in
    let total_qty := current_qty + fill_qty in
    total_cost / total_qty.

Definition calculate_realized_pnl
  (position_qty entry_price fill_qty fill_price : double) : double :=
  let qty_to_close := std_min (std_abs position_qty) (std_abs fill_qty) in
  let reducing := Qltb (position_qty * fill_qty) 0 in
  if negb reducing then 0
  else if Qltb 0 position_qty then qty_to_close * (fill_price - entry_price)
  else qty_to_close * (entry_price - fill_price).

(** The body of [on_fill] for an instrument that already has an entry: the
    position written back through the reference [pos], and the new value of
    the global [total_realized_pnl_]. *)
Definition apply_fill (pos : Position.t) (total_realized : double) (fill : Fill.t)
  : Position.t * double :=
  let signed_fill_qty := side_sign (Fill.side fill) * Fill.quantity fill in
  let same_direction := Qltb 0 (Position.quantity pos * signed_fill_qty) in
  let '(qty, entry, rpnl, total) :=
    if same_direction || Qeqb (Position.quantity pos) 0 then
      (Position.quantity pos + signed_fill_qty,
       calculate_weighted_avg_price (Position.quantity pos) (Position.entry_price pos)
         signed_fill_qty (Fill.price fill),
       Position.realized_pnl pos,
       total_realized)
    else
      let realized :=
        calculate_realized_pnl (Position.quantity pos) (Position.entry_price pos)
          signed_fill_qty (Fill.price fill) in
      let old_qty := Position.quantity pos in
      let new_qty := Position.quantity pos + signed_fill_qty in
      let entry :=
        if (Qltb 0 old_qty && Qltb new_qty 0) || (Qltb old_qty 0 && Qltb 0 new_qty)
        then Fill.price fill
        else Position.entry_price pos in
      (new_qty, entry, Position.realized_pnl pos + realized, total_realized + realized) in
  ({| Position.instrument := Position.instrument pos;
      Position.quantity := qty;
      Position.entry_price := entry;
      Position.unrealized_pnl := Position.unrealized_pnl pos;
      Position.realized_pnl := rpnl;
      Position.last_update_ns := Fill.timestamp_ns fill;
      Position.num_fills_today := (Position.num_fills_today pos + 1)%Z;
      Position.total_commission := Position.total_commission pos + Fill.commission fill |},
   total).

(** The entry created by [on_fill] for an instrument seen for the first time. *)
Definition new_position (fill : Fill.t) : Position.t :=
  {| Position.instrument := Fill.instrument fill;
     Position.quantity := side_sign (Fill.side fill) * Fill.quantity fill;
     Position.entry_price := Fill.price fill;
     Position.unrealized_pnl := 0;
     Position.realized_pnl := 0;
     Position.last_update_ns := Fill.timestamp_ns fill;
     Position.num_fills_today := 1;
     Position.total_commission := Fill.commission fill |}.

Definition on_fill (st : t) (fill : Fill.t) : t :=
  let fills := (total_fills_today_ st + 1)%Z in
  match positions_ st !! Fill.instrument fill with
  | None =>
      {| positions_ := <[Fill.instrument fill := new_position fill]> (positions_ st);
         total_realized_pnl_ := total_realized_pnl_ st;
         total_fills_today_ := fills |}
  | Some pos =>
      let '(pos', total) := apply_fill pos (total_realized_pnl_ st) fill in
      {| positions_ := <[Fill.instrument fill := pos']> (positions_ st);
         total_realized_pnl_ := total;
         total_fills_today_ := fills |}
  end.

Definition empty_position (instrument : string) : Position.t :=
  {| Position.instrument := instrument;
     Position.quantity := 0;
     Position.entry_price := 0;
     Position.unrealized_pnl := 0;
     Position.realized_pnl := 0;
     Position.last_update_ns := 0;
     Position.num_fills_today := 0;
     Position.total_commission := 0 |}.

Definition get_position (st : t) (instrument : string) : Position.t :=
  match positions_ st !! instrument with
  | Some pos => pos
  | None => empty_position instrument
  end.

Definition get_unrealized_pnl (st : t) (instrument : string) (current_price : double) : double :=
  match positions_ st !! instrument with
  | None => 0
  | Some pos =>
      if Qltb (std_abs (Position.quantity pos)) EPS then 0
      else Position.quantity pos * (current_price - Position.entry_price pos)
  end.

Definition get_total_unrealized_pnl (st : t) (current_prices : gmap string double) : double :=
  map_fold (fun instrument pos total_unrealized =>
      if Qltb (std_abs (Position.quantity pos)) EPS then total_unrealized
      else match current_prices !! instrument with
           | Some p => total_unrealized + Position.quantity pos * (p - Position.entry_price pos)
           | None => total_unrealized
           end)
    0 (positions_ st).

Definition get_total_realized_pnl (st : t) : double := total_realized_pnl_ st.

Definition get_total_exposure (st : t) (current_prices : gmap string double) : double :=
  map_fold (fun instrument pos total_exposure =>
      if Qltb (std_abs (Position.quantity pos)) EPS then total_exposure
      else match current_prices !! instrument with
           | Some p => total_exposure + std_abs (Position.quantity pos * p)
           | None => total_exposure
           end)
    0 (positions_ st).

Definition has_position (st : t) (instrument : string) : bool :=
  match positions_ st !! instrument with
  | Some pos => negb (Qltb (std_abs (Position.quantity pos)) EPS)
  | None => false
  end.

Definition get_quantity (st : t) (instrument : string) : double :=
  match positions_ st !! instrument with
  | Some pos => Position.quantity pos
  | None => 0
  end.

Definition reset_position (pos : Position.t) : Position.t :=
  {| Position.instrument := Position.instrument pos;
     Position.quantity := Position.quantity pos;
     Position.entry_price := Position.entry_price pos;
     Position.unrealized_pnl := Position.unrealized_pnl pos;
     Position.realized_pnl := 0;
     Position.last_update_ns := Position.last_update_ns pos;
     Position.num_fills_today := 0;
     Position.total_commission := 0 |}.

Definition reset_daily (st : t) : t :=
  {| positions_ := reset_position <$> positions_ st;
     total_realized_pnl_ := 0;
     total_fills_today_ := 0 |}.

Definition get_all_positions (st : t) : gmap string Position.t := positions_ st.

(** [PositionManager::Stats]. *)
Record Stats := mkStats {
  num_positions : Z;
  total_realized_pnl : double;
  total_unrealized_pnl : double;
  total_commission_paid : double;
  total_fills_today : Z
}.

(** One iteration of the loop of [get_stats]. *)
Definition stats_add (current_prices : gmap string double) (instrument : string)
  (pos : Position.t) (stats : Stats) : Stats :=
  {| num_positions :=
       if negb (Qltb (std_abs (Position.quantity pos)) EPS)
       then (num_positions stats + 1)%Z else num_positions stats;
     total_realized_pnl := total_realized_pnl stats;
     total_unrealized_pnl :=
       match current_prices !! instrument with
       | Some p =>
           total_unrealized_pnl stats + Position.quantity pos * (p - Position.entry_price pos)
       | None => total_unrealized_pnl stats
       end;
     total_commission_paid := total_commission_paid stats + Position.total_commission pos;
     total_fills_today := total_fills_today stats |}.

Definition get_stats (st : t) (current_prices : gmap string double) : Stats :=
  map_fold (stats_add current_prices)
    {| num_positions := 0;
       total_realized_pnl := total_realized_pnl_ st;
       total_unrealized_pnl := 0;
       total_commission_paid := 0;
       total_fills_today := total_fills_today_ st |}
    (positions_ st).

End PositionManager.

(** ** [RiskManager] *)

Module RiskLimits.
Record t := mk {
  max_position_size : double;
  max_total_exposure : double;
  max_single_position_pct : double;
  max_daily_loss : double;
  max_daily_loss_pct : double;
  max_drawdown_from_high : double;
  max_orders_per_minute : Z;
  max_orders_per_day : Z;
  max_order_size : double;
  bankroll : double;
  min_free_capital_pct : double
}.
End RiskLimits.

Module RiskManager.

(** [position_mgr_] is a raw pointer: the field records whether it is non-null,
    and the operations that dereference it take the pointee as the argument
    [pm], so the manager always reads the current, shared position state. *)
Record t := mk {
  limits_ : RiskLimits.t;
  position_mgr_ : bool;
  daily_pnl_ : double;
  daily_high_pnl_ : double;
  daily_realized_pnl_ : double;
  orders_submitted_today_ : Z;
  orders_filled_today_ : Z;
  orders_rejected_today_ : Z;
  orders_cancelled_today_ : Z;
  recent_order_timestamps_ : list Z;
  reserved_by_order_ : gmap string double;
  market_prices_ : gmap string double;
  halt_active_ : bool;
  halt_reason_ : string
}.

(** The constructor. *)
Definition init (limits : RiskLimits.t) : t :=
  {| limits_ := limits; position_mgr_ := false;
     daily_pnl_ := 0; daily_high_pnl_ := 0; daily_realized_pnl_ := 0;
     orders_submitted_today_ := 0; orders_filled_today_ := 0;
     orders_rejected_today_ := 0; orders_cancelled_today_ := 0;
     recent_order_timestamps_ := []; reserved_by_order_ := ∅; market_prices_ := ∅;
     halt_active_ := false; halt_reason_ := "" |}.

(** Field assignments. *)
Definition set_position_mgr (st : t) (v : bool) : t :=
  mk (limits_ st) v (daily_pnl_ st) (daily_high_pnl_ st) (daily_realized_pnl_ st)
     (orders_submitted_today_ st) (orders_filled_today_ st) (orders_rejected_today_ st)
     (orders_cancelled_today_ st) (recent_order_timestamps_ st) (reserved_by_order_ st)
     (market_prices_ st) (halt_active_ st) (halt_reason_ st).

Definition set_daily_pnl (st : t) (v : double) : t :=
  mk (limits_ st) (position_mgr_ st) v (daily_high_pnl_ st) (daily_realized_pnl_ st)
     (orders_submitted_today_ st) (orders_filled_today_ st) (orders_rejected_today_ st)
     (orders_cancelled_today_ st) (recent_order_timestamps_ st) (reserved_by_order_ st)
     (market_prices_ st) (halt_active_ st) (halt_reason_ st).

Definition set_daily_high_pnl (st : t) (v : double) : t :=
  mk (limits_ st) (position_mgr_ st) (daily_pnl_ st) v (daily_realized_pnl_ st)
     (orders_submitted_today_ st) (orders_filled_today_ st) (orders_rejected_today_ st)
     (orders_cancelled_today_ st) (recent_order_timestamps_ st) (reserved_by_order_ st)
     (market_prices_ st) (halt_active_ st) (halt_reason_ st).

Definition set_orders_submitted_today (st : t) (v : Z) : t :=
  mk (limits_ st) (position_mgr_ st) (daily_pnl_ st) (daily_high_pnl_ st) (daily_realized_pnl_ st)
     v (orders_filled_today_ st) (orders_rejected_today_ st)
     (orders_cancelled_today_ st) (recent_order_timestamps_ st) (reserved_by_order_ st)
     (market_prices_ st) (halt_active_ st) (halt_reason_ st).

Definition set_orders_filled_today (st : t) (v : Z) : t :=
  mk (limits_ st) (position_mgr_ st) (daily_pnl_ st) (daily_high_pnl_ st) (daily_realized_pnl_ st)
     (orders_submitted_today_ st) v (orders_rejected_today_ st)
     (orders_cancelled_today_ st) (recent_order_timestamps_ st) (reserved_by_order_ st)
     (market_prices_ st) (halt_active_ st) (halt_reason_ st).

Definition set_orders_rejected_today (st : t) (v : Z) : t :=
  mk (limits_ st) (position_mgr_ st) (daily_pnl_ st) (daily_high_pnl_ st) (daily_realized_pnl_ st)
     (orders_submitted_today_ st) (orders_filled_today_ st) v
     (orders_cancelled_today_ st) (recent_order_timestamps_ st) (reserved_by_order_ st)
     (market_prices_ st) (halt_active_ st) (halt_reason_ st).

Definition set_orders_cancelled_today (st : t) (v : Z) : t :=
  mk (limits_ st) (position_mgr_ st) (daily_pnl_ st) (daily_high_pnl_ st) (daily_realized_pnl_ st)
     (orders_submitted_today_ st) (orders_filled_today_ st) (orders_rejected_today_ st)
     v (recent_order_timestamps_ st) (reserved_by_order_ st)
     (market_prices_ st) (halt_active_ st) (halt_reason_ st).

Definition set_recent_order_timestamps (st : t) (v : list Z) : t :=
  mk (limits_ st) (position_mgr_ st) (daily_pnl_ st) (daily_high_pnl_ st) (daily_realized_pnl_ st)
     (orders_submitted_today_ st) (orders_filled_today_ st) (orders_rejected_today_ st)
     (orders_cancelled_today_ st) v (reserved_by_order_ st)
     (market_prices_ st) (halt_active_ st) (halt_reason_ st).

Definition set_reserved_by_order (st : t) (v : gmap string double) : t :=
  mk (limits_ st) (position_mgr_ st) (daily_pnl_ st) (daily_high_pnl_ st) (daily_realized_pnl_ st)
     (orders_submitted_today_ st) (orders_filled_today_ st) (orders_rejected_today_ st)
     (orders_cancelled_today_ st) (recent_order_timestamps_ st) v
     (market_prices_ st) (halt_active_ st) (halt_reason_ st).

Definition set_market_prices (st : t) (v : gmap string double) : t :=
  mk (limits_ st) (position_mgr_ st) (daily_pnl_ st) (daily_high_pnl_ st) (daily_realized_pnl_ st)
     (orders_submitted_today_ st) (orders_filled_today_ st) (orders_rejected_today_ st)
     (orders_cancelled_today_ st) (recent_order_timestamps_ st) (reserved_by_order_ st)
     v (halt_active_ st) (halt_reason_ st).

Definition set_halt (st : t) (active : bool) (reason : string) : t :=
  mk (limits_ st) (position_mgr_ st) (daily_pnl_ st) (daily_high_pnl_ st) (daily_realized_pnl_ st)
     (orders_submitted_today_ st) (orders_filled_today_ st) (orders_rejected_today_ st)
     (orders_cancelled_today_ st) (recent_order_timestamps_ st) (reserved_by_order_ st)
     (market_prices_ st) active reason.

(** [static_cast<size_t>(n)] for an [int] [n], on a 64-bit target. *)
Definition static_cast_size_t (n : Z) : Z := (n mod 2 ^ 64)%Z.

Definition calculate_order_value (order : OrderRequest.t) (price : double) : double :=
  std_abs (OrderRequest.quantity order * price).

Definition check_position_size_limit (st : t) (instrument : string) (new_qty : double) : bool :=
  Qleb (std_abs new_qty) (RiskLimits.max_position_size (limits_ st)).

(** The loop [for (const auto& [oid, reserved] : reserved_by_order_) total_reserved += reserved]. *)
Definition total_reserved (reserved_by_order : gmap string double) : double :=
  map_fold (fun _ reserved total => total + reserved) 0 reserved_by_order.

Definition check_exposure_limit (st : t) (pm : PositionManager.t) (additional_exposure : double) : bool :=
  let current_exposure :=
    if position_mgr_ st then PositionManager.get_total_exposure pm (market_prices_ st) else 0 in
  let new_total_exposure :=
    current_exposure + total_reserved (reserved_by_order_ st) + additional_exposure in
  Qleb new_total_exposure (RiskLimits.max_total_exposure (limits_ st)).

Definition check_daily_loss_limit (st : t) : bool :=
  Qleb (- RiskLimits.max_daily_loss (limits_ st)) (daily_pnl_ st).

Definition one_minute_ns : Z := (60 * 1000000000)%Z.

(** The predicate handed to [std::remove_if]: [(now_ns - ts) > one_minute_ns]. *)
Definition older_than_one_minute (now_ns ts : Z) : bool := (one_minute_ns <? now_ns - ts)%Z.

(** [check_rate_limit]: erase the timestamps selected by [std::remove_if],
    then test the size; [now_ns] is the clock value read by the call. *)
Definition check_rate_limit (st : t) (now_ns : Z) : t * bool :=
  let kept :=
    List.filter (fun ts => negb (older_than_one_minute now_ns ts)) (recent_order_timestamps_ st) in
  (set_recent_order_timestamps st kept,
   (Z.of_nat (length kept) <? static_cast_size_t (RiskLimits.max_orders_per_minute (limits_ st)))%Z).

Definition update_pnl (st : t) (pm : PositionManager.t) (fill : Fill.t) : t :=
  if position_mgr_ st then
    set_daily_pnl st
      (PositionManager.get_total_realized_pnl pm +
       PositionManager.get_total_unrealized_pnl pm (market_prices_ st))
  else st.

(** The common tail of every rejecting branch of [check_order]:
    [result.reason = ...; orders_rejected_today_++; return result]. *)
Definition reject (st : t) (result : RiskCheckResult.t) (reason : string) : t * RiskCheckResult.t :=
  (set_orders_rejected_today st (orders_rejected_today_ st + 1)%Z,
   RiskCheckResult.mk (RiskCheckResult.allowed result) reason
     (RiskCheckResult.reserved_capital result) (RiskCheckResult.new_exposure result)
     (RiskCheckResult.new_position_size result)).

(** [check_order]; [now_check] is the clock read inside [check_rate_limit] and
    [now_push] the later read whose value is pushed on approval. *)
Definition check_order (st : t) (pm : PositionManager.t) (order : OrderRequest.t)
  (current_price : double) (now_check now_push : Z) : t * RiskCheckResult.t :=
  let limits := limits_ st in
  let result := RiskCheckResult.mk false "" 0 0 0 in
  (* 1. halt gate *)
  if halt_active_ st then
    reject st result (String.append "Trading halted: " (halt_reason_ st))
  (* 2. order parameters *)
  else if Qleb (OrderRequest.quantity order) 0 then
    reject st result "Invalid quantity: must be > 0"
  else if bool_decide (OrderRequest.type order = LIMIT) && Qleb (OrderRequest.price order) 0 then
    reject st result "Invalid limit price: must be > 0"
  (* 3. order size *)
  else if Qltb (RiskLimits.max_order_size limits) (OrderRequest.quantity order) then
    reject st result
      (String.append "Order size exceeds limit: "
         (String.append (to_string_double (OrderRequest.quantity order))
            (String.append " > " (to_string_double (RiskLimits.max_order_size limits)))))
  else
  (* 4. rate limit *)
  let '(st, rate_ok) := check_rate_limit st now_check in
  if negb rate_ok then
    reject st result
      (String.append "Order rate limit exceeded: "
         (String.append (to_string_int (RiskLimits.max_orders_per_minute limits)) " orders/min"))
  (* 5. daily order limit *)
  else if (RiskLimits.max_orders_per_day limits <=? orders_submitted_today_ st)%Z then
    reject st result
      (String.append "Daily order limit exceeded: "
         (to_string_int (RiskLimits.max_orders_per_day limits)))
  else
  (* 6. order value *)
  let order_price :=
    if bool_decide (OrderRequest.type order = MARKET) then current_price
    else OrderRequest.price order in
  let order_value := calculate_order_value order order_price in
  (* 7. current position *)
  let current_qty :=
    if position_mgr_ st then PositionManager.get_quantity pm (OrderRequest.instrument order)
    else 0 in
  (* 8. position after this order *)
  let signed_order_qty := side_sign (OrderRequest.side order) * OrderRequest.quantity order in
  let new_qty := current_qty + signed_order_qty in
  let result := RiskCheckResult.mk false "" 0 0 (std_abs new_qty) in
  (* 9. position size limit *)
  if negb (check_position_size_limit st (OrderRequest.instrument order) new_qty) then
    reject st result
      (String.append "Position size limit exceeded: new_qty="
         (String.append (to_string_double new_qty)
            (String.append ", limit=" (to_string_double (RiskLimits.max_position_size limits)))))
  else
  (* 10. exposure limit *)
  let additional_exposure := std_abs (signed_order_qty * order_price) in
  if negb (check_exposure_limit st pm additional_exposure) then
    reject st result
      (String.append "Exposure limit exceeded: would add "
         (String.append (to_string_double additional_exposure)
            (String.append ", limit=" (to_string_double (RiskLimits.max_total_exposure limits)))))
  (* 11. daily loss limit: halts *)
  else if negb (check_daily_loss_limit st) then
    let reason :=
      String.append "Daily loss limit exceeded: "
        (String.append (to_string_double (daily_pnl_ st))
           (* the negation turns a zero limit into -0.0 *)
           (String.append ", limit="
              (to_string_signed true (- RiskLimits.max_daily_loss limits)))) in
    reject (set_halt st true reason) result reason
  else
  (* 12. free capital *)
  let total_reserved := total_reserved (reserved_by_order_ st) in
  let total_exposure :=
    if position_mgr_ st then PositionManager.get_total_exposure pm (market_prices_ st) else 0 in
  let used_capital := total_exposure + total_reserved + order_value in
  let free_capital := RiskLimits.bankroll limits - used_capital in
  let min_free := RiskLimits.bankroll limits * RiskLimits.min_free_capital_pct limits in
  if Qltb free_capital min_free then
    reject st result
      (String.append "Insufficient free capital: "
         (String.append (to_string_double free_capital)
            (* a zero product is negative when one factor is *)
            (String.append " < "
               (to_string_signed
                  (xorb (Qltb (RiskLimits.bankroll limits) 0)
                     (Qltb (RiskLimits.min_free_capital_pct limits) 0))
                  min_free))))
  else
  (* approved *)
  let st := set_reserved_by_order st
              (<[OrderRequest.order_id order := order_value]> (reserved_by_order_ st)) in
  let st := set_orders_submitted_today st (orders_submitted_today_ st + 1)%Z in
  let st := set_recent_order_timestamps st (recent_order_timestamps_ st ++ [now_push]) in
  (st, RiskCheckResult.mk true "OK" order_value (total_exposure + order_value) (std_abs new_qty)).

(** [auto it = reserved_by_order_.find(id); if (it != end()) erase(it);] *)
Definition release_reservation (st : t) (order_id : string) : t :=
  match reserved_by_order_ st !! order_id with
  | Some _ => set_reserved_by_order st (delete order_id (reserved_by_order_ st))
  | None => st
  end.

Definition on_fill (st : t) (pm : PositionManager.t) (fill : Fill.t) : t :=
  let st := set_orders_filled_today st (orders_filled_today_ st + 1)%Z in
  let st := release_reservation st (Fill.order_id fill) in
  let st := update_pnl st pm fill in
  let st :=
    if Qltb (daily_high_pnl_ st) (daily_pnl_ st) then set_daily_high_pnl st (daily_pnl_ st)
    else st in
  let drawdown_from_high := daily_high_pnl_ st - daily_pnl_ st in
  if Qltb (RiskLimits.max_drawdown_from_high (limits_ st)) drawdown_from_high then
    set_halt st true
      (String.append "Max drawdown from high exceeded: " (to_string_double drawdown_from_high))
  else st.

Definition on_order_rejected (st : t) (order_id : string) : t :=
  let st := set_orders_rejected_today st (orders_rejected_today_ st + 1)%Z in
  release_reservation st order_id.

Definition on_order_cancelled (st : t) (order_id : string) : t :=
  let st := set_orders_cancelled_today st (orders_cancelled_today_ st + 1)%Z in
  release_reservation st order_id.

Definition should_halt (st : t) : bool := halt_active_ st.

Definition get_halt_reason (st : t) : string :=
  if halt_active_ st then halt_reason_ st else "".

Definition reset_daily (st : t) : t :=
  {| limits_ := limits_ st; position_mgr_ := position_mgr_ st;
     daily_pnl_ := 0; daily_high_pnl_ := 0; daily_realized_pnl_ := 0;
     orders_submitted_today_ := 0; orders_filled_today_ := 0;
     orders_rejected_today_ := 0; orders_cancelled_today_ := 0;
     recent_order_timestamps_ := []; reserved_by_order_ := ∅;
     market_prices_ := market_prices_ st;
     halt_active_ := false; halt_reason_ := "" |}.

(** [set_position_manager(ptr)]; [non_null] tells whether [ptr] is non-null. *)
Definition set_position_manager (st : t) (non_null : bool) : t :=
  set_position_mgr st non_null.

Definition update_market_prices (st : t) (pm : PositionManager.t) (prices : gmap string double) : t :=
  let st := set_market_prices st prices in
  if position_mgr_ st then
    set_daily_pnl st
      (PositionManager.get_total_realized_pnl pm +
       PositionManager.get_total_unrealized_pnl pm (market_prices_ st))
  else st.

End RiskManager.

Module OrderModification.
Record t := mk {
  order_id : string;
  new_price : option double;
  new_quantity : option double;
  new_stop_price : option double;
  timestamp_ns : Z
}.
End OrderModification.


(** ** [ExecutionEngine] *)

Module OrderState.
Record t := mk {
  request : OrderRequest.t;
  current_status : OrderUpdate.t;
  provider_name : string;
  submit_timestamp_ns : Z;
  last_update_ns : Z
}.
End OrderState.

Module Stats.
Record t := mk {
  total_orders_submitted : Z;
  total_orders_filled : Z;
  total_orders_rejected : Z;
  total_orders_cancelled : Z;
  active_orders : Z;
  total_volume_traded : double;
  last_fill_timestamp_ns : Z
}.
End Stats.

(** What a call into an [IExecutionProvider] does: it returns an update or
    throws a [std::exception] carrying [what()]. *)
Inductive provider_reply :=
  | Returns (update : OrderUpdate.t)
  | Throws (what : string).

(** What the engine makes observable: messages published on the bus and
    invocations of the registered callbacks ([cb] is the position of the
    callback in its registration vector). *)
Inductive event :=
  | PublishOrder (update : OrderUpdate.t)
  | PublishFill (fill : Fill.t)
  | OrderCallback (cb : nat) (update : OrderUpdate.t)
  | FillCallback (cb : nat) (fill : Fill.t).

Module ExecutionEngine.

(** The engine's own members.  [providers_] maps a name to whether the stored
    [shared_ptr] is non-null; the callback vectors are represented by their
    lengths, a callback being identified by its index. *)
Record t := mk {
  enable_redis : bool;
  redis_ : bool;
  providers_ : gmap string bool;
  instrument_routing_ : gmap string string;
  default_provider_ : string;
  active_orders_ : gmap string OrderState.t;
  completed_orders_ : gmap string OrderState.t;
  order_callbacks_ : nat;
  fill_callbacks_ : nat;
  stats_ : Stats.t;
  shutdown_requested_ : bool
}.

(** The engine with the two managers it points to ([risk_mgr_], [position_mgr_];
    the risk manager's own [position_mgr_], when set, is the same object) and
    the log of what it has emitted so far, oldest first. *)
Record world := mkWorld {
  engine : t;
  risk_mgr : RiskManager.t;
  position_mgr : PositionManager.t;
  trace : list event
}.

Definition init_stats : Stats.t := Stats.mk 0 0 0 0 0 0 0.

(** The constructor, for non-null managers; [redis] tells whether the bus
    connection was established. *)
Definition init (enable redis : bool) : t :=
  {| enable_redis := enable; redis_ := enable && redis;
     providers_ := ∅; instrument_routing_ := ∅; default_provider_ := "";
     active_orders_ := ∅; completed_orders_ := ∅;
     order_callbacks_ := 0; fill_callbacks_ := 0;
     stats_ := init_stats; shutdown_requested_ := false |}.

Definition set_providers (e : t) (v : gmap string bool) (d : string) : t :=
  mk (enable_redis e) (redis_ e) v (instrument_routing_ e) d
     (active_orders_ e) (completed_orders_ e) (order_callbacks_ e) (fill_callbacks_ e)
     (stats_ e) (shutdown_requested_ e).

Definition set_instrument_routing (e : t) (v : gmap string string) : t :=
  mk (enable_redis e) (redis_ e) (providers_ e) v (default_provider_ e)
     (active_orders_ e) (completed_orders_ e) (order_callbacks_ e) (fill_callbacks_ e)
     (stats_ e) (shutdown_requested_ e).

Definition set_active_orders (e : t) (v : gmap string OrderState.t) : t :=
  mk (enable_redis e) (redis_ e) (providers_ e) (instrument_routing_ e) (default_provider_ e)
     v (completed_orders_ e) (order_callbacks_ e) (fill_callbacks_ e)
     (stats_ e) (shutdown_requested_ e).

Definition set_completed_orders (e : t) (v : gmap string OrderState.t) : t :=
  mk (enable_redis e) (redis_ e) (providers_ e) (instrument_routing_ e) (default_provider_ e)
     (active_orders_ e) v (order_callbacks_ e) (fill_callbacks_ e)
     (stats_ e) (shutdown_requested_ e).

Definition set_callbacks (e : t) (order_cbs fill_cbs : nat) : t :=
  mk (enable_redis e) (redis_ e) (providers_ e) (instrument_routing_ e) (default_provider_ e)
     (active_orders_ e) (completed_orders_ e) order_cbs fill_cbs
     (stats_ e) (shutdown_requested_ e).

Definition set_stats (e : t) (v : Stats.t) : t :=
  mk (enable_redis e) (redis_ e) (providers_ e) (instrument_routing_ e) (default_provider_ e)
     (active_orders_ e) (completed_orders_ e) (order_callbacks_ e) (fill_callbacks_ e)
     v (shutdown_requested_ e).

Definition set_engine (w : world) (e : t) : world :=
  mkWorld e (risk_mgr w) (position_mgr w) (trace w).

Definition set_risk_mgr (w : world) (r : RiskManager.t) : world :=
  mkWorld (engine w) r (position_mgr w) (trace w).

Definition set_position_mgr (w : world) (p : PositionManager.t) : world :=
  mkWorld (engine w) (risk_mgr w) p (trace w).

Definition emit (w : world) (evs : list event) : world :=
  mkWorld (engine w) (risk_mgr w) (position_mgr w) (trace w ++ evs).

Definition stats_rejected_inc (s : Stats.t) : Stats.t :=
  Stats.mk (Stats.total_orders_submitted s) (Stats.total_orders_filled s)
    (Stats.total_orders_rejected s + 1)%Z (Stats.total_orders_cancelled s)
    (Stats.active_orders s) (Stats.total_volume_traded s) (Stats.last_fill_timestamp_ns s).

Definition stats_cancelled_inc (s : Stats.t) : Stats.t :=
  Stats.mk (Stats.total_orders_submitted s) (Stats.total_orders_filled s)
    (Stats.total_orders_rejected s) (Stats.total_orders_cancelled s + 1)%Z
    (Stats.active_orders s) (Stats.total_volume_traded s) (Stats.last_fill_timestamp_ns s).

Definition stats_submitted (s : Stats.t) : Stats.t :=
  Stats.mk (Stats.total_orders_submitted s + 1)%Z (Stats.total_orders_filled s)
    (Stats.total_orders_rejected s) (Stats.total_orders_cancelled s)
    (Stats.active_orders s + 1)%Z (Stats.total_volume_traded s) (Stats.last_fill_timestamp_ns s).

Definition stats_active_dec (s : Stats.t) : Stats.t :=
  Stats.mk (Stats.total_orders_submitted s) (Stats.total_orders_filled s)
    (Stats.total_orders_rejected s) (Stats.total_orders_cancelled s)
    (Stats.active_orders s - 1)%Z (Stats.total_volume_traded s) (Stats.last_fill_timestamp_ns s).

Definition stats_fill (s : Stats.t) (fill : Fill.t) : Stats.t :=
  Stats.mk (Stats.total_orders_submitted s) (Stats.total_orders_filled s + 1)%Z
    (Stats.total_orders_rejected s) (Stats.total_orders_cancelled s)
    (Stats.active_orders s) (Stats.total_volume_traded s + Fill.quantity fill)
    (Fill.timestamp_ns fill).

(** [register_provider(name, provider)] for a non-null [provider]
    (a null one is refused and changes nothing). *)
Definition register_provider (e : t) (name : string) (non_null : bool) : t :=
  if negb non_null then e
  else
    set_providers e (<[name := true]> (providers_ e))
      (if String.eqb (default_provider_ e) "" then name else default_provider_ e).

Definition set_instrument_provider (e : t) (instrument provider_name : string) : t :=
  match providers_ e !! provider_name with
  | None => e
  | Some _ => set_instrument_routing e (<[instrument := provider_name]> (instrument_routing_ e))
  end.

Definition register_order_callback (e : t) : t :=
  set_callbacks e (S (order_callbacks_ e)) (fill_callbacks_ e).

Definition register_fill_callback (e : t) : t :=
  set_callbacks e (order_callbacks_ e) (S (fill_callbacks_ e)).

Definition select_provider_for_order (e : t) (order : OrderRequest.t) : string :=
  match instrument_routing_ e !! OrderRequest.instrument order with
  | Some name => name
  | None => default_provider_ e
  end.

Definition publish_order_event (w : world) (update : OrderUpdate.t) : world :=
  if negb (redis_ (engine w)) || negb (enable_redis (engine w)) then w
  else emit w [PublishOrder update].

Definition publish_fill_event (w : world) (fill : Fill.t) : world :=
  if negb (redis_ (engine w)) || negb (enable_redis (engine w)) then w
  else emit w [PublishFill fill].

(** [for (auto& callback : order_callbacks_) callback(update)], exceptions
    of a callback being caught and logged. *)
Definition notify_order_callbacks (w : world) (update : OrderUpdate.t) : world :=
  emit w (List.map (fun cb => OrderCallback cb update) (seq 0 (order_callbacks_ (engine w)))).

Definition notify_fill_callbacks (w : world) (fill : Fill.t) : world :=
  emit w (List.map (fun cb => FillCallback cb fill) (seq 0 (fill_callbacks_ (engine w)))).

(** [completed_orders_.begin()]: the entry with the least key in the order of
    [std::string::operator<]. *)
Definition first_key {A} (m : gmap string A) : option string :=
  foldr (fun k acc =>
           match acc with
           | None => Some k
           | Some k' => if String.leb k k' then Some k else Some k'
           end)
    None (map_to_list m).*1.

Definition finalize_order (e : t) (order_id : string) : t :=
  match active_orders_ e !! order_id with
  | None => e
  | Some state =>
      let completed := <[order_id := state]> (completed_orders_ e) in
      let e := set_completed_orders e completed in
      let e := set_active_orders e (delete order_id (active_orders_ e)) in
      let e := set_stats e (stats_active_dec (stats_ e)) in
      if Nat.ltb 1000 (size completed) then
        match first_key completed with
        | Some oldest => set_completed_orders e (delete oldest completed)
        | None => e
        end
      else e
  end.

Definition is_terminal (s : OrderStatus) : bool :=
  match s with
  | FILLED | CANCELLED | REJECTED | ERROR | EXPIRED => true
  | _ => false
  end.

Definition update_order_state (e : t) (update : OrderUpdate.t) : t :=
  match active_orders_ e !! OrderUpdate.order_id update with
  | None => e
  | Some state =>
      let state :=
        OrderState.mk (OrderState.request state) update (OrderState.provider_name state)
          (OrderState.submit_timestamp_ns state) (OrderUpdate.timestamp_ns update) in
      let e := set_active_orders e (<[OrderUpdate.order_id update := state]> (active_orders_ e)) in
      if is_terminal (OrderUpdate.status update)
      then finalize_order e (OrderUpdate.order_id update)
      else e
  end.

Definition on_order_update (w : world) (update : OrderUpdate.t) : world :=
  let w := set_engine w (update_order_state (engine w) update) in
  let w := publish_order_event w update in
  notify_order_callbacks w update.

(** The order-state part of [on_fill].  When the new [filled_qty] is zero the
    source divides by zero and stores NaN or an infinity in
    [avg_fill_price]; the model's value there is not the source's. *)
Definition fill_order_state (state : OrderState.t) (fill : Fill.t) : OrderState.t :=
  let cs := OrderState.current_status state in
  let filled_qty := OrderUpdate.filled_qty cs + Fill.quantity fill in
  let remaining_qty := OrderRequest.quantity (OrderState.request state) - filled_qty in
  let total_value :=
    OrderUpdate.avg_fill_price cs * (filled_qty - Fill.quantity fill)
    + Fill.price fill * Fill.quantity fill in
  let avg_fill_price := total_value / filled_qty in
  let status := if Qleb remaining_qty EPS then FILLED else PARTIALLY_FILLED in
  OrderState.mk (OrderState.request state)
    (OrderUpdate.mk (OrderUpdate.order_id cs) status filled_qty remaining_qty avg_fill_price
       (OrderUpdate.reason cs) (OrderUpdate.timestamp_ns cs) (OrderUpdate.exchange_order_id cs))
    (OrderState.provider_name state) (OrderState.submit_timestamp_ns state)
    (Fill.timestamp_ns fill).

Definition on_fill (w : world) (fill : Fill.t) : world :=
  let w := set_position_mgr w (PositionManager.on_fill (position_mgr w) fill) in
  let w := set_risk_mgr w (RiskManager.on_fill (risk_mgr w) (position_mgr w) fill) in
  let e := set_stats (engine w) (stats_fill (stats_ (engine w)) fill) in
  let e :=
    match active_orders_ e !! Fill.order_id fill with
    | None => e
    | Some state =>
        let state := fill_order_state state fill in
        let e := set_active_orders e (<[Fill.order_id fill := state]> (active_orders_ e)) in
        if Qleb (OrderUpdate.remaining_qty (OrderState.current_status state)) EPS
        then finalize_order e (Fill.order_id fill)
        else e
    end in
  let w := set_engine w e in
  let w := publish_fill_event w fill in
  notify_fill_callbacks w fill.

(** [submit_order]; [now] is the clock read for the result's timestamp,
    [now_check] and [now_push] the two reads of the risk check, [connected]
    the answer of [provider->is_connected()] and [reply] the outcome of
    [provider->submit_order(order)].  The result is [None] when the call
    dereferences a null provider pointer. *)
Definition submit_order (w : world) (order : OrderRequest.t)
  (now now_check now_push : Z) (connected : bool) (reply : provider_reply)
  : option (world * OrderUpdate.t) :=
  let result :=
    OrderUpdate.mk (OrderRequest.order_id order) REJECTED 0 (OrderRequest.quantity order) 0 ""
      now None in
  let with_reason (r : OrderUpdate.t) (reason : string) :=
    OrderUpdate.mk (OrderUpdate.order_id r) (OrderUpdate.status r) (OrderUpdate.filled_qty r)
      (OrderUpdate.remaining_qty r) (OrderUpdate.avg_fill_price r) reason
      (OrderUpdate.timestamp_ns r) (OrderUpdate.exchange_order_id r) in
  let rejected_inc w := set_engine w (set_stats (engine w) (stats_rejected_inc (stats_ (engine w)))) in
  let release w :=
    set_risk_mgr w (RiskManager.on_order_rejected (risk_mgr w) (OrderRequest.order_id order)) in
  if shutdown_requested_ (engine w) then
    let result := with_reason result "Execution engine shutting down" in
    Some (publish_order_event (rejected_inc w) result, result)
  else
  let current_price :=
    if bool_decide (OrderRequest.type order = MARKET) then 0 else OrderRequest.price order in
  let current_price := if Qeqb current_price 0 then 1 else current_price in
  let '(rm, risk_result) :=
    RiskManager.check_order (risk_mgr w) (position_mgr w) order current_price now_check now_push in
  let w := set_risk_mgr w rm in
  if negb (RiskCheckResult.allowed risk_result) then
    let result :=
      with_reason result (String.append "Risk check failed: " (RiskCheckResult.reason risk_result)) in
    Some (publish_order_event (release (rejected_inc w)) result, result)
  else
  let provider_name := select_provider_for_order (engine w) order in
  match (if String.eqb provider_name "" then None else providers_ (engine w) !! provider_name) with
  | None =>
      let result :=
        with_reason result
          (String.append "No execution provider available for " (OrderRequest.instrument order)) in
      Some (publish_order_event (release (rejected_inc w)) result, result)
  | Some false => None
  | Some true =>
      if negb connected then
        let result := with_reason result (String.append "Provider not connected: " provider_name) in
        Some (publish_order_event (release (rejected_inc w)) result, result)
      else
        let '(w, result) :=
          match reply with
          | Returns update =>
              if negb (bool_decide (OrderUpdate.status update = REJECTED)) then
                let state :=
                  OrderState.mk order update provider_name
                    (OrderUpdate.timestamp_ns update) (OrderUpdate.timestamp_ns update) in
                let e := engine w in
                let e := set_active_orders e (<[OrderRequest.order_id order := state]> (active_orders_ e)) in
                let e := set_stats e (stats_submitted (stats_ e)) in
                (set_engine w e, update)
              else (release (rejected_inc w), update)
          | Throws what =>
              let result :=
                OrderUpdate.mk (OrderUpdate.order_id result) ERROR (OrderUpdate.filled_qty result)
                  (OrderUpdate.remaining_qty result) (OrderUpdate.avg_fill_price result)
                  (String.append "Provider exception: " what)
                  (OrderUpdate.timestamp_ns result) (OrderUpdate.exchange_order_id result) in
              (release (rejected_inc w), result)
          end in
        let w := publish_order_event w result in
        Some (notify_order_callbacks w result, result)
  end.

(** [cancel_order]; [now] is the clock read and [reply] the outcome of
    [provider->cancel_order(order_id)].  The numeric fields of the local
    [result], which the source leaves uninitialised on the two early
    returns, read as zero. *)
Definition cancel_order (w : world) (order_id : string) (now : Z) (reply : provider_reply)
  : world * OrderUpdate.t :=
  let result := OrderUpdate.mk order_id REJECTED 0 0 0 "" now None in
  let with_reason (r : OrderUpdate.t) (s : OrderStatus) (reason : string) :=
    OrderUpdate.mk (OrderUpdate.order_id r) s (OrderUpdate.filled_qty r)
      (OrderUpdate.remaining_qty r) (OrderUpdate.avg_fill_price r) reason
      (OrderUpdate.timestamp_ns r) (OrderUpdate.exchange_order_id r) in
  match active_orders_ (engine w) !! order_id with
  | None => (w, with_reason result REJECTED "Order not found or already completed")
  | Some state =>
      let name := OrderState.provider_name state in
      (* providers_[name] default-constructs a null entry for an unknown name *)
      let provider := default false (providers_ (engine w) !! name) in
      let w :=
        match providers_ (engine w) !! name with
        | Some _ => w
        | None =>
            set_engine w (set_providers (engine w) (<[name := false]> (providers_ (engine w)))
                            (default_provider_ (engine w)))
        end in
      if negb provider then
        (w, with_reason result REJECTED (String.append "Provider not available: " name))
      else
        let '(w, result) :=
          match reply with
          | Returns update =>
              if bool_decide (OrderUpdate.status update = CANCELLED) then
                let w := set_engine w (set_stats (engine w) (stats_cancelled_inc (stats_ (engine w)))) in
                let w := set_risk_mgr w (RiskManager.on_order_cancelled (risk_mgr w) order_id) in
                (set_engine w (finalize_order (engine w) order_id), update)
              else (w, update)
          | Throws what =>
              (w, with_reason result ERROR (String.append "Cancel exception: " what))
          end in
        let w := publish_order_event w result in
        (notify_order_callbacks w result, result)
  end.

(** [modify_order]; [reply] is the outcome of [provider->modify_order].
    As in [cancel_order], the numeric fields the source leaves
    uninitialised on the early returns read as zero. *)
Definition modify_order (w : world) (modification : OrderModification.t) (reply : provider_reply)
  : world * OrderUpdate.t :=
  let result :=
    OrderUpdate.mk (OrderModification.order_id modification) REJECTED 0 0 0 ""
      (OrderModification.timestamp_ns modification) None in
  let with_reason (r : OrderUpdate.t) (s : OrderStatus) (reason : string) :=
    OrderUpdate.mk (OrderUpdate.order_id r) s (OrderUpdate.filled_qty r)
      (OrderUpdate.remaining_qty r) (OrderUpdate.avg_fill_price r) reason
      (OrderUpdate.timestamp_ns r) (OrderUpdate.exchange_order_id r) in
  match active_orders_ (engine w) !! OrderModification.order_id modification with
  | None => (w, with_reason result REJECTED "Order not found or already completed")
  | Some state =>
      let name := OrderState.provider_name state in
      let provider := default false (providers_ (engine w) !! name) in
      let w :=
        match providers_ (engine w) !! name with
        | Some _ => w
        | None =>
            set_engine w (set_providers (engine w) (<[name := false]> (providers_ (engine w)))
                            (default_provider_ (engine w)))
        end in
      if negb provider then
        (w, with_reason result REJECTED (String.append "Provider not available: " name))
      else
        let result :=
          match reply with
          | Returns update => update
          | Throws what => with_reason result ERROR (String.append "Modify exception: " what)
          end in
        (publish_order_event w result, result)
  end.

Definition get_order_status (e : t) (order_id : string) : option OrderUpdate.t :=
  match active_orders_ e !! order_id with
  | Some state => Some (OrderState.current_status state)
  | None =>
      match completed_orders_ e !! order_id with
      | Some state => Some (OrderState.current_status state)
      | None => None
      end
  end.

Definition get_active_orders (e : t) : gmap string OrderUpdate.t :=
  OrderState.current_status <$> active_orders_ e.

Definition get_stats (e : t) : Stats.t := stats_ e.

End ExecutionEngine.

(** ** [MockBroker] *)

(** [providers/mock_broker.cpp].  Every member function runs under the
    broker's mutex, [simulate_fill] from the end of its first sleep to its
    return, so each is one transition of the broker.  The draw from the
    random generator in [should_reject] and the clock reads are arguments.
    [fill_threads_] lists the order ids whose fill thread was started; a
    thread runs [simulate_fill] on its id.  The [int] counters are modelled
    without overflow, and the numeric fields of a result that the source
    leaves unassigned read as zero. *)
Module MockBroker.

Module Config.
Record t := mk {
  broker_name : string;
  fill_latency_ms : Z;
  rejection_rate : double;
  enable_partial_fills : bool;
  partial_fill_count : Z;
  slippage_bps : double;
  auto_connect : bool
}.
End Config.

Module Stats.
Record t := mk {
  orders_received : Z;
  orders_filled : Z;
  orders_rejected : Z;
  orders_cancelled : Z;
  fills_generated : Z
}.
End Stats.

Module OrderState.
Record t := mk {
  request : OrderRequest.t;
  current_status : OrderUpdate.t;
  filled_qty : double;
  remaining_qty : double;
  submit_timestamp_ns : Z;
  cancelled : bool
}.
End OrderState.

Record t := mk {
  config_ : Config.t;
  engine_ : bool;
  connected_ : bool;
  shutdown_requested_ : bool;
  next_fill_id_ : Z;
  orders_ : gmap string OrderState.t;
  market_prices_ : gmap string double;
  stats_ : Stats.t;
  fill_threads_ : list string
}.

Definition set_connected (st : t) (connected shutdown : bool) : t :=
  mk (config_ st) (engine_ st) connected shutdown (next_fill_id_ st) (orders_ st)
     (market_prices_ st) (stats_ st) (fill_threads_ st).

Definition set_orders (st : t) (v : gmap string OrderState.t) : t :=
  mk (config_ st) (engine_ st) (connected_ st) (shutdown_requested_ st) (next_fill_id_ st) v
     (market_prices_ st) (stats_ st) (fill_threads_ st).

Definition set_stats (st : t) (v : Stats.t) : t :=
  mk (config_ st) (engine_ st) (connected_ st) (shutdown_requested_ st) (next_fill_id_ st)
     (orders_ st) (market_prices_ st) v (fill_threads_ st).

Definition set_fill_threads (st : t) (v : list string) : t :=
  mk (config_ st) (engine_ st) (connected_ st) (shutdown_requested_ st) (next_fill_id_ st)
     (orders_ st) (market_prices_ st) (stats_ st) v.

Definition connect (st : t) : t * bool :=
  if connected_ st then (st, true)
  else (set_connected st true (shutdown_requested_ st), true).

Definition init (config : Config.t) : t :=
  let st :=
    {| config_ := config; engine_ := false; connected_ := false;
       shutdown_requested_ := false; next_fill_id_ := 1; orders_ := ∅;
       market_prices_ := ∅; stats_ := Stats.mk 0 0 0 0 0; fill_threads_ := [] |} in
  if Config.auto_connect config then fst (connect st) else st.

(** [disconnect]: the fill threads still waiting find [shutdown_requested_]
    set and return; they are joined and the list is cleared. *)
Definition disconnect (st : t) : t :=
  if negb (connected_ st) then st
  else set_fill_threads (set_connected st false true) [].

Definition is_connected (st : t) : bool := connected_ st.

Definition get_name (st : t) : string := Config.broker_name (config_ st).

Definition set_execution_engine (st : t) (non_null : bool) : t :=
  mk (config_ st) non_null (connected_ st) (shutdown_requested_ st) (next_fill_id_ st)
     (orders_ st) (market_prices_ st) (stats_ st) (fill_threads_ st).

Definition set_market_price (st : t) (instrument : string) (price : double) : t :=
  mk (config_ st) (engine_ st) (connected_ st) (shutdown_requested_ st) (next_fill_id_ st)
     (orders_ st) (<[instrument := price]> (market_prices_ st)) (stats_ st) (fill_threads_ st).

(** [roll] is the number [uniform_dist_(rng_)] yields when it is drawn. *)
Definition should_reject (st : t) (roll : double) : bool :=
  if Qleb (Config.rejection_rate (config_ st)) 0 then false
  else if Qleb 1 (Config.rejection_rate (config_ st)) then true
  else Qltb roll (Config.rejection_rate (config_ st)).

Definition stats_received (s : Stats.t) : Stats.t :=
  Stats.mk (Stats.orders_received s + 1)%Z (Stats.orders_filled s) (Stats.orders_rejected s)
    (Stats.orders_cancelled s) (Stats.fills_generated s).

Definition stats_rejected (s : Stats.t) : Stats.t :=
  Stats.mk (Stats.orders_received s) (Stats.orders_filled s) (Stats.orders_rejected s + 1)%Z
    (Stats.orders_cancelled s) (Stats.fills_generated s).

Definition stats_cancelled (s : Stats.t) : Stats.t :=
  Stats.mk (Stats.orders_received s) (Stats.orders_filled s) (Stats.orders_rejected s)
    (Stats.orders_cancelled s + 1)%Z (Stats.fills_generated s).

Definition stats_filled (s : Stats.t) : Stats.t :=
  Stats.mk (Stats.orders_received s) (Stats.orders_filled s + 1)%Z (Stats.orders_rejected s)
    (Stats.orders_cancelled s) (Stats.fills_generated s).

Definition stats_fill_generated (s : Stats.t) : Stats.t :=
  Stats.mk (Stats.orders_received s) (Stats.orders_filled s) (Stats.orders_rejected s)
    (Stats.orders_cancelled s) (Stats.fills_generated s + 1)%Z.

Definition submit_order (st : t) (order : OrderRequest.t) (now : Z) (roll : double)
  : t * OrderUpdate.t :=
  let st := set_stats st (stats_received (stats_ st)) in
  let result (status : OrderStatus) (reason : string) :=
    OrderUpdate.mk (OrderRequest.order_id order) status 0 (OrderRequest.quantity order) 0
      reason now None in
  let rejected (reason : string) :=
    (set_stats st (stats_rejected (stats_ st)), result REJECTED reason) in
  if should_reject st roll then rejected "Random rejection (simulated)"
  else if Qleb (OrderRequest.quantity order) 0 then rejected "Invalid quantity"
  else if bool_decide (OrderRequest.type order = LIMIT) && Qleb (OrderRequest.price order) 0
  then rejected "Invalid limit price"
  else
    let result := result ACKNOWLEDGED "Order accepted by mock broker" in
    let state := OrderState.mk order result 0 (OrderRequest.quantity order) now false in
    let st := set_orders st (<[OrderRequest.order_id order := state]> (orders_ st)) in
    let st :=
      if negb (shutdown_requested_ st)
      then set_fill_threads st (fill_threads_ st ++ [OrderRequest.order_id order])
      else st in
    (st, result).

Definition cancel_order (st : t) (order_id : string) (now : Z) : t * OrderUpdate.t :=
  match orders_ st !! order_id with
  | None => (st, OrderUpdate.mk order_id REJECTED 0 0 0 "Order not found" now None)
  | Some state =>
      let cs := OrderState.current_status state in
      if bool_decide (OrderUpdate.status cs = FILLED)
         || bool_decide (OrderUpdate.status cs = CANCELLED)
         || bool_decide (OrderUpdate.status cs = REJECTED)
      then
        (st, OrderUpdate.mk order_id (OrderUpdate.status cs) (OrderUpdate.filled_qty cs)
               (OrderUpdate.remaining_qty cs) (OrderUpdate.avg_fill_price cs)
               "Order already in terminal state" now None)
      else
        let cs' :=
          OrderUpdate.mk (OrderUpdate.order_id cs) CANCELLED (OrderUpdate.filled_qty cs)
            (OrderUpdate.remaining_qty cs) (OrderUpdate.avg_fill_price cs) "Cancelled by user"
            (OrderUpdate.timestamp_ns cs) (OrderUpdate.exchange_order_id cs) in
        let state' :=
          OrderState.mk (OrderState.request state) cs' (OrderState.filled_qty state)
            (OrderState.remaining_qty state) (OrderState.submit_timestamp_ns state) true in
        let st := set_orders st (<[order_id := state']> (orders_ st)) in
        let st := set_stats st (stats_cancelled (stats_ st)) in
        (st, OrderUpdate.mk order_id CANCELLED (OrderState.filled_qty state)
               (OrderState.remaining_qty state) (OrderUpdate.avg_fill_price cs)
               "Order cancelled" now None)
  end.

Definition modify_order (st : t) (modification : OrderModification.t) : t * OrderUpdate.t :=
  let order_id := OrderModification.order_id modification in
  let now := OrderModification.timestamp_ns modification in
  match orders_ st !! order_id with
  | None => (st, OrderUpdate.mk order_id REJECTED 0 0 0 "Order not found" now None)
  | Some state =>
      let request := OrderState.request state in
      let request :=
        match OrderModification.new_price modification with
        | Some price =>
            OrderRequest.mk (OrderRequest.order_id request) (OrderRequest.instrument request)
              (OrderRequest.side request) (OrderRequest.type request)
              (OrderRequest.quantity request) price (OrderRequest.tif request)
              (OrderRequest.strategy_id request) (OrderRequest.user_comment request)
              (OrderRequest.timestamp_ns request) (OrderRequest.stop_price request)
        | None => request
        end in
      let '(request, remaining_qty) :=
        match OrderModification.new_quantity modification with
        | Some quantity =>
            (OrderRequest.mk (OrderRequest.order_id request) (OrderRequest.instrument request)
               (OrderRequest.side request) (OrderRequest.type request)
               quantity (OrderRequest.price request) (OrderRequest.tif request)
               (OrderRequest.strategy_id request) (OrderRequest.user_comment request)
               (OrderRequest.timestamp_ns request) (OrderRequest.stop_price request),
             quantity - OrderState.filled_qty state)
        | None => (request, OrderState.remaining_qty state)
        end in
      let result :=
        OrderUpdate.mk order_id ACKNOWLEDGED (OrderState.filled_qty state) remaining_qty
          (OrderUpdate.avg_fill_price (OrderState.current_status state))
          "Modification accepted" now None in
      let state' :=
        OrderState.mk request result (OrderState.filled_qty state) remaining_qty
          (OrderState.submit_timestamp_ns state) (OrderState.cancelled state) in
      (set_orders st (<[order_id := state']> (orders_ st)), result)
  end.

Definition get_order_status (st : t) (order_id : string) : option OrderUpdate.t :=
  OrderState.current_status <$> orders_ st !! order_id.

Definition get_stats (st : t) : Stats.t := stats_ st.

(** ["FILL_<name>_<id>"], the id padded with zeros to eight digits; the
    counter is advanced. *)
Definition generate_fill_id (config : Config.t) (next_fill_id : Z) : string * Z :=
  (String.append "FILL_"
     (String.append (Config.broker_name config)
        (String.append "_" (zero_pad 8 (string_of_Z next_fill_id)))),
   (next_fill_id + 1)%Z).

Definition calculate_fill_price (config : Config.t) (order : OrderRequest.t)
  (market_price : double) : double :=
  let base_price :=
    if bool_decide (OrderRequest.type order = MARKET) then market_price
    else OrderRequest.price order in
  if Qltb 0 (Config.slippage_bps config) then
    let slippage_factor := Config.slippage_bps config / 10000 in
    match OrderRequest.side order with
    | BUY => base_price * (1 + slippage_factor)
    | SELL => base_price * (1 - slippage_factor)
    end
  else base_price.

(** One pass of the loop body of [simulate_fill] for loop index [i]: the
    fill generated and the order state, fill-id counter and statistics after
    it.  [now] is the clock read for the fill's timestamp. *)
Definition generate_fill (config : Config.t) (order_id : string) (num_fills i : Z)
  (qty_per_fill market_price : double) (now : Z)
  (state : OrderState.t) (next_fill_id : Z) (stats : Stats.t)
  : Fill.t * OrderState.t * Z * Stats.t :=
  let request := OrderState.request state in
  let fill_qty :=
    if Z.eqb i (num_fills - 1) then OrderState.remaining_qty state else qty_per_fill in
  let '(fill_id, next_fill_id) := generate_fill_id config next_fill_id in
  let fill :=
    Fill.mk fill_id order_id (OrderRequest.instrument request) (OrderRequest.side request)
      fill_qty (calculate_fill_price config request market_price) (fill_qty * (1 # 10000))
      now None in
  let filled_qty := OrderState.filled_qty state + fill_qty in
  let remaining_qty := OrderState.remaining_qty state - fill_qty in
  let cs := OrderState.current_status state in
  let total_value :=
    OrderUpdate.avg_fill_price cs * (filled_qty - fill_qty) + Fill.price fill * fill_qty in
  let filled := Qleb remaining_qty EPS in
  let cs :=
    OrderUpdate.mk (OrderUpdate.order_id cs) (if filled then FILLED else PARTIALLY_FILLED)
      filled_qty remaining_qty (total_value / filled_qty) (OrderUpdate.reason cs)
      (OrderUpdate.timestamp_ns cs) (OrderUpdate.exchange_order_id cs) in
  let stats := if filled then stats_filled stats else stats in
  let stats := stats_fill_generated stats in
  (fill,
   OrderState.mk request cs filled_qty remaining_qty (OrderState.submit_timestamp_ns state)
     (OrderState.cancelled state),
   next_fill_id, stats).

(** [for (int i = 0; i < num_fills && state.remaining_qty > 1e-8 &&
    !state.cancelled; ++i)], entered at index [i] with [k = num_fills - i]
    passes left; [clock i] is the clock read of pass [i].  The fills are
    returned in the order they are generated. *)
Fixpoint fill_loop (k : nat) (config : Config.t) (order_id : string) (num_fills i : Z)
  (qty_per_fill market_price : double) (clock : Z -> Z)
  (state : OrderState.t) (next_fill_id : Z) (stats : Stats.t)
  : list Fill.t * OrderState.t * Z * Stats.t :=
  match k with
  | O => ([], state, next_fill_id, stats)
  | S k' =>
      if Qltb EPS (OrderState.remaining_qty state) && negb (OrderState.cancelled state) then
        let '(fill, state, next_fill_id, stats) :=
          generate_fill config order_id num_fills i qty_per_fill market_price (clock i)
            state next_fill_id stats in
        let '(fills, state, next_fill_id, stats) :=
          fill_loop k' config order_id num_fills (i + 1) qty_per_fill market_price clock
            state next_fill_id stats in
        (fill :: fills, state, next_fill_id, stats)
      else ([], state, next_fill_id, stats)
  end.

(** [simulate_fill]: the broker afterwards and the fills generated, each of
    which is handed to [engine_->on_fill] when the engine is set. *)
Definition simulate_fill (st : t) (order_id : string) (clock : Z -> Z) : t * list Fill.t :=
  if shutdown_requested_ st then (st, [])
  else
    match orders_ st !! order_id with
    | None => (st, [])
    | Some state =>
        if OrderState.cancelled state then (st, [])
        else
          let request := OrderState.request state in
          let market_price :=
            match market_prices_ st !! OrderRequest.instrument request with
            | Some price => price
            | None =>
                if bool_decide (OrderRequest.type request = MARKET) then 100
                else OrderRequest.price request
            end in
          let num_fills :=
            if Config.enable_partial_fills (config_ st)
            then Config.partial_fill_count (config_ st) else 1%Z in
          let qty_per_fill := OrderState.remaining_qty state / inject_Z num_fills in
          let '(fills, state, next_fill_id, stats) :=
            fill_loop (Z.to_nat num_fills) (config_ st) order_id num_fills 0 qty_per_fill
              market_price clock state (next_fill_id_ st) (stats_ st) in
          (mk (config_ st) (engine_ st) (connected_ st) (shutdown_requested_ st) next_fill_id
              (<[order_id := state]> (orders_ st)) (market_prices_ st) stats (fill_threads_ st),
           fills)
    end.

(** The calls [engine_->on_fill(fill)] made for the fills generated. *)
Definition notified (st : t) (fills : list Fill.t) : list Fill.t :=
  if engine_ st then fills else [].

End MockBroker.

(** ** Vocabulary of the statements *)

(** The signed quantity of a fill: [(side == BUY ? 1.0 : -1.0) * quantity]. *)
Definition signed_qty (fill : Fill.t) : double :=
  side_sign (Fill.side fill) * Fill.quantity fill.

(** Sum of the signed quantities of a list of fills. *)
Definition total_qty (fills : list Fill.t) : double :=
  fold_right (fun fill acc => signed_qty fill + acc) 0 fills.

(** Sum of signed quantity times price over a list of fills. *)
Definition total_value (fills : list Fill.t) : double :=
  fold_right (fun fill acc => signed_qty fill * Fill.price fill + acc) 0 fills.

(** A fill on EUR/USD, as built by the helper of [tests/test_execution.cpp]. *)
Definition test_fill (fill_id order_id : string) (side : OrderSide) (quantity price : double)
  : Fill.t :=
  Fill.mk fill_id order_id "EUR/USD" side quantity price 0 0 None.

(** An order on EUR/USD, as built by the helper of [tests/test_execution.cpp]. *)
Definition test_order (order_id : string) (side : OrderSide) (quantity price : double)
  (type : OrderType) : OrderRequest.t :=
  OrderRequest.mk order_id "EUR/USD" side type quantity price DAY "test_strategy" "" 0 None.

(** Test scenarios of the position manager: long 100 @ 1.10, then a sell of
    150 @ 1.11 (reverse through zero) or of 60 @ 1.11 (reduce). *)
Definition buy_100 : Fill.t := test_fill "F1" "O1" BUY 100 (110 # 100).

Definition sell_150 : Fill.t := test_fill "F2" "O2" SELL 150 (111 # 100).

Definition long_100 : PositionManager.t :=
  PositionManager.on_fill PositionManager.init buy_100.

(** A fill whose quantity is not positive. *)
Definition negative_qty_fill : Fill.t := test_fill "F0" "O0" BUY (-5) (110 # 100).

(** Sum of the per-position realized PnL over the stored positions. *)
Definition sum_realized_pnl (positions : gmap string Position.t) : double :=
  map_fold (fun _ pos acc => acc + Position.realized_pnl pos) 0 positions.

(** The mutating operations of the position manager, and runs of them. *)
Inductive pm_op :=
  | PmOnFill (fill : Fill.t)
  | PmResetDaily.

Definition pm_step (st : PositionManager.t) (op : pm_op) : PositionManager.t :=
  match op with
  | PmOnFill fill => PositionManager.on_fill st fill
  | PmResetDaily => PositionManager.reset_daily st
  end.

Definition pm_run (ops : list pm_op) (st : PositionManager.t) : PositionManager.t :=
  fold_left pm_step ops st.




(** The mutating operations of the risk manager.  A step is taken against
    the state [pm] of the position manager at the time of the call. *)
Inductive rm_op :=
  | RmCheckOrder (order : OrderRequest.t) (current_price : double) (now_check now_push : Z)
  | RmOnFill (fill : Fill.t)
  | RmOnOrderRejected (order_id : string)
  | RmOnOrderCancelled (order_id : string)
  | RmUpdateMarketPrices (prices : gmap string double)
  | RmSetPositionManager (non_null : bool)
  | RmResetDaily.

Definition rm_step (st : RiskManager.t) (pm : PositionManager.t) (op : rm_op) : RiskManager.t :=
  match op with
  | RmCheckOrder order current_price now_check now_push =>
      fst (RiskManager.check_order st pm order current_price now_check now_push)
  | RmOnFill fill => RiskManager.on_fill st pm fill
  | RmOnOrderRejected order_id => RiskManager.on_order_rejected st order_id
  | RmOnOrderCancelled order_id => RiskManager.on_order_cancelled st order_id
  | RmUpdateMarketPrices prices => RiskManager.update_market_prices st pm prices
  | RmSetPositionManager non_null => RiskManager.set_position_manager st non_null
  | RmResetDaily => RiskManager.reset_daily st
  end.

Definition rm_run (trace : list (PositionManager.t * rm_op)) (st : RiskManager.t) : RiskManager.t :=
  fold_left (fun st '(pm, op) => rm_step st pm op) trace st.

Definition is_reset (op : rm_op) : bool :=
  match op with RmResetDaily => true | _ => false end.

(** The order ids whose reservation is expected to be open after a step:
    an approval opens the id, the first fill, rejection or cancellation
    closes it, a daily reset closes all. *)
Definition open_after (st : RiskManager.t) (pm : PositionManager.t) (op : rm_op)
  (open : gset string) : gset string :=
  match op with
  | RmCheckOrder order current_price now_check now_push =>
      if RiskCheckResult.allowed
           (snd (RiskManager.check_order st pm order current_price now_check now_push))
      then {[OrderRequest.order_id order]} ∪ open
      else open
  | RmOnFill fill => open ∖ {[Fill.order_id fill]}
  | RmOnOrderRejected order_id => open ∖ {[order_id]}
  | RmOnOrderCancelled order_id => open ∖ {[order_id]}
  | RmResetDaily => ∅
  | _ => open
  end.

Fixpoint open_orders (trace : list (PositionManager.t * rm_op)) (st : RiskManager.t)
  (open : gset string) : gset string :=
  match trace with
  | [] => open
  | (pm, op) :: rest => open_orders rest (rm_step st pm op) (open_after st pm op open)
  end.

(** The limits of the end-to-end scenarios. *)
Definition scenario_limits : RiskLimits.t :=
  {| RiskLimits.max_position_size := 1000;
     RiskLimits.max_total_exposure := 100000;
     RiskLimits.max_single_position_pct := 0;
     RiskLimits.max_daily_loss := 5000;
     RiskLimits.max_daily_loss_pct := 0;
     RiskLimits.max_drawdown_from_high := 1000;
     RiskLimits.max_orders_per_minute := 100;
     RiskLimits.max_orders_per_day := 10000;
     RiskLimits.max_order_size := 500;
     RiskLimits.bankroll := 100000;
     RiskLimits.min_free_capital_pct := 1 # 10 |}.

(** The same limits with a daily-loss limit of 100 and a drawdown limit of 50. *)
Definition tight_limits : RiskLimits.t :=
  {| RiskLimits.max_position_size := 1000;
     RiskLimits.max_total_exposure := 100000;
     RiskLimits.max_single_position_pct := 0;
     RiskLimits.max_daily_loss := 100;
     RiskLimits.max_daily_loss_pct := 0;
     RiskLimits.max_drawdown_from_high := 50;
     RiskLimits.max_orders_per_minute := 100;
     RiskLimits.max_orders_per_day := 10000;
     RiskLimits.max_order_size := 500;
     RiskLimits.bankroll := 100000;
     RiskLimits.min_free_capital_pct := 1 # 10 |}.

(** A risk manager wired to a position manager. *)
Definition wired (limits : RiskLimits.t) : RiskManager.t :=
  RiskManager.set_position_manager (RiskManager.init limits) true.

(** Buy 100 @ 2 then sell 100 @ 0.5: a flat book with a realized loss of 150. *)
Definition pm_loss : PositionManager.t :=
  PositionManager.on_fill
    (PositionManager.on_fill PositionManager.init (test_fill "F1" "O1" BUY 100 2))
    (test_fill "F2" "O2" SELL 100 (1 # 2)).

(** The risk manager after the loss has been marked and the next order has
    tripped the daily-loss halt. *)
Definition rm_marked : RiskManager.t :=
  RiskManager.update_market_prices (wired tight_limits) pm_loss ∅.

Definition rm_halted : RiskManager.t :=
  fst (RiskManager.check_order rm_marked pm_loss (test_order "O3" BUY 10 0 MARKET) 1 1000 1001).

(** A stop-limit order with a negative limit price, and an order of quantity 0. *)
Definition stop_limit_bad_price : OrderRequest.t := test_order "O1" BUY 100 (-1) STOP_LIMIT.

Definition zero_qty_order : OrderRequest.t := test_order "O1" BUY 0 0 MARKET.

(** The clock values read by the [check_order] calls of a trace, in order. *)
Fixpoint clock_reads (trace : list (PositionManager.t * rm_op)) : list Z :=
  match trace with
  | [] => []
  | (_, RmCheckOrder _ _ now_check now_push) :: rest => now_check :: now_push :: clock_reads rest
  | _ :: rest => clock_reads rest
  end.

(** The timestamps of the approvals granted along a trace, oldest first. *)
Fixpoint approvals (trace : list (PositionManager.t * rm_op)) (st : RiskManager.t) : list Z :=
  match trace with
  | [] => []
  | (pm, op) :: rest =>
      match op with
      | RmCheckOrder order current_price now_check now_push =>
          if RiskCheckResult.allowed
               (snd (RiskManager.check_order st pm order current_price now_check now_push))
          then [now_push] else []
      | _ => []
      end ++ approvals rest (rm_step st pm op)
  end.

(** How many of the timestamps fall in the 60 s window starting at [start]. *)
Definition count_in_window (start : Z) (timestamps : list Z) : nat :=
  length (List.filter
            (fun ts => (start <=? ts)%Z && (ts <=? start + RiskManager.one_minute_ns)%Z)
            timestamps).

(** The limits of the scenarios with at most two orders per minute, and three
    orders checked within three microseconds. *)
Definition two_per_minute : RiskLimits.t :=
  {| RiskLimits.max_position_size := 1000;
     RiskLimits.max_total_exposure := 100000;
     RiskLimits.max_single_position_pct := 0;
     RiskLimits.max_daily_loss := 5000;
     RiskLimits.max_daily_loss_pct := 0;
     RiskLimits.max_drawdown_from_high := 1000;
     RiskLimits.max_orders_per_minute := 2;
     RiskLimits.max_orders_per_day := 10000;
     RiskLimits.max_order_size := 500;
     RiskLimits.bankroll := 100000;
     RiskLimits.min_free_capital_pct := 1 # 10 |}.

Definition three_checks : list (PositionManager.t * rm_op) :=
  [(PositionManager.init, RmCheckOrder (test_order "O1" BUY 10 0 MARKET) 1 1000 1001);
   (PositionManager.init, RmCheckOrder (test_order "O2" BUY 10 0 MARKET) 1 2000 2001);
   (PositionManager.init, RmCheckOrder (test_order "O3" BUY 10 0 MARKET) 1 3000 3001)].



Definition engine_run (fills : list Fill.t) (w : ExecutionEngine.world) : ExecutionEngine.world :=
  fold_left ExecutionEngine.on_fill fills w.

(** An engine without bus, one provider and one callback of each kind,
    wired to fresh managers under the scenario limits. *)
Definition engine0 : ExecutionEngine.t :=
  ExecutionEngine.register_fill_callback
    (ExecutionEngine.register_order_callback
       (ExecutionEngine.register_provider (ExecutionEngine.init false false) "mock" true)).

Definition world0 : ExecutionEngine.world :=
  ExecutionEngine.mkWorld engine0 (wired scenario_limits) PositionManager.init [].

(** Scenario 6: a market buy of 300 acknowledged by the broker, then the
    first of three partial fills. *)
Definition order_300 : OrderRequest.t := test_order "O1" BUY 300 0 MARKET.

Definition ack_300 : OrderUpdate.t :=
  OrderUpdate.mk "O1" ACKNOWLEDGED 0 300 0 "Order accepted by mock broker" 10 None.

Definition world_submitted : ExecutionEngine.world :=
  match ExecutionEngine.submit_order world0 order_300 10 11 12 true (Returns ack_300) with
  | Some (w, _) => w
  | None => world0
  end.

Definition fill_100 (fill_id : string) : Fill.t :=
  Fill.mk fill_id "O1" "EUR/USD" BUY 100 (110 # 100) (1 # 100) 20 None.

Definition world_partial : ExecutionEngine.world :=
  ExecutionEngine.on_fill world_submitted (fill_100 "FILL_1").

(** The broker reports the order cancelled, and later reports it once more. *)
Definition cancelled_300 : OrderUpdate.t :=
  OrderUpdate.mk "O1" CANCELLED 0 300 0 "Order cancelled" 30 None.

Definition late_300 : OrderUpdate.t :=
  OrderUpdate.mk "O1" PARTIALLY_FILLED 100 200 (110 # 100) "late" 40 None.

Definition world_cancelled : ExecutionEngine.world :=
  ExecutionEngine.on_order_update world_submitted cancelled_300.



(** ** Further vocabulary *)


(** Sum of the per-position fill counters over the stored positions. *)
Definition sum_num_fills (positions : gmap string Position.t) : Z :=
  map_fold (fun _ pos acc => (acc + Position.num_fills_today pos)%Z) 0%Z positions.

(** The other side. *)
Definition opposite (side : OrderSide) : OrderSide :=
  match side with BUY => SELL | SELL => BUY end.

(** Scenario 1: the closing sale of 100 @ 1.105. *)
Definition sell_100 : Fill.t := test_fill "F2" "O2" SELL 100 (1105 # 1000).

(** The calls into the engine, each with the answers of the outside world
    it consumes (clock reads, provider connectivity and replies), and runs of
    them.  A run is [None] when a call dereferences a null provider. *)
Inductive engine_op :=
  | EngRegisterProvider (name : string) (non_null : bool)
  | EngSetInstrumentProvider (instrument provider_name : string)
  | EngRegisterOrderCallback
  | EngRegisterFillCallback
  | EngSubmit (order : OrderRequest.t) (now now_check now_push : Z) (connected : bool)
      (reply : provider_reply)
  | EngCancel (order_id : string) (now : Z) (reply : provider_reply)
  | EngModify (modification : OrderModification.t) (reply : provider_reply)
  | EngOnFill (fill : Fill.t)
  | EngOnOrderUpdate (update : OrderUpdate.t).

Definition engine_step (w : ExecutionEngine.world) (op : engine_op)
  : option ExecutionEngine.world :=
  match op with
  | EngRegisterProvider name non_null =>
      Some (ExecutionEngine.set_engine w
              (ExecutionEngine.register_provider (ExecutionEngine.engine w) name non_null))
  | EngSetInstrumentProvider instrument provider_name =>
      Some (ExecutionEngine.set_engine w
              (ExecutionEngine.set_instrument_provider (ExecutionEngine.engine w)
                 instrument provider_name))
  | EngRegisterOrderCallback =>
      Some (ExecutionEngine.set_engine w
              (ExecutionEngine.register_order_callback (ExecutionEngine.engine w)))
  | EngRegisterFillCallback =>
      Some (ExecutionEngine.set_engine w
              (ExecutionEngine.register_fill_callback (ExecutionEngine.engine w)))
  | EngSubmit order now now_check now_push connected reply =>
      fst <$> ExecutionEngine.submit_order w order now now_check now_push connected reply
  | EngCancel order_id now reply => Some (fst (ExecutionEngine.cancel_order w order_id now reply))
  | EngModify modification reply => Some (fst (ExecutionEngine.modify_order w modification reply))
  | EngOnFill fill => Some (ExecutionEngine.on_fill w fill)
  | EngOnOrderUpdate update => Some (ExecutionEngine.on_order_update w update)
  end.

Fixpoint engine_ops (ops : list engine_op) (w : ExecutionEngine.world)
  : option ExecutionEngine.world :=
  match ops with
  | [] => Some w
  | op :: rest =>
      match engine_step w op with
      | Some w' => engine_ops rest w'
      | None => None
      end
  end.

(** The invocations of fill callback [cb] recorded in a trace. *)
Definition fill_callback_calls (cb : nat) (events : list event) : list Fill.t :=
  omap (fun ev => match ev with
                  | FillCallback cb' fill => if Nat.eqb cb cb' then Some fill else None
                  | _ => None
                  end) events.

(** The invocations of order callback [cb] recorded in a trace. *)
Definition order_callback_calls (cb : nat) (events : list event) : list OrderUpdate.t :=
  omap (fun ev => match ev with
                  | OrderCallback cb' update => if Nat.eqb cb cb' then Some update else None
                  | _ => None
                  end) events.


(** What the engine's bookkeeping keeps within bounds: the history of
    completed orders, and the active-order counter of the statistics
    against the orders actually tracked. *)
Definition tracking_bounds (e : ExecutionEngine.t) : Prop :=
  (size (ExecutionEngine.completed_orders_ e) <= 1000)%nat /\
  (Z.of_nat (size (ExecutionEngine.active_orders_ e))
   <= Stats.active_orders (ExecutionEngine.stats_ e))%Z.

(** An engine whose history is full: completed orders ["B0000"] to
    ["B0999"], and one active order ["A"]. *)
Definition history_key (n : nat) : string :=
  String.append "B" (zero_pad 4 (string_of_Z (Z.of_nat n))).

Definition full_history : gmap string OrderState.t :=
  list_to_map ((fun n => (history_key n, OrderState.mk order_300 cancelled_300 "mock" 10 30))
                 <$> seq 0 1000).

Definition full_engine : ExecutionEngine.t :=
  ExecutionEngine.set_completed_orders
    (ExecutionEngine.set_active_orders engine0
       {["A" := OrderState.mk (test_order "A" BUY 300 0 MARKET)
                  (OrderUpdate.mk "A" ACKNOWLEDGED 0 300 0 "" 10 None) "mock" 10 10]})
    full_history.

(** The fills delivered in a run of engine calls, as position-manager calls. *)
Definition engine_fills (ops : list engine_op) : list pm_op :=
  omap (fun op => match op with EngOnFill fill => Some (PmOnFill fill) | _ => None end) ops.

(** A newly constructed engine over the scenario's managers, and a short
    session on it: an order submitted, partly filled, then cancelled. *)
Definition new_world : ExecutionEngine.world :=
  ExecutionEngine.mkWorld (ExecutionEngine.init false false) (wired scenario_limits)
    PositionManager.init [].

Definition session : list engine_op :=
  [ EngRegisterProvider "mock" true; EngRegisterOrderCallback; EngRegisterFillCallback;
    EngSubmit order_300 10 11 12 true (Returns ack_300);
    EngOnFill (fill_100 "FILL_1");
    EngCancel "O1" 30 (Returns cancelled_300) ].

(** A broker that splits every order into three fills, connected and wired
    to the engine; the order of scenario 6 submitted to it; a clock. *)
Definition broker_config : MockBroker.Config.t :=
  MockBroker.Config.mk "mock" 100 0 true 3 0 true.

Definition broker0 : MockBroker.t :=
  MockBroker.set_execution_engine (MockBroker.init broker_config) true.

Definition broker_submitted : MockBroker.t :=
  fst (MockBroker.submit_order broker0 order_300 10 (1 # 2)).

Definition broker_state_300 : MockBroker.OrderState.t :=
  MockBroker.OrderState.mk order_300 ack_300 0 300 10 false.

Definition tick (i : Z) : Z := (20 + i)%Z.

(** A limit buy of 100 at 1.10. *)
Definition limit_buy : OrderRequest.t := test_order "O2" BUY 100 (110 # 100) LIMIT.
(** ** Realized amounts of a run *)

(** What [on_fill] adds to [pos.realized_pnl] and to [total_realized_pnl_]
    for [fill] in state [st], with the instrument: nothing when the
    instrument has no entry yet or the fill takes the increasing branch. *)
Definition realized_term (st : PositionManager.t) (fill : Fill.t) : option (string * double) :=
  match PositionManager.positions_ st !! Fill.instrument fill with
  | None => None
  | Some pos =>
      let signed_fill_qty := side_sign (Fill.side fill) * Fill.quantity fill in
      if Qltb 0 (Position.quantity pos * signed_fill_qty) || Qeqb (Position.quantity pos) 0
      then None
      else
        Some (Fill.instrument fill,
              PositionManager.calculate_realized_pnl (Position.quantity pos)
                (Position.entry_price pos) signed_fill_qty (Fill.price fill))
  end.

(** The amounts realized along a run since its last [reset_daily], oldest
    first, appended to those realized before the run, [acc]. *)
Fixpoint realized_terms (ops : list pm_op) (st : PositionManager.t)
  (acc : list (string * double)) : list (string * double) :=
  match ops with
  | [] => acc
  | PmOnFill fill :: rest =>
      realized_terms rest (PositionManager.on_fill st fill)
        (acc ++ option_list (realized_term st fill))
  | PmResetDaily :: rest => realized_terms rest (PositionManager.reset_daily st) []
  end.

(** [x += amount] for each amount in turn, starting from [x = 0.0]. *)
Definition running_sum (amounts : list double) : double := fold_left Qplus amounts 0.

(** The amounts realized on one instrument. *)
Definition terms_on (instrument : string) (terms : list (string * double)) : list double :=
  (filter (fun term => term.1 = instrument) terms).*2.

(** ** The position accounting in binary64 *)

(** [PositionManager::on_fill] and its helpers once more, statement by
    statement, over IEEE 754 binary64 numbers instead of rationals, so that
    every [+=] rounds as in the source.  [sum_realized_pnl] adds the
    positions' [realized_pnl] in the order of the map. *)
Module PositionManagerBinary64.

Module Fill.
Record t := mk {
  fill_id : string;
  order_id : string;
  instrument : string;
  side : OrderSide;
  quantity : float;
  price : float;
  commission : float;
  timestamp_ns : Z;
  exchange_trade_id : option string
}.
End Fill.

Module Position.
Record t := mk {
  instrument : string;
  quantity : float;
  entry_price : float;
  unrealized_pnl : float;
  realized_pnl : float;
  last_update_ns : Z;
  num_fills_today : Z;
  total_commission : float
}.
End Position.

Record t := mkState {
  positions_ : gmap string Position.t;
  total_realized_pnl_ : float;
  total_fills_today_ : Z
}.

Definition init : t :=
  {| positions_ := ∅; total_realized_pnl_ := 0%float; total_fills_today_ := 0 |}.

(** [std::min(a, b)]: [b] when [b < a], else [a]. *)
Definition std_min (a b : float) : float := if PrimFloat.ltb b a then b else a.

Definition calculate_weighted_avg_price
  (current_qty current_entry fill_qty fill_price : float) : float :=
  if PrimFloat.ltb (PrimFloat.abs (current_qty + fill_qty)%float) 1e-8%float then 0%float
  else
    let total_cost := (current_qty * current_entry + fill_qty * fill_price)%float in
    let total_qty := (current_qty + fill_qty)%float in
    (total_cost / total_qty)%float.

Definition calculate_realized_pnl
  (position_qty entry_price fill_qty fill_price : float) : float :=
  let qty_to_close := std_min (PrimFloat.abs position_qty) (PrimFloat.abs fill_qty) in
  let reducing := PrimFloat.ltb (position_qty * fill_qty)%float 0%float in
  if negb reducing then 0%float
  else if PrimFloat.ltb 0%float position_qty then (qty_to_close * (fill_price - entry_price))%float
  else (qty_to_close * (entry_price - fill_price))%float.

Definition apply_fill (pos : Position.t) (total_realized : float) (fill : Fill.t)
  : Position.t * float :=
  let signed_fill_qty :=
    ((match Fill.side fill with BUY => 1 | SELL => -1 end) * Fill.quantity fill)%float in
  let same_direction := PrimFloat.ltb 0%float (Position.quantity pos * signed_fill_qty)%float in
  let '(qty, entry, rpnl, total) :=
    if same_direction || PrimFloat.eqb (Position.quantity pos) 0%float then
      ((Position.quantity pos + signed_fill_qty)%float,
       calculate_weighted_avg_price (Position.quantity pos) (Position.entry_price pos)
         signed_fill_qty (Fill.price fill),
       Position.realized_pnl pos,
       total_realized)
    else
      let realized :=
        calculate_realized_pnl (Position.quantity pos) (Position.entry_price pos)
          signed_fill_qty (Fill.price fill) in
      let old_qty := Position.quantity pos in
      let new_qty := (Position.quantity pos + signed_fill_qty)%float in
      let entry :=
        if (PrimFloat.ltb 0%float old_qty && PrimFloat.ltb new_qty 0%float)
           || (PrimFloat.ltb old_qty 0%float && PrimFloat.ltb 0%float new_qty)
        then Fill.price fill
        else Position.entry_price pos in
      (new_qty, entry, (Position.realized_pnl pos + realized)%float,
       (total_realized + realized)%float) in
  ({| Position.instrument := Position.instrument pos;
      Position.quantity := qty;
      Position.entry_price := entry;
      Position.unrealized_pnl := Position.unrealized_pnl pos;
      Position.realized_pnl := rpnl;
      Position.last_update_ns := Fill.timestamp_ns fill;
      Position.num_fills_today := (Position.num_fills_today pos + 1)%Z;
      Position.total_commission := (Position.total_commission pos + Fill.commission fill)%float |},
   total).

Definition new_position (fill : Fill.t) : Position.t :=
  {| Position.instrument := Fill.instrument fill;
     Position.quantity :=
       ((match Fill.side fill with BUY => 1 | SELL => -1 end) * Fill.quantity fill)%float;
     Position.entry_price := Fill.price fill;
     Position.unrealized_pnl := 0%float;
     Position.realized_pnl := 0%float;
     Position.last_update_ns := Fill.timestamp_ns fill;
     Position.num_fills_today := 1;
     Position.total_commission := Fill.commission fill |}.

Definition on_fill (st : t) (fill : Fill.t) : t :=
  let fills := (total_fills_today_ st + 1)%Z in
  match positions_ st !! Fill.instrument fill with
  | None =>
      {| positions_ := <[Fill.instrument fill := new_position fill]> (positions_ st);
         total_realized_pnl_ := total_realized_pnl_ st;
         total_fills_today_ := fills |}
  | Some pos =>
      let '(pos', total) := apply_fill pos (total_realized_pnl_ st) fill in
      {| positions_ := <[Fill.instrument fill := pos']> (positions_ st);
         total_realized_pnl_ := total;
         total_fills_today_ := fills |}
  end.

Definition get_total_realized_pnl (st : t) : float := total_realized_pnl_ st.

Definition sum_realized_pnl (positions : gmap string Position.t) : float :=
  map_fold (fun _ pos acc => (acc + Position.realized_pnl pos)%float) 0%float positions.

End PositionManagerBinary64.

(** Five fills on two instruments: buy 2 A @ 1.0, buy 1 B @ 1.0, sell 1 A @
    1.1, sell 1 B @ 10.5, sell 1 A @ 1.2. *)
Definition binary64_fill (fill_id instrument : string) (side : OrderSide)
  (quantity price : float) : PositionManagerBinary64.Fill.t :=
  PositionManagerBinary64.Fill.mk fill_id "O1" instrument side quantity price 0%float 0 None.

Definition five_fills : list PositionManagerBinary64.Fill.t :=
  [ binary64_fill "F1" "A" BUY 2%float 1%float;
    binary64_fill "F2" "B" BUY 1%float 1%float;
    binary64_fill "F3" "A" SELL 1%float 1.1%float;
    binary64_fill "F4" "B" SELL 1%float 10.5%float;
    binary64_fill "F5" "A" SELL 1%float 1.2%float ].




(** ** The order accounting in binary64 *)

(** The assignments of [ExecutionEngine::on_fill] to an active order's
    [filled_qty], [remaining_qty] and [avg_fill_price], statement by
    statement, over IEEE 754 binary64 numbers; [requested] is
    [state.request.quantity]. *)
Module ExecutionEngineBinary64.

Record t := mk {
  filled_qty : float;
  remaining_qty : float;
  avg_fill_price : float
}.

Definition fill_order_state (requested : float) (cs : t)
  (fill : PositionManagerBinary64.Fill.t) : t :=
  let filled_qty := (filled_qty cs + PositionManagerBinary64.Fill.quantity fill)%float in
  let remaining_qty := (requested - filled_qty)%float in
  let total_value :=
    (avg_fill_price cs * (filled_qty - PositionManagerBinary64.Fill.quantity fill)
     + PositionManagerBinary64.Fill.price fill * PositionManagerBinary64.Fill.quantity fill)%float in
  {| filled_qty := filled_qty;
     remaining_qty := remaining_qty;
     avg_fill_price := (total_value / filled_qty)%float |}.

(** An acknowledged order: nothing filled, everything open. *)
Definition acknowledged (requested : float) : t :=
  {| filled_qty := 0%float; remaining_qty := requested; avg_fill_price := 0%float |}.

End ExecutionEngineBinary64.

(** Two fills of one order: 0.1 @ 1.1, then 0.2 @ 1.3. *)
Definition two_fills : list PositionManagerBinary64.Fill.t :=
  [ binary64_fill "F1" "EUR/USD" BUY 0.1%float 1.1%float;
    binary64_fill "F2" "EUR/USD" BUY 0.2%float 1.3%float ].

(** A fill of quantity zero. *)
Definition empty_fill : PositionManagerBinary64.Fill.t :=
  binary64_fill "F0" "EUR/USD" BUY 0%float 1.1%float.

(** The same broker with partial fills disabled, after the same submission. *)
Definition single_fill_broker : MockBroker.t :=
  fst (MockBroker.submit_order
         (MockBroker.set_execution_engine
            (MockBroker.init (MockBroker.Config.mk "mock" 100 0 false 3 0 true)) true)
         order_300 10 (1 # 2)).

(** * Properties *)

(** ** Boolean comparisons on doubles *)

Lemma Qltb_true (a b : Q) : Qltb a b = true <-> a < b.
Proof.
  unfold Qltb. rewrite negb_true_iff. split.
  - intros H. apply Qnot_le_lt. intros Hle. apply Qle_bool_iff in Hle. congruence.
  - intros H. destruct (Qle_bool b a) eqn:E; [|reflexivity].
    apply Qle_bool_iff in E. lra.
Qed.

Lemma Qltb_false (a b : Q) : Qltb a b = false <-> b <= a.
Proof. unfold Qltb. rewrite negb_false_iff. apply Qle_bool_iff. Qed.

Lemma Qleb_true (a b : Q) : Qleb a b = true <-> a <= b.
Proof. apply Qle_bool_iff. Qed.

Lemma Qleb_false (a b : Q) : Qleb a b = false <-> b < a.
Proof.
  unfold Qleb. split.
  - intros H. apply Qnot_le_lt. intros Hle. apply Qle_bool_iff in Hle. congruence.
  - intros H. destruct (Qle_bool a b) eqn:E; [|reflexivity].
    apply Qle_bool_iff in E. lra.
Qed.

Lemma Qeqb_true (a b : Q) : Qeqb a b = true <-> a == b.
Proof. apply Qeq_bool_iff. Qed.

Lemma Qeqb_false (a b : Q) : Qeqb a b = false <-> ~ a == b.
Proof.
  unfold Qeqb. split.
  - intros H Heq. apply Qeq_bool_iff in Heq. congruence.
  - intros H. destruct (Qeq_bool a b) eqn:E; [|reflexivity].
    apply Qeq_bool_iff in E. contradiction.
Qed.

(** Case split on every comparison occurring in the goal. *)
Ltac q_destruct :=
  repeat match goal with
  | |- context [Qltb ?a ?b] =>
      let E := fresh "E" in
      destruct (Qltb a b) eqn:E; [apply Qltb_true in E | apply Qltb_false in E]
  | |- context [Qleb ?a ?b] =>
      let E := fresh "E" in
      destruct (Qleb a b) eqn:E; [apply Qleb_true in E | apply Qleb_false in E]
  | |- context [Qeqb ?a ?b] =>
      let E := fresh "E" in
      destruct (Qeqb a b) eqn:E; [apply Qeqb_true in E | apply Qeqb_false in E]
  end.

Lemma std_abs_cases (x : Q) :
  (0 <= x /\ std_abs x == x) \/ (x <= 0 /\ std_abs x == - x).
Proof.
  destruct (Qlt_le_dec x 0) as [H|H].
  - right. split; [lra|]. apply Qabs_neg. lra.
  - left. split; [lra|]. now apply Qabs_pos.
Qed.

Lemma std_min_Qmin (a b : Q) : std_min a b == Qmin a b.
Proof.
  unfold std_min. destruct (Q.min_spec a b) as [[H ->]|[H ->]]; q_destruct; lra.
Qed.

(** ** Position manager: closing and reversing fills *)

Section PositionManagerFacts.
Import PositionManager.

(** C1. A fill of the opposite sign on a position of quantity [q <> 0] and
    entry price [p_e] adds [min(|f|,|q|) * (p_f - p_e)] (long) or
    [min(|f|,|q|) * (p_e - p_f)] (short) to the position's realized PnL and to
    the global counter, sets the quantity to [q + f], keeps the entry price
    when [|f| <= |q|] and sets it to the fill price when [|f| > |q|]. *)
Theorem on_fill_opposite_sign (st : PositionManager.t) (fill : Fill.t) (pos : Position.t) :
  let q := Position.quantity pos in
  let p_e := Position.entry_price pos in
  let f := side_sign (Fill.side fill) * Fill.quantity fill in
  let p_f := Fill.price fill in
  positions_ st !! Fill.instrument fill = Some pos ->
  (0 < q /\ f < 0) \/ (q < 0 /\ 0 < f) ->
  exists pos',
    positions_ (on_fill st fill) !! Fill.instrument fill = Some pos' /\
    (0 < q ->
       Position.realized_pnl pos' == Position.realized_pnl pos + Qmin (Qabs f) (Qabs q) * (p_f - p_e) /\
       total_realized_pnl_ (on_fill st fill) ==
         total_realized_pnl_ st + Qmin (Qabs f) (Qabs q) * (p_f - p_e)) /\
    (q < 0 ->
       Position.realized_pnl pos' == Position.realized_pnl pos + Qmin (Qabs f) (Qabs q) * (p_e - p_f) /\
       total_realized_pnl_ (on_fill st fill) ==
         total_realized_pnl_ st + Qmin (Qabs f) (Qabs q) * (p_e - p_f)) /\
    Position.quantity pos' == q + f /\
    (Qabs f <= Qabs q -> Position.entry_price pos' = p_e) /\
    (Qabs q < Qabs f -> Position.entry_price pos' = p_f).
Proof.
  intros q p_e f p_f Hpos Hsign.
  assert (Hprod : q * f < 0) by (destruct Hsign as [[? ?]|[? ?]]; nra).
  unfold on_fill. rewrite Hpos. unfold apply_fill.
  fold f. fold q. fold p_e. fold p_f.
  assert (Hsame : Qltb 0 (q * f) = false) by (apply Qltb_false; lra).
  assert (Hflat : Qeqb q 0 = false) by (apply Qeqb_false; intros Hz; rewrite Hz in Hprod; lra).
  rewrite Hsame, Hflat. cbn [orb]. cbn beta iota zeta.
  eexists. split; [apply lookup_insert_eq|].
  cbn [Position.realized_pnl Position.quantity Position.entry_price total_realized_pnl_].
  assert (Hred : Qltb (q * f) 0 = true) by (apply Qltb_true; lra).
  unfold calculate_realized_pnl. rewrite Hred. cbn [negb].
  assert (Hmin : std_min (std_abs q) (std_abs f) == Qmin (Qabs f) (Qabs q))
    by (rewrite std_min_Qmin; apply Q.min_comm).
  assert (Hentry_keep : Qabs f <= Qabs q ->
            (Qltb 0 q && Qltb (q + f) 0 || Qltb q 0 && Qltb 0 (q + f)) = false).
  { intros Hle.
    destruct (std_abs_cases q) as [[? Hq]|[? Hq]], (std_abs_cases f) as [[? Hf]|[? Hf]];
      unfold std_abs in *; q_destruct; try reflexivity; exfalso; lra. }
  assert (Hentry_flip : Qabs q < Qabs f ->
            (Qltb 0 q && Qltb (q + f) 0 || Qltb q 0 && Qltb 0 (q + f)) = true).
  { intros Hlt.
    destruct (std_abs_cases q) as [[? Hq]|[? Hq]], (std_abs_cases f) as [[? Hf]|[? Hf]];
      unfold std_abs in *; q_destruct; try reflexivity; exfalso; lra. }
  split; [|split; [|split; [reflexivity|split]]].
  - intros Hq0. apply Qltb_true in Hq0. rewrite Hq0, Hmin. split; reflexivity.
  - intros Hq0. assert (Hn : Qltb 0 q = false) by (apply Qltb_false; lra).
    rewrite Hn, Hmin. split; reflexivity.
  - intros Hle. rewrite (Hentry_keep Hle). reflexivity.
  - intros Hlt. rewrite (Hentry_flip Hlt). reflexivity.
Qed.

Lemma on_fill_opposite_sign_witness :
  exists pos',
    positions_ (on_fill long_100 sell_150) !! "EUR/USD" = Some pos' /\
    Position.quantity pos' == -50 /\
    Position.entry_price pos' = 111 # 100 /\
    Position.realized_pnl pos' == 1.
Proof.
  destruct (on_fill_opposite_sign long_100 sell_150 (new_position buy_100))
    as (pos' & Hlook & Hlong & _ & Hqty & _ & Hflip).
  - reflexivity.
  - left. split; reflexivity.
  - exists pos'. split; [exact Hlook|]. split; [|split].
    + rewrite Hqty. reflexivity.
    + apply Hflip. reflexivity.
    + destruct Hlong as [Hr _]; [reflexivity|]. rewrite Hr. reflexivity.
Defined.

(** ** Position manager: fills with a non-positive quantity *)

(** A BUY fill of quantity -5 on a fresh manager is not ignored: it opens a
    position of -5 and is counted. *)
Lemma on_fill_nonpositive_quantity_not_ignored :
  Fill.quantity negative_qty_fill <= 0 /\
  positions_ init !! Fill.instrument negative_qty_fill = None /\
  (exists pos,
     positions_ (on_fill init negative_qty_fill) !! Fill.instrument negative_qty_fill = Some pos /\
     Position.quantity pos == -5) /\
  total_fills_today_ init = 0%Z /\
  total_fills_today_ (on_fill init negative_qty_fill) = 1%Z.
Proof.
  split; [discriminate|]. split; [reflexivity|]. split; [|split; reflexivity].
  eexists. split; reflexivity.
Qed.

(** C5 (amended). [on_fill] has no guard on the fill quantity: a fill with
    quantity [<= 0] is applied like any other.  The global fill counter is
    incremented, the instrument has an entry afterwards, and that entry holds
    the previous quantity plus the signed fill quantity, one more fill and
    the fill's commission added.  The function is total: nothing is thrown. *)
Theorem on_fill_nonpositive_quantity_applied (st : PositionManager.t) (fill : Fill.t) :
  Fill.quantity fill <= 0 ->
  let before := get_position st (Fill.instrument fill) in
  total_fills_today_ (on_fill st fill) = (total_fills_today_ st + 1)%Z /\
  exists pos',
    positions_ (on_fill st fill) !! Fill.instrument fill = Some pos' /\
    Position.quantity pos' == Position.quantity before + signed_qty fill /\
    Position.num_fills_today pos' = (Position.num_fills_today before + 1)%Z /\
    Position.total_commission pos' == Position.total_commission before + Fill.commission fill.
Proof.
  intros _ before. subst before. unfold on_fill, get_position.
  destruct (positions_ st !! Fill.instrument fill) as [pos|] eqn:Hpos.
  - unfold apply_fill.
    destruct (_ || _);
      cbn [total_fills_today_ positions_]; (split; [reflexivity|]);
      eexists; (split; [apply lookup_insert_eq|]);
      cbn [Position.quantity Position.num_fills_today Position.total_commission];
      repeat split; reflexivity.
  - cbn [total_fills_today_ positions_]. split; [reflexivity|].
    eexists. split; [apply lookup_insert_eq|].
    unfold new_position, empty_position, signed_qty.
    cbn [Position.quantity Position.num_fills_today Position.total_commission].
    repeat split; try reflexivity; lra.
Qed.

Lemma on_fill_nonpositive_quantity_applied_witness :
  total_fills_today_ (on_fill long_100 negative_qty_fill) = 2%Z /\
  exists pos',
    positions_ (on_fill long_100 negative_qty_fill) !! "EUR/USD" = Some pos' /\
    Position.quantity pos' == 95.
Proof.
  destruct (on_fill_nonpositive_quantity_applied long_100 negative_qty_fill)
    as (Hfills & pos' & Hlook & Hqty & _).
  - discriminate.
  - split; [exact Hfills|]. exists pos'. split; [exact Hlook|].
    rewrite Hqty. reflexivity.
Defined.

(** ** Position manager: the global realized PnL is the sum over positions *)

Lemma sum_realized_pnl_insert_fresh (m : gmap string Position.t) (i : string) (pos : Position.t) :
  m !! i = None ->
  sum_realized_pnl (<[i := pos]> m) == sum_realized_pnl m + Position.realized_pnl pos.
Proof.
  intros Hfresh. unfold sum_realized_pnl.
  apply (map_fold_insert Qeq (fun _ pos acc => acc + Position.realized_pnl pos)); [| |exact Hfresh].
  - intros j z a b Hab. rewrite Hab. reflexivity.
  - intros. lra.
Qed.

Lemma sum_realized_pnl_insert_over (m : gmap string Position.t) (i : string) (old pos : Position.t) :
  m !! i = Some old ->
  sum_realized_pnl (<[i := pos]> m) ==
    sum_realized_pnl m - Position.realized_pnl old + Position.realized_pnl pos.
Proof.
  intros Hold.
  rewrite <- (insert_delete_eq m i pos).
  rewrite <- (insert_delete_id m i old Hold) at 2.
  rewrite !sum_realized_pnl_insert_fresh by apply lookup_delete_eq.
  lra.
Qed.

Lemma sum_realized_pnl_reset (m : gmap string Position.t) :
  sum_realized_pnl (reset_position <$> m) == 0.
Proof.
  induction m as [|i pos m Hfresh IH] using map_ind.
  - rewrite fmap_empty. reflexivity.
  - rewrite fmap_insert, sum_realized_pnl_insert_fresh by (rewrite lookup_fmap, Hfresh; reflexivity).
    rewrite IH. reflexivity.
Qed.

Lemma apply_fill_realized_delta (pos : Position.t) (total : double) (fill : Fill.t) :
  snd (apply_fill pos total fill) - total ==
  Position.realized_pnl (fst (apply_fill pos total fill)) - Position.realized_pnl pos.
Proof.
  unfold apply_fill. destruct (_ || _); cbn [fst snd Position.realized_pnl]; lra.
Qed.

Lemma total_realized_pnl_step (st : PositionManager.t) (op : pm_op) :
  total_realized_pnl_ st == sum_realized_pnl (positions_ st) ->
  total_realized_pnl_ (pm_step st op) == sum_realized_pnl (positions_ (pm_step st op)).
Proof.
  intros Hinv. destruct op as [fill|]; cbn [pm_step].
  - unfold on_fill. destruct (positions_ st !! Fill.instrument fill) as [pos|] eqn:Hpos.
    + pose proof (apply_fill_realized_delta pos (total_realized_pnl_ st) fill) as Hdelta.
      destruct (apply_fill pos (total_realized_pnl_ st) fill) as [pos' total] eqn:Happ.
      cbn [fst snd] in Hdelta. cbn [total_realized_pnl_ positions_].
      rewrite (sum_realized_pnl_insert_over _ _ pos pos' Hpos). lra.
    + cbn [total_realized_pnl_ positions_].
      rewrite sum_realized_pnl_insert_fresh by exact Hpos.
      unfold new_position. cbn [Position.realized_pnl]. lra.
  - unfold reset_daily. cbn [total_realized_pnl_ positions_].
    rewrite sum_realized_pnl_reset. reflexivity.
Qed.

(** In the exact arithmetic of the model the total and the sum over the
    stored positions coincide in every state reached from the constructor. *)
Lemma total_realized_pnl_exact_sum (ops : list pm_op) :
  get_total_realized_pnl (pm_run ops init) == sum_realized_pnl (positions_ (pm_run ops init)).
Proof.
  unfold get_total_realized_pnl, pm_run.
  assert (Hinit : total_realized_pnl_ init == sum_realized_pnl (positions_ init)).
  { unfold sum_realized_pnl. cbn [init positions_ total_realized_pnl_].
    rewrite map_fold_empty. reflexivity. }
  revert Hinit. generalize init as st.
  induction ops as [|op ops IH]; intros st Hinv; cbn [fold_left].
  - exact Hinv.
  - apply IH. now apply total_realized_pnl_step.
Qed.

Lemma running_sum_snoc (amounts : list double) (amount : double) :
  running_sum (amounts ++ [amount]) = running_sum amounts + amount.
Proof. unfold running_sum. rewrite fold_left_app. reflexivity. Qed.

Lemma terms_on_snoc (instrument : string) (terms : list (string * double))
  (term : string * double) :
  terms_on instrument (terms ++ [term])
  = if decide (term.1 = instrument) then terms_on instrument terms ++ [term.2]
    else terms_on instrument terms.
Proof.
  unfold terms_on. rewrite filter_app, filter_cons, filter_nil.
  destruct (decide (term.1 = instrument)).
  - rewrite fmap_app. reflexivity.
  - rewrite app_nil_r. reflexivity.
Qed.

(** One call keeps both accumulators in step with the amounts realized. *)
Lemma realized_terms_step (st : PositionManager.t) (fill : Fill.t)
  (acc : list (string * double)) :
  total_realized_pnl_ st = running_sum acc.*2 ->
  (forall instrument,
     Position.realized_pnl (get_position st instrument) = running_sum (terms_on instrument acc)) ->
  let acc' := acc ++ option_list (realized_term st fill) in
  total_realized_pnl_ (on_fill st fill) = running_sum acc'.*2 /\
  (forall instrument,
     Position.realized_pnl (get_position (on_fill st fill) instrument)
     = running_sum (terms_on instrument acc')).
Proof.
  intros Htotal Hpos acc'. subst acc'. unfold realized_term, on_fill.
  destruct (positions_ st !! Fill.instrument fill) as [pos|] eqn:Hlook.
  - pose proof (Hpos (Fill.instrument fill)) as Hthis.
    unfold get_position in Hthis. rewrite Hlook in Hthis.
    unfold apply_fill. cbv zeta.
    destruct (Qltb 0 (Position.quantity pos * (side_sign (Fill.side fill) * Fill.quantity fill))
              || Qeqb (Position.quantity pos) 0).
    + unfold option_list; cbn [option_rect total_realized_pnl_ positions_]. rewrite app_nil_r.
      split; [exact Htotal|]. intros instrument. unfold get_position. cbn [positions_].
      destruct (decide (instrument = Fill.instrument fill)) as [->|Hne].
      * rewrite lookup_insert_eq. cbn [Position.realized_pnl]. exact Hthis.
      * rewrite lookup_insert_ne by congruence. apply Hpos.
    + unfold option_list; cbn [option_rect total_realized_pnl_ positions_]. split.
      * rewrite fmap_app. cbn [fmap list_fmap snd]. rewrite running_sum_snoc, Htotal. reflexivity.
      * intros instrument. rewrite terms_on_snoc. cbn [fst snd]. unfold get_position. cbn [positions_].
        destruct (decide (Fill.instrument fill = instrument)) as [<-|Hne].
        -- rewrite lookup_insert_eq. cbn [Position.realized_pnl].
           rewrite running_sum_snoc, Hthis. reflexivity.
        -- rewrite lookup_insert_ne by congruence. apply Hpos.
  - unfold option_list; cbn [option_rect total_realized_pnl_ positions_]. rewrite app_nil_r.
    split; [exact Htotal|]. intros instrument. unfold get_position. cbn [positions_].
    destruct (decide (instrument = Fill.instrument fill)) as [->|Hne].
    + rewrite lookup_insert_eq. cbn [new_position Position.realized_pnl].
      specialize (Hpos (Fill.instrument fill)). unfold get_position in Hpos.
      rewrite Hlook in Hpos. exact Hpos.
    + rewrite lookup_insert_ne by congruence. apply Hpos.
Qed.

Lemma realized_terms_run (ops : list pm_op) :
  forall (st : PositionManager.t) (acc : list (string * double)),
  total_realized_pnl_ st = running_sum acc.*2 ->
  (forall instrument,
     Position.realized_pnl (get_position st instrument) = running_sum (terms_on instrument acc)) ->
  total_realized_pnl_ (pm_run ops st) = running_sum (realized_terms ops st acc).*2 /\
  (forall instrument,
     Position.realized_pnl (get_position (pm_run ops st) instrument)
     = running_sum (terms_on instrument (realized_terms ops st acc))).
Proof.
  induction ops as [|[fill|] ops IH]; intros st acc Htotal Hpos;
    unfold pm_run in *; cbn [fold_left realized_terms pm_step].
  - split; assumption.
  - destruct (realized_terms_step st fill acc Htotal Hpos) as [Htotal' Hpos'].
    apply IH; assumption.
  - apply IH.
    + reflexivity.
    + intros instrument. unfold get_position, reset_daily. cbn [positions_].
      rewrite lookup_fmap. destruct (positions_ st !! instrument); reflexivity.
Qed.

(** C10 (amended). In every state reached from the constructor by
    [on_fill] and [reset_daily], the global total returned by
    [get_total_realized_pnl] and the [realized_pnl] of every position are
    running sums of the same amounts: starting from zero, the total has had
    added to it, in the order of the fills, every amount realized since the
    last [reset_daily], and a position's [realized_pnl] those of them
    realized on its instrument.  (The two sides of the claim are thus sums
    of the same amounts in different orders.) *)
Theorem realized_pnl_running_sums (ops : list pm_op) :
  let st := pm_run ops init in
  let terms := realized_terms ops init [] in
  get_total_realized_pnl st = running_sum terms.*2 /\
  forall instrument,
    Position.realized_pnl (get_position st instrument)
    = running_sum (terms_on instrument terms).
Proof.
  cbv zeta. unfold get_total_realized_pnl. apply realized_terms_run.
  - reflexivity.
  - intros instrument. reflexivity.
Qed.

(** In binary64 the total and the sum over the positions differ after five
    fills on two instruments. *)
Lemma total_realized_pnl_differs_from_sum :
  let st := fold_left PositionManagerBinary64.on_fill five_fills PositionManagerBinary64.init in
  PositionManagerBinary64.get_total_realized_pnl st = 9.799999999999999%float /\
  PositionManagerBinary64.sum_realized_pnl (PositionManagerBinary64.positions_ st) = 9.8%float /\
  PrimFloat.eqb (PositionManagerBinary64.get_total_realized_pnl st)
    (PositionManagerBinary64.sum_realized_pnl (PositionManagerBinary64.positions_ st)) = false.
Proof. vm_compute. repeat split; reflexivity. Qed.

(** ** Position manager: weighted-average entry price *)









End PositionManagerFacts.

(** ** Risk manager: validation of order parameters *)

Section RiskManagerFacts.
Import RiskManager.

(** A halted manager refuses a zero-quantity order with the halt reason, and
    a stop-limit order with a negative limit price is approved and reserved. *)
Lemma check_order_validation_counterexample :
  (halt_active_ rm_halted = true /\
   OrderRequest.quantity zero_qty_order <= 0 /\
   RiskCheckResult.reason (snd (check_order rm_halted pm_loss zero_qty_order 1 2000 2001))
   = "Trading halted: Daily loss limit exceeded: -150.000000, limit=-100.000000") /\
  (OrderRequest.type stop_limit_bad_price = STOP_LIMIT /\
   OrderRequest.price stop_limit_bad_price <= 0 /\
   let '(st, result) :=
     check_order (wired scenario_limits) PositionManager.init stop_limit_bad_price 1 1000 1001 in
   RiskCheckResult.allowed result = true /\
   reserved_by_order_ st !! "O1" = Some 100).
Proof.
  split.
  - split; [reflexivity|]. split; [discriminate|]. vm_compute. reflexivity.
  - split; [reflexivity|]. split; [discriminate|]. vm_compute. split; reflexivity.
Qed.

(** C6 (amended). While trading is not halted, an order with quantity [<= 0],
    and a Limit order with price [<= 0], is refused by [check_order] with
    [allowed = false] and an invalid-quantity or invalid-limit-price reason;
    the only state change is the rejection counter, so no later rule (whose
    rate-limit step would rewrite the timestamp history) has run and no
    reservation exists that did not exist before.  While trading is halted the
    same orders are refused with the halt reason instead, again changing
    only the rejection counter. *)
Theorem check_order_rejects_invalid_parameters
  (st : RiskManager.t) (pm : PositionManager.t) (order : OrderRequest.t)
  (current_price : double) (now_check now_push : Z) :
  OrderRequest.quantity order <= 0 \/
  (OrderRequest.type order = LIMIT /\ OrderRequest.price order <= 0) ->
  let st' := fst (check_order st pm order current_price now_check now_push) in
  let result := snd (check_order st pm order current_price now_check now_push) in
  RiskCheckResult.allowed result = false /\
  RiskCheckResult.reserved_capital result = 0 /\
  st' = set_orders_rejected_today st (orders_rejected_today_ st + 1)%Z /\
  reserved_by_order_ st' = reserved_by_order_ st /\
  recent_order_timestamps_ st' = recent_order_timestamps_ st /\
  (halt_active_ st = false ->
     RiskCheckResult.reason result = "Invalid quantity: must be > 0" \/
     RiskCheckResult.reason result = "Invalid limit price: must be > 0") /\
  (halt_active_ st = true ->
     RiskCheckResult.reason result = String.append "Trading halted: " (halt_reason_ st)).
Proof.
  intros Hbad st' result. subst st' result. unfold check_order.
  destruct (halt_active_ st) eqn:Hhalt.
  - cbn [reject fst snd RiskCheckResult.allowed RiskCheckResult.reserved_capital
         RiskCheckResult.reason].
    repeat split; try reflexivity; intros; discriminate.
  - destruct (Qleb (OrderRequest.quantity order) 0) eqn:Hqty.
    + cbn [reject fst snd RiskCheckResult.allowed RiskCheckResult.reserved_capital
           RiskCheckResult.reason].
      repeat split; try reflexivity; intros; try discriminate. left. reflexivity.
    + destruct Hbad as [Hq|[Htype Hprice]].
      { apply Qleb_false in Hqty. lra. }
      rewrite Htype. rewrite bool_decide_eq_true_2 by reflexivity.
      apply Qleb_true in Hprice. rewrite Hprice. cbn [andb].
      cbn [reject fst snd RiskCheckResult.allowed RiskCheckResult.reserved_capital
           RiskCheckResult.reason].
      repeat split; try reflexivity; intros; try discriminate. right. reflexivity.
Qed.

Lemma check_order_rejects_invalid_parameters_witness :
  RiskCheckResult.allowed
    (snd (check_order (wired scenario_limits) PositionManager.init zero_qty_order 1 1000 1001))
  = false /\
  reserved_by_order_
    (fst (check_order (wired scenario_limits) PositionManager.init zero_qty_order 1 1000 1001))
  = ∅.
Proof.
  destruct (check_order_rejects_invalid_parameters (wired scenario_limits) PositionManager.init
              zero_qty_order 1 1000 1001) as (Hallowed & _ & _ & Hres & _).
  - left. discriminate.
  - split; [exact Hallowed|]. rewrite Hres. reflexivity.
Defined.

(** ** Risk manager: the halt flag *)

(** A manager halted by the daily-loss gate has its reason replaced by the
    drawdown message of the next [on_fill]. *)
Lemma halt_reason_replaced_by_on_fill :
  halt_active_ rm_halted = true /\
  halt_reason_ rm_halted = "Daily loss limit exceeded: -150.000000, limit=-100.000000" /\
  halt_active_ (on_fill rm_halted pm_loss (test_fill "F3" "O9" BUY 1 1)) = true /\
  halt_reason_ (on_fill rm_halted pm_loss (test_fill "F3" "O9" BUY 1 1))
  = "Max drawdown from high exceeded: 150.000000".
Proof. vm_compute. repeat split; reflexivity. Qed.

Lemma release_reservation_halt (st : RiskManager.t) (order_id : string) :
  halt_active_ (release_reservation st order_id) = halt_active_ st /\
  halt_reason_ (release_reservation st order_id) = halt_reason_ st.
Proof. unfold release_reservation. destruct (_ !! _); split; reflexivity. Qed.

Lemma on_fill_halt (st : RiskManager.t) (pm : PositionManager.t) (fill : Fill.t) :
  halt_active_ st = true ->
  halt_active_ (on_fill st pm fill) = true /\
  (halt_reason_ (on_fill st pm fill) = halt_reason_ st \/
   exists drawdown,
     RiskLimits.max_drawdown_from_high (limits_ st) < drawdown /\
     halt_reason_ (on_fill st pm fill)
     = String.append "Max drawdown from high exceeded: " (to_string_double drawdown)).
Proof.
  intros Hhalt. unfold on_fill.
  set (st1 := release_reservation _ _).
  assert (H1 : halt_active_ st1 = true /\ halt_reason_ st1 = halt_reason_ st
               /\ limits_ st1 = limits_ st).
  { subst st1. unfold release_reservation. destruct (_ !! _); repeat split; assumption. }
  destruct H1 as (Ha1 & Hr1 & Hl1).
  set (st2 := update_pnl st1 pm fill).
  assert (H2 : halt_active_ st2 = true /\ halt_reason_ st2 = halt_reason_ st
               /\ limits_ st2 = limits_ st).
  { subst st2. unfold update_pnl. destruct (position_mgr_ st1); repeat split; assumption. }
  destruct H2 as (Ha2 & Hr2 & Hl2).
  set (st3 := if Qltb (daily_high_pnl_ st2) (daily_pnl_ st2) then _ else st2).
  assert (H3 : halt_active_ st3 = true /\ halt_reason_ st3 = halt_reason_ st
               /\ limits_ st3 = limits_ st).
  { subst st3. destruct (Qltb _ _); repeat split; assumption. }
  destruct H3 as (Ha3 & Hr3 & Hl3). clearbody st3.
  destruct (Qltb _ _) eqn:Hdd.
  - cbn [set_halt halt_active_ halt_reason_]. split; [reflexivity|]. right.
    eexists. split; [|reflexivity]. apply Qltb_true in Hdd. rewrite <- Hl3. exact Hdd.
  - split; [exact Ha3|]. left. exact Hr3.
Qed.

Lemma rm_step_halt (st : RiskManager.t) (pm : PositionManager.t) (op : rm_op) :
  is_reset op = false ->
  halt_active_ st = true ->
  halt_active_ (rm_step st pm op) = true /\
  (halt_reason_ (rm_step st pm op) = halt_reason_ st \/
   exists fill drawdown,
     op = RmOnFill fill /\
     RiskLimits.max_drawdown_from_high (limits_ st) < drawdown /\
     halt_reason_ (rm_step st pm op)
     = String.append "Max drawdown from high exceeded: " (to_string_double drawdown)).
Proof.
  intros Hop Hhalt. destruct op; cbn [rm_step]; try discriminate.
  - unfold check_order. rewrite Hhalt. cbn [reject fst]. split; [exact Hhalt|]. left. reflexivity.
  - destruct (on_fill_halt st pm fill Hhalt) as [Ha [Hr|(dd & Hdd & Hr)]].
    + split; [exact Ha|]. left. exact Hr.
    + split; [exact Ha|]. right. exists fill, dd. repeat split; assumption.
  - unfold on_order_rejected.
    destruct (release_reservation_halt
                (set_orders_rejected_today st (orders_rejected_today_ st + 1)%Z) order_id)
      as [-> ->].
    split; [exact Hhalt|]. left. reflexivity.
  - unfold on_order_cancelled.
    destruct (release_reservation_halt
                (set_orders_cancelled_today st (orders_cancelled_today_ st + 1)%Z) order_id)
      as [-> ->].
    split; [exact Hhalt|]. left. reflexivity.
  - unfold update_market_prices. destruct (position_mgr_ _);
      (split; [exact Hhalt|]); left; reflexivity.
  - split; [exact Hhalt|]. left. reflexivity.
Qed.

(** What [on_fill] leaves as halt reason: the drawdown message when the
    drawdown from the updated high exceeds the limit, else the reason it
    found. *)
Lemma on_fill_halt_reason (st : RiskManager.t) (pm : PositionManager.t) (fill : Fill.t) :
  let st' := on_fill st pm fill in
  let drawdown := daily_high_pnl_ st' - daily_pnl_ st' in
  halt_reason_ st'
  = if Qltb (RiskLimits.max_drawdown_from_high (limits_ st)) drawdown
    then String.append "Max drawdown from high exceeded: " (to_string_double drawdown)
    else halt_reason_ st.
Proof.
  cbv zeta. unfold on_fill.
  set (st1 := release_reservation _ _).
  assert (H1 : halt_reason_ st1 = halt_reason_ st /\ limits_ st1 = limits_ st).
  { subst st1. unfold release_reservation. destruct (_ !! _); split; reflexivity. }
  destruct H1 as (Hr1 & Hl1).
  set (st2 := update_pnl st1 pm fill).
  assert (H2 : halt_reason_ st2 = halt_reason_ st /\ limits_ st2 = limits_ st).
  { subst st2. unfold update_pnl. destruct (position_mgr_ st1); split; assumption. }
  destruct H2 as (Hr2 & Hl2).
  set (st3 := if Qltb (daily_high_pnl_ st2) (daily_pnl_ st2) then _ else st2).
  assert (H3 : halt_reason_ st3 = halt_reason_ st /\ limits_ st3 = limits_ st).
  { subst st3. destruct (Qltb _ _); split; assumption. }
  destruct H3 as (Hr3 & Hl3). clearbody st3. rewrite Hl3.
  destruct (Qltb (RiskLimits.max_drawdown_from_high (limits_ st))
              (daily_high_pnl_ st3 - daily_pnl_ st3)) eqn:Hdd.
  - cbn [set_halt halt_reason_ daily_high_pnl_ daily_pnl_]. rewrite Hdd. reflexivity.
  - rewrite Hdd. exact Hr3.
Qed.

(** C4 (amended). Once [halt_active_] is true it stays true under
    [check_order], [on_fill], [on_order_rejected], [on_order_cancelled],
    [update_market_prices] and [set_position_manager], through any run of
    them, until [reset_daily] clears it.  The stored halt reason is kept by
    all of these except [on_fill], which overwrites it with a new
    drawdown message (the text of a number above the limit after
    ["Max drawdown from high exceeded: "]) whenever the drawdown from the
    updated high exceeds the limit, also while already halted, and keeps it
    otherwise. *)
Theorem halt_monotone :
  (forall (st : RiskManager.t) (pm : PositionManager.t) (op : rm_op),
     is_reset op = false ->
     halt_active_ st = true ->
     let st' := rm_step st pm op in
     halt_active_ st' = true /\
     match op with
     | RmOnFill _ =>
         let drawdown := daily_high_pnl_ st' - daily_pnl_ st' in
         if Qltb (RiskLimits.max_drawdown_from_high (limits_ st)) drawdown
         then
           exists printed,
             RiskLimits.max_drawdown_from_high (limits_ st) < printed /\
             halt_reason_ st'
             = String.append "Max drawdown from high exceeded: " (to_string_double printed)
         else halt_reason_ st' = halt_reason_ st
     | _ => halt_reason_ st' = halt_reason_ st
     end) /\
  (forall (trace : list (PositionManager.t * rm_op)) (st : RiskManager.t),
     Forall (fun call => is_reset (snd call) = false) trace ->
     halt_active_ st = true ->
     halt_active_ (rm_run trace st) = true) /\
  (forall st : RiskManager.t,
     halt_active_ (reset_daily st) = false /\ get_halt_reason (reset_daily st) = "").
Proof.
  split; [|split].
  - intros st pm op Hop Hhalt st'. subst st'.
    split; [exact (proj1 (rm_step_halt st pm op Hop Hhalt))|].
    destruct op; try discriminate Hop; cbn [rm_step].
    + unfold check_order. rewrite Hhalt. reflexivity.
    + pose proof (on_fill_halt_reason st pm fill) as Hreason. cbv zeta in Hreason.
      destruct (Qltb (RiskLimits.max_drawdown_from_high (limits_ st))
                  (daily_high_pnl_ (on_fill st pm fill) - daily_pnl_ (on_fill st pm fill)))
        eqn:Hexceeded; [|exact Hreason].
      eexists. split; [|exact Hreason]. now apply Qltb_true.
    + unfold on_order_rejected.
      now destruct (release_reservation_halt
                      (set_orders_rejected_today st (orders_rejected_today_ st + 1)%Z) order_id)
        as [_ ->].
    + unfold on_order_cancelled.
      now destruct (release_reservation_halt
                      (set_orders_cancelled_today st (orders_cancelled_today_ st + 1)%Z) order_id)
        as [_ ->].
    + unfold update_market_prices. destruct (position_mgr_ _); reflexivity.
    + reflexivity.
  - induction trace as [|[pm op] trace IH]; intros st Hall Hhalt.
    + exact Hhalt.
    + apply Forall_cons_1 in Hall as [Hop Hall]. cbn [rm_run fold_left].
      apply IH; [exact Hall|]. now apply rm_step_halt.
  - intros st. split; reflexivity.
Qed.

Lemma halt_monotone_witness :
  halt_active_
    (rm_run [(pm_loss, RmOnOrderCancelled "O3");
             (pm_loss, RmCheckOrder zero_qty_order 1 2000 2001);
             (pm_loss, RmOnFill (test_fill "F3" "O9" BUY 1 1))] rm_halted) = true /\
  halt_reason_ (rm_step rm_halted pm_loss (RmOnOrderCancelled "O3")) = halt_reason_ rm_halted /\
  exists printed,
    RiskLimits.max_drawdown_from_high (limits_ rm_halted) < printed /\
    halt_reason_ (rm_step rm_halted pm_loss (RmOnFill (test_fill "F3" "O9" BUY 1 1)))
    = String.append "Max drawdown from high exceeded: " (to_string_double printed).
Proof.
  destruct halt_monotone as (Hstep & Hrun & _). split; [|split].
  - apply Hrun; [repeat constructor|reflexivity].
  - exact (proj2 (Hstep rm_halted pm_loss (RmOnOrderCancelled "O3") eq_refl eq_refl)).
  - pose proof (proj2 (Hstep rm_halted pm_loss (RmOnFill (test_fill "F3" "O9" BUY 1 1))
                         eq_refl eq_refl)) as Hfill.
    cbv beta iota zeta in Hfill.
    assert (Hexceeded :
              Qltb (RiskLimits.max_drawdown_from_high (limits_ rm_halted))
                (daily_high_pnl_ (rm_step rm_halted pm_loss
                                    (RmOnFill (test_fill "F3" "O9" BUY 1 1)))
                 - daily_pnl_ (rm_step rm_halted pm_loss
                                 (RmOnFill (test_fill "F3" "O9" BUY 1 1)))) = true)
      by (vm_compute; reflexivity).
    rewrite Hexceeded in Hfill. exact Hfill.
Defined.

(** ** Risk manager: reservations *)

Lemma release_reservation_reserved (st : RiskManager.t) (order_id : string) :
  reserved_by_order_ (release_reservation st order_id) = delete order_id (reserved_by_order_ st).
Proof.
  unfold release_reservation.
  destruct (reserved_by_order_ st !! order_id) eqn:Hlook; [reflexivity|].
  symmetry. now apply delete_id.
Qed.

Lemma check_order_cases (st : RiskManager.t) (pm : PositionManager.t)
  (order : OrderRequest.t) (current_price : double) (now_check now_push : Z) :
  let st' := fst (check_order st pm order current_price now_check now_push) in
  let result := snd (check_order st pm order current_price now_check now_push) in
  (RiskCheckResult.allowed result = false /\
   reserved_by_order_ st' = reserved_by_order_ st) \/
  (RiskCheckResult.allowed result = true /\
   reserved_by_order_ st' =
     <[OrderRequest.order_id order := RiskCheckResult.reserved_capital result]>
       (reserved_by_order_ st)).
Proof.
  cbv zeta. unfold check_order, check_rate_limit.
  repeat match goal with
         | |- context [if ?b then _ else _] => destruct b
         end;
    first [left; split; reflexivity | right; split; reflexivity].
Qed.

Lemma check_order_reserved (st : RiskManager.t) (pm : PositionManager.t)
  (order : OrderRequest.t) (current_price : double) (now_check now_push : Z) :
  let st' := fst (check_order st pm order current_price now_check now_push) in
  let result := snd (check_order st pm order current_price now_check now_push) in
  reserved_by_order_ st' =
    if RiskCheckResult.allowed result
    then <[OrderRequest.order_id order := RiskCheckResult.reserved_capital result]>
           (reserved_by_order_ st)
    else reserved_by_order_ st.
Proof.
  cbv zeta.
  destruct (check_order_cases st pm order current_price now_check now_push)
    as [[-> H]|[-> H]]; exact H.
Qed.

Lemma on_fill_reserved (st : RiskManager.t) (pm : PositionManager.t) (fill : Fill.t) :
  reserved_by_order_ (on_fill st pm fill) = delete (Fill.order_id fill) (reserved_by_order_ st).
Proof.
  unfold on_fill.
  set (st1 := release_reservation _ _).
  assert (H1 : reserved_by_order_ st1 = delete (Fill.order_id fill) (reserved_by_order_ st))
    by (subst st1; now rewrite release_reservation_reserved).
  clearbody st1. rewrite <- H1. unfold update_pnl.
  repeat match goal with
         | |- context [if ?b then _ else _] => destruct b
         end; reflexivity.
Qed.

Lemma reservation_step (st : RiskManager.t) (pm : PositionManager.t) (op : rm_op)
  (open : gset string) :
  dom (reserved_by_order_ st) = open ->
  dom (reserved_by_order_ (rm_step st pm op)) = open_after st pm op open.
Proof.
  intros Hdom. destruct op; cbn [rm_step open_after].
  - rewrite check_order_reserved. destruct (RiskCheckResult.allowed _).
    + rewrite dom_insert_L, Hdom. reflexivity.
    + exact Hdom.
  - rewrite on_fill_reserved, dom_delete_L, Hdom. reflexivity.
  - unfold on_order_rejected. rewrite release_reservation_reserved, dom_delete_L.
    cbn [set_orders_rejected_today reserved_by_order_]. rewrite Hdom. reflexivity.
  - unfold on_order_cancelled. rewrite release_reservation_reserved, dom_delete_L.
    cbn [set_orders_cancelled_today reserved_by_order_]. rewrite Hdom. reflexivity.
  - unfold update_market_prices. destruct (position_mgr_ _); exact Hdom.
  - exact Hdom.
  - cbn [reset_daily reserved_by_order_]. apply dom_empty_L.
Qed.

Lemma reservation_run (trace : list (PositionManager.t * rm_op)) :
  forall (st : RiskManager.t) (open : gset string),
  dom (reserved_by_order_ st) = open ->
  dom (reserved_by_order_ (rm_run trace st)) = open_orders trace st open.
Proof.
  induction trace as [|[pm op] trace IH]; intros st open Hdom.
  - exact Hdom.
  - cbn [rm_run fold_left open_orders]. apply IH. now apply reservation_step.
Qed.

(** C3 (amended). An approval by [check_order] stores exactly the
    reservation keyed by the order id (a refusal stores none); [on_fill],
    [on_order_rejected] and [on_order_cancelled] each remove exactly the
    reservation of their order id, so the first of them releases it and a
    later one finds nothing to release.  In every state reached from the
    constructor, the reservation keys are the order ids approved since the
    last [reset_daily] that have had no fill, rejection or cancellation since
    their approval, and the number of reservations is the number of those
    ids. *)
Theorem reservation_conservation :
  (forall (st : RiskManager.t) (pm : PositionManager.t) (order : OrderRequest.t)
          (current_price : double) (now_check now_push : Z),
     let st' := fst (check_order st pm order current_price now_check now_push) in
     let result := snd (check_order st pm order current_price now_check now_push) in
     (RiskCheckResult.allowed result = true ->
        reserved_by_order_ st' =
          <[OrderRequest.order_id order := RiskCheckResult.reserved_capital result]>
            (reserved_by_order_ st)) /\
     (RiskCheckResult.allowed result = false ->
        reserved_by_order_ st' = reserved_by_order_ st)) /\
  (forall (st : RiskManager.t) (pm : PositionManager.t) (fill : Fill.t) (order_id : string),
     reserved_by_order_ (on_fill st pm fill) = delete (Fill.order_id fill) (reserved_by_order_ st) /\
     reserved_by_order_ (on_order_rejected st order_id) = delete order_id (reserved_by_order_ st) /\
     reserved_by_order_ (on_order_cancelled st order_id) = delete order_id (reserved_by_order_ st)) /\
  (forall (limits : RiskLimits.t) (trace : list (PositionManager.t * rm_op)),
     dom (reserved_by_order_ (rm_run trace (init limits))) = open_orders trace (init limits) ∅ /\
     size (reserved_by_order_ (rm_run trace (init limits)))
     = size (open_orders trace (init limits) ∅)).
Proof.
  split; [|split].
  - intros st pm order current_price now_check now_push st' result.
    pose proof (check_order_reserved st pm order current_price now_check now_push) as H.
    cbv zeta in H. subst st' result.
    split; intros Hallowed; rewrite Hallowed in H; exact H.
  - intros st pm fill order_id. split; [apply on_fill_reserved|]. split.
    + unfold on_order_rejected. now rewrite release_reservation_reserved.
    + unfold on_order_cancelled. now rewrite release_reservation_reserved.
  - intros limits trace.
    assert (Hdom : dom (reserved_by_order_ (rm_run trace (init limits)))
                   = open_orders trace (init limits) ∅).
    { apply reservation_run. cbn [init reserved_by_order_]. apply dom_empty_L. }
    split; [exact Hdom|]. rewrite <- Hdom. symmetry. apply size_dom.
Qed.

Lemma reservation_conservation_witness :
  reserved_by_order_
    (fst (check_order (wired scenario_limits) PositionManager.init
            (test_order "O1" BUY 100 0 MARKET) 1 1000 1001))
  = {["O1" := 100]} /\
  reserved_by_order_
    (fst (check_order (wired scenario_limits) PositionManager.init zero_qty_order 1 1000 1001))
  = ∅.
Proof.
  destruct reservation_conservation as (Hcheck & _ & _). split.
  - destruct (Hcheck (wired scenario_limits) PositionManager.init
                (test_order "O1" BUY 100 0 MARKET) 1 1000%Z 1001%Z) as [Happroved _].
    rewrite Happroved by (vm_compute; reflexivity). vm_compute. reflexivity.
  - destruct (Hcheck (wired scenario_limits) PositionManager.init zero_qty_order 1 1000%Z 1001%Z)
      as [_ Hrefused].
    rewrite Hrefused by (vm_compute; reflexivity). reflexivity.
Defined.

(** ** Risk manager: the rate limit *)

Lemma filter_fresh_later (t1 t2 : Z) (l : list Z) :
  (t1 <= t2)%Z ->
  List.filter (fun ts => negb (older_than_one_minute t2 ts))
    (List.filter (fun ts => negb (older_than_one_minute t1 ts)) l)
  = List.filter (fun ts => negb (older_than_one_minute t2 ts)) l.
Proof.
  intros Hle. induction l as [|x l IH]; [reflexivity|]. cbn [List.filter].
  destruct (negb (older_than_one_minute t1 x)) eqn:H1.
  - cbn [List.filter]. rewrite IH. reflexivity.
  - rewrite IH.
    assert (H2 : negb (older_than_one_minute t2 x) = false).
    { unfold older_than_one_minute in *. rewrite negb_false_iff in *.
      apply Z.ltb_lt in H1. apply Z.ltb_lt. lia. }
    rewrite H2. reflexivity.
Qed.

Lemma count_in_window_app (start : Z) (l1 l2 : list Z) :
  count_in_window start (l1 ++ l2) = (count_in_window start l1 + count_in_window start l2)%nat.
Proof. unfold count_in_window. rewrite List.filter_app, length_app. reflexivity. Qed.

(** Timestamps of a window that ends no earlier than [now_push] are still
    fresh at the check that precedes the push. *)
Lemma count_in_window_fresh (start now_check now_push : Z) (l : list Z) :
  (now_check <= now_push)%Z ->
  (now_push <= start + one_minute_ns)%Z ->
  (count_in_window start l
   <= length (List.filter (fun ts => negb (older_than_one_minute now_check ts)) l))%nat.
Proof.
  intros Hle Hin. unfold count_in_window.
  induction l as [|x l IH]; [reflexivity|]. cbn [List.filter].
  destruct ((start <=? x)%Z && (x <=? start + one_minute_ns)%Z) eqn:Hw.
  - apply andb_true_iff in Hw as [Hlo Hhi]. apply Z.leb_le in Hlo.
    assert (Hfresh : negb (older_than_one_minute now_check x) = true).
    { unfold older_than_one_minute. rewrite negb_true_iff. apply Z.ltb_ge. lia. }
    rewrite Hfresh. cbn [length]. lia.
  - destruct (negb (older_than_one_minute now_check x)); cbn [length]; lia.
Qed.

(** What [check_order] does to the timestamp history. *)
Lemma check_order_timestamps (st : RiskManager.t) (pm : PositionManager.t)
  (order : OrderRequest.t) (current_price : double) (now_check now_push : Z) :
  let st' := fst (check_order st pm order current_price now_check now_push) in
  let result := snd (check_order st pm order current_price now_check now_push) in
  let kept :=
    List.filter (fun ts => negb (older_than_one_minute now_check ts))
      (recent_order_timestamps_ st) in
  limits_ st' = limits_ st /\
  ((RiskCheckResult.allowed result = false /\
    (recent_order_timestamps_ st' = recent_order_timestamps_ st \/
     recent_order_timestamps_ st' = kept)) \/
   (RiskCheckResult.allowed result = true /\
    recent_order_timestamps_ st' = kept ++ [now_push] /\
    (Z.of_nat (length kept)
     < static_cast_size_t (RiskLimits.max_orders_per_minute (limits_ st)))%Z)).
Proof.
  cbv zeta. unfold check_order, check_rate_limit.
  destruct (halt_active_ st); [split; [reflexivity|]; left; split; [|left]; reflexivity|].
  destruct (Qleb _ _); [split; [reflexivity|]; left; split; [|left]; reflexivity|].
  destruct (_ && _); [split; [reflexivity|]; left; split; [|left]; reflexivity|].
  destruct (Qltb _ _); [split; [reflexivity|]; left; split; [|left]; reflexivity|].
  cbn [limits_ set_recent_order_timestamps].
  destruct (Z.of_nat _ <? _)%Z eqn:Hrate; cbn [negb];
    [|split; [reflexivity|]; left; split; [|right]; reflexivity].
  apply Z.ltb_lt in Hrate.
  repeat match goal with
         | |- context [if ?b then _ else _] => destruct b
         end;
    (split; [reflexivity|]);
    first [ left; split; [reflexivity|right; reflexivity]
          | right; split; [reflexivity|split; [reflexivity|exact Hrate]] ].
Qed.

Lemma rm_step_timestamps (st : RiskManager.t) (pm : PositionManager.t) (op : rm_op) :
  is_reset op = false ->
  (forall order current_price now_check now_push,
     op <> RmCheckOrder order current_price now_check now_push) ->
  limits_ (rm_step st pm op) = limits_ st /\
  recent_order_timestamps_ (rm_step st pm op) = recent_order_timestamps_ st.
Proof.
  intros Hreset Hcheck. destruct op; cbn [rm_step]; try discriminate.
  - exfalso. eapply Hcheck. reflexivity.
  - unfold on_fill, release_reservation, update_pnl.
    repeat match goal with
           | |- context [if ?b then _ else _] => destruct b
           | |- context [match ?o with Some _ => _ | None => _ end] => destruct o
           end; split; reflexivity.
  - unfold on_order_rejected, release_reservation. destruct (_ !! _); split; reflexivity.
  - unfold on_order_cancelled, release_reservation. destruct (_ !! _); split; reflexivity.
  - unfold update_market_prices. destruct (position_mgr_ _); split; reflexivity.
  - split; reflexivity.
Qed.

Lemma rate_limit_invariant (limits : RiskLimits.t) (trace : list (PositionManager.t * rm_op)) :
  (0 <= RiskLimits.max_orders_per_minute limits < 2 ^ 64)%Z ->
  forall (st : RiskManager.t) (approved : list Z) (last : Z),
  limits_ st = limits ->
  Forall (fun call => is_reset (snd call) = false) trace ->
  StronglySorted Z.le (clock_reads trace) ->
  Forall (Z.le last) (clock_reads trace) ->
  recent_order_timestamps_ st
  = List.filter (fun ts => negb (older_than_one_minute last ts)) approved ->
  (forall start,
     (Z.of_nat (count_in_window start approved) <= RiskLimits.max_orders_per_minute limits)%Z) ->
  forall start,
    (Z.of_nat (count_in_window start (approved ++ approvals trace st))
     <= RiskLimits.max_orders_per_minute limits)%Z.
Proof.
  intros Hmax. induction trace as [|[pm op] trace IH];
    intros st approved last Hlim Hops Hsorted Hlast Hrecent Hcount start.
  - cbn [approvals]. rewrite app_nil_r. apply Hcount.
  - apply Forall_cons_1 in Hops as [Hop Hops]. cbn [snd] in Hop.
    destruct op as [order current_price now_check now_push| | | | | |];
      try discriminate Hop.
    + (* check_order *)
      cbn [clock_reads] in Hsorted, Hlast.
      apply Forall_cons_1 in Hlast as [Hl1 Hlast].
      apply Forall_cons_1 in Hlast as [Hl2 Hlast].
      apply StronglySorted_inv in Hsorted as [Hsorted Hall1].
      apply Forall_cons_1 in Hall1 as [H12 Hall1].
      apply StronglySorted_inv in Hsorted as [Hsorted Hall2].
      cbn [approvals rm_step].
      destruct (check_order_timestamps st pm order current_price now_check now_push)
        as [Hlim' [[Hallowed [Hsame|Hevict]]|[Hallowed [Hpush Hrate]]]];
        rewrite Hallowed.
      * cbn [app]. apply (IH _ approved last); try assumption.
        -- now rewrite Hlim'.
        -- now rewrite Hsame.
      * cbn [app]. apply (IH _ approved now_check); try assumption.
        -- now rewrite Hlim'.
        -- rewrite Hevict, Hrecent. now apply filter_fresh_later.
      * replace (approved ++ [now_push] ++ approvals trace
                   (fst (check_order st pm order current_price now_check now_push)))
          with ((approved ++ [now_push]) ++ approvals trace
                   (fst (check_order st pm order current_price now_check now_push)))
          by (now rewrite <- app_assoc).
        apply (IH _ (approved ++ [now_push]) now_check); try assumption.
        -- now rewrite Hlim'.
        -- rewrite Hpush, Hrecent, filter_fresh_later by assumption.
           rewrite List.filter_app. cbn [List.filter].
           assert (Hfresh : negb (older_than_one_minute now_check now_push) = true).
           { unfold older_than_one_minute. rewrite negb_true_iff. apply Z.ltb_ge.
             unfold one_minute_ns. lia. }
           rewrite Hfresh. reflexivity.
        -- intros start'. rewrite count_in_window_app.
           rewrite Hrecent, filter_fresh_later in Hrate by assumption.
           rewrite Hlim in Hrate. unfold static_cast_size_t in Hrate.
           rewrite Z.mod_small in Hrate by exact Hmax.
           unfold count_in_window at 2. cbn [List.filter].
           destruct ((start' <=? now_push)%Z && (now_push <=? start' + one_minute_ns)%Z) eqn:Hw.
           ++ apply andb_true_iff in Hw as [_ Hhi]. apply Z.leb_le in Hhi.
              pose proof (count_in_window_fresh start' now_check now_push approved H12 Hhi).
              cbn [length]. lia.
           ++ cbn [length]. specialize (Hcount start'). lia.
    + destruct (rm_step_timestamps st pm (RmOnFill fill)) as [Hl Ht];
        [reflexivity|discriminate|].
      cbn [approvals app clock_reads] in *.
      apply (IH _ approved last); first [assumption | now rewrite Hl | now rewrite Ht].
    + destruct (rm_step_timestamps st pm (RmOnOrderRejected order_id)) as [Hl Ht];
        [reflexivity|discriminate|].
      cbn [approvals app clock_reads] in *.
      apply (IH _ approved last); first [assumption | now rewrite Hl | now rewrite Ht].
    + destruct (rm_step_timestamps st pm (RmOnOrderCancelled order_id)) as [Hl Ht];
        [reflexivity|discriminate|].
      cbn [approvals app clock_reads] in *.
      apply (IH _ approved last); first [assumption | now rewrite Hl | now rewrite Ht].
    + destruct (rm_step_timestamps st pm (RmUpdateMarketPrices prices)) as [Hl Ht];
        [reflexivity|discriminate|].
      cbn [approvals app clock_reads] in *.
      apply (IH _ approved last); first [assumption | now rewrite Hl | now rewrite Ht].
    + destruct (rm_step_timestamps st pm (RmSetPositionManager non_null)) as [Hl Ht];
        [reflexivity|discriminate|].
      cbn [approvals app clock_reads] in *.
      apply (IH _ approved last); first [assumption | now rewrite Hl | now rewrite Ht].
Qed.

(** C9. Each approval of [check_order] first evicts the timestamps older
    than 60 s at the time of the check, requires the number of remaining
    ones to be strictly below [max_orders_per_minute], and appends its own
    timestamp.  Hence, for a non-negative limit and non-decreasing clock
    reads, along any run without [reset_daily] at most
    [max_orders_per_minute] approvals carry a timestamp inside any 60 s
    window. *)
Theorem rate_limit_exact :
  (forall (st : RiskManager.t) (pm : PositionManager.t) (order : OrderRequest.t)
          (current_price : double) (now_check now_push : Z),
     let st' := fst (check_order st pm order current_price now_check now_push) in
     let result := snd (check_order st pm order current_price now_check now_push) in
     let kept :=
       List.filter (fun ts => negb (older_than_one_minute now_check ts))
         (recent_order_timestamps_ st) in
     RiskCheckResult.allowed result = true ->
     recent_order_timestamps_ st' = kept ++ [now_push] /\
     (Z.of_nat (length kept)
      < static_cast_size_t (RiskLimits.max_orders_per_minute (limits_ st)))%Z) /\
  (forall (limits : RiskLimits.t) (trace : list (PositionManager.t * rm_op)) (start : Z),
     (0 <= RiskLimits.max_orders_per_minute limits < 2 ^ 31)%Z ->
     Forall (fun call => is_reset (snd call) = false) trace ->
     StronglySorted Z.le (clock_reads trace) ->
     (Z.of_nat (count_in_window start (approvals trace (init limits)))
      <= RiskLimits.max_orders_per_minute limits)%Z).
Proof.
  split.
  - intros st pm order current_price now_check now_push st' result kept Hallowed.
    destruct (check_order_timestamps st pm order current_price now_check now_push)
      as [_ [[Hrefused _]|[_ H]]].
    + subst result. rewrite Hallowed in Hrefused. discriminate.
    + exact H.
  - intros limits trace start Hmax Hops Hsorted.
    change (approvals trace (init limits)) with ([] ++ approvals trace (init limits)).
    apply (rate_limit_invariant limits trace) with (last := hd 0%Z (clock_reads trace)).
    + lia.
    + reflexivity.
    + exact Hops.
    + exact Hsorted.
    + destruct (clock_reads trace) as [|t reads]; [constructor|].
      cbn [hd]. apply StronglySorted_inv in Hsorted as [_ Hall].
      constructor; [lia|exact Hall].
    + reflexivity.
    + intros start'. cbn. lia.
Qed.

Lemma rate_limit_exact_witness :
  (Z.of_nat (count_in_window 1000 (approvals three_checks (init two_per_minute))) <= 2)%Z /\
  recent_order_timestamps_
    (fst (check_order (init two_per_minute) PositionManager.init
            (test_order "O1" BUY 10 0 MARKET) 1 1000 1001)) = [1001%Z].
Proof.
  destruct rate_limit_exact as [Hcall Hwindow]. split.
  - apply (Hwindow two_per_minute three_checks 1000%Z).
    + split; [discriminate|reflexivity].
    + repeat constructor.
    + repeat constructor; discriminate.
  - destruct (Hcall (init two_per_minute) PositionManager.init
                (test_order "O1" BUY 10 0 MARKET) 1 1000%Z 1001%Z) as [Hpush _].
    + vm_compute. reflexivity.
    + rewrite Hpush. reflexivity.
Defined.

Example three_checks_approvals :
  approvals three_checks (init two_per_minute) = [1001%Z; 2001%Z].
Proof. vm_compute. reflexivity. Qed.

End RiskManagerFacts.

(** ** Execution engine *)

Section ExecutionEngineFacts.
Import ExecutionEngine.

(** A partially filled order is still active, yet its reservation is gone. *)
Lemma reservation_released_by_partial_fill :
  RiskManager.reserved_by_order_ (risk_mgr world_submitted) = {["O1" := 300]} /\
  size (active_orders_ (engine world_submitted)) = 1%nat /\
  size (RiskManager.reserved_by_order_ (risk_mgr world_partial)) = 0%nat /\
  size (active_orders_ (engine world_partial)) = 1%nat /\
  (exists state,
     active_orders_ (engine world_partial) !! "O1" = Some state /\
     OrderUpdate.status (OrderState.current_status state) = PARTIALLY_FILLED /\
     is_terminal (OrderUpdate.status (OrderState.current_status state)) = false).
Proof.
  vm_compute. repeat split. eexists. repeat split.
Qed.

(** A callback fires for an order after its terminal update. *)
Lemma callback_after_terminal_update :
  is_terminal (OrderUpdate.status cancelled_300) = true /\
  active_orders_ (engine world_submitted) !! "O1" <> None /\
  active_orders_ (engine world_cancelled) !! "O1" = None /\
  trace world_cancelled
  = [OrderCallback 0 ack_300; OrderCallback 0 cancelled_300] /\
  trace (on_order_update world_cancelled late_300)
  = [OrderCallback 0 ack_300; OrderCallback 0 cancelled_300; OrderCallback 0 late_300].
Proof.
  vm_compute. repeat split. discriminate.
Qed.

Lemma finalize_order_callbacks (e : ExecutionEngine.t) (order_id : string) :
  order_callbacks_ (finalize_order e order_id) = order_callbacks_ e /\
  redis_ (finalize_order e order_id) = redis_ e /\
  enable_redis (finalize_order e order_id) = enable_redis e.
Proof.
  unfold finalize_order. destruct (active_orders_ e !! order_id); [|repeat split].
  destruct (Nat.ltb _ _); [|repeat split]. destruct (first_key _); repeat split.
Qed.

Lemma update_order_state_callbacks (e : ExecutionEngine.t) (update : OrderUpdate.t) :
  order_callbacks_ (update_order_state e update) = order_callbacks_ e /\
  redis_ (update_order_state e update) = redis_ e /\
  enable_redis (update_order_state e update) = enable_redis e.
Proof.
  unfold update_order_state. destruct (active_orders_ e !! _); [|repeat split].
  destruct (is_terminal _); [|repeat split].
  match goal with
  | |- context [finalize_order ?e' ?i] =>
      destruct (finalize_order_callbacks e' i) as (-> & -> & ->)
  end.
  repeat split.
Qed.

(** C7 (amended). [on_order_update] changes the tracked order state only
    for an order that is still in [active_orders_]: an update for an order that
    has been finalized (or was never tracked) leaves the engine and both
    managers unchanged.  The update is nevertheless published (when the bus
    is on) and handed to every registered order callback, whatever the status
    of the order: callbacks are not suppressed after a terminal update. *)
Theorem on_order_update_always_notifies (w : world) (update : OrderUpdate.t) :
  trace (on_order_update w update)
  = trace w
    ++ (if redis_ (engine w) && enable_redis (engine w) then [PublishOrder update] else [])
    ++ List.map (fun cb => OrderCallback cb update) (seq 0 (order_callbacks_ (engine w))) /\
  (active_orders_ (engine w) !! OrderUpdate.order_id update = None ->
   engine (on_order_update w update) = engine w /\
   risk_mgr (on_order_update w update) = risk_mgr w /\
   position_mgr (on_order_update w update) = position_mgr w).
Proof.
  destruct (update_order_state_callbacks (engine w) update) as (Hcb & Hredis & Henable).
  split.
  - unfold on_order_update, notify_order_callbacks, publish_order_event.
    unfold set_engine. cbn [engine trace]. rewrite Hredis, Henable.
    destruct (redis_ (engine w)), (enable_redis (engine w));
      cbn [negb orb andb]; unfold emit; cbn [engine trace];
      rewrite Hcb, <- ?app_assoc, ?app_nil_r; reflexivity.
  - intros Hgone.
    assert (Hsame : update_order_state (engine w) update = engine w)
      by (unfold update_order_state; now rewrite Hgone).
    unfold on_order_update, notify_order_callbacks, publish_order_event.
    unfold set_engine. cbn [engine]. rewrite Hsame.
    destruct (negb _ || negb _); unfold emit; cbn [engine risk_mgr position_mgr];
      repeat split; destruct w; reflexivity.
Qed.

Lemma on_order_update_always_notifies_witness :
  engine (on_order_update world_cancelled late_300) = engine world_cancelled /\
  trace (on_order_update world_cancelled late_300)
  = trace world_cancelled ++ [OrderCallback 0 late_300].
Proof.
  destruct (on_order_update_always_notifies world_cancelled late_300) as [Htrace Hstate].
  split.
  - apply Hstate. reflexivity.
  - rewrite Htrace. reflexivity.
Defined.

(** *** Fill tracking *)

Lemma finalize_order_active (e : ExecutionEngine.t) (order_id : string) (state : OrderState.t) :
  active_orders_ e !! order_id = Some state ->
  active_orders_ (finalize_order e order_id) = delete order_id (active_orders_ e).
Proof.
  intros Hact. unfold finalize_order. rewrite Hact.
  destruct (Nat.ltb _ _); [|reflexivity]. destruct (first_key _); reflexivity.
Qed.

Lemma finalize_order_completed (e : ExecutionEngine.t) (order_id : string) (state : OrderState.t) :
  active_orders_ e !! order_id = Some state ->
  (size (completed_orders_ e) < 1000)%nat ->
  completed_orders_ (finalize_order e order_id) = <[order_id := state]> (completed_orders_ e).
Proof.
  intros Hact Hsize. unfold finalize_order. rewrite Hact.
  assert (Hle : (size (<[order_id := state]> (completed_orders_ e)) <= 1000)%nat).
  { rewrite map_size_insert. destruct (completed_orders_ e !! order_id); simpl; lia. }
  destruct (Nat.ltb_spec 1000 (size (<[order_id := state]> (completed_orders_ e)))) as [Hgt|_];
    [lia|reflexivity].
Qed.

(** The engine after [on_fill], with the fan-out peeled off. *)
Lemma on_fill_engine (w : world) (fill : Fill.t) :
  engine (on_fill w fill) =
    let e := set_stats (engine w) (stats_fill (stats_ (engine w)) fill) in
    match active_orders_ (engine w) !! Fill.order_id fill with
    | None => e
    | Some state =>
        let state' := fill_order_state state fill in
        let e := set_active_orders e (<[Fill.order_id fill := state']> (active_orders_ (engine w))) in
        if Qleb (OrderUpdate.remaining_qty (OrderState.current_status state')) EPS
        then finalize_order e (Fill.order_id fill)
        else e
    end.
Proof.
  unfold on_fill, notify_fill_callbacks, publish_fill_event.
  destruct (negb _ || negb _); reflexivity.
Qed.

Lemma fill_order_state_fields (state : OrderState.t) (fill : Fill.t) :
  let old := OrderState.current_status state in
  let new := OrderState.current_status (fill_order_state state fill) in
  OrderState.request (fill_order_state state fill) = OrderState.request state /\
  OrderUpdate.filled_qty new = OrderUpdate.filled_qty old + Fill.quantity fill /\
  OrderUpdate.remaining_qty new
  = OrderRequest.quantity (OrderState.request state) - OrderUpdate.filled_qty new /\
  (~ OrderUpdate.filled_qty new == 0 ->
   OrderUpdate.avg_fill_price new * OrderUpdate.filled_qty new
   == OrderUpdate.avg_fill_price old * OrderUpdate.filled_qty old
      + Fill.price fill * Fill.quantity fill) /\
  (OrderUpdate.remaining_qty new <= EPS -> OrderUpdate.status new = FILLED) /\
  (EPS < OrderUpdate.remaining_qty new -> OrderUpdate.status new = PARTIALLY_FILLED).
Proof.
  cbv zeta. unfold fill_order_state.
  cbn [OrderState.current_status OrderState.request OrderUpdate.filled_qty
       OrderUpdate.remaining_qty OrderUpdate.avg_fill_price OrderUpdate.status].
  split; [reflexivity|]. split; [reflexivity|]. split; [reflexivity|]. split; [|split].
  - intros Hnz. field. exact Hnz.
  - intros Hle. apply Qleb_true in Hle. rewrite Hle. reflexivity.
  - intros Hlt. apply Qleb_false in Hlt. rewrite Hlt. reflexivity.
Qed.

(** One fill on a tracked order: where the updated entry ends up. *)
Lemma on_fill_tracked (w : world) (fill : Fill.t) (state : OrderState.t) :
  active_orders_ (engine w) !! Fill.order_id fill = Some state ->
  let state' := fill_order_state state fill in
  let new := OrderState.current_status state' in
  let e' := engine (on_fill w fill) in
  (OrderUpdate.remaining_qty new <= EPS ->
     active_orders_ e' !! Fill.order_id fill = None /\
     ((size (completed_orders_ (engine w)) < 1000)%nat ->
      completed_orders_ e' !! Fill.order_id fill = Some state')) /\
  (EPS < OrderUpdate.remaining_qty new ->
     active_orders_ e' !! Fill.order_id fill = Some state' /\
     completed_orders_ e' = completed_orders_ (engine w)).
Proof.
  intros Hact state' new e'. subst e'. rewrite on_fill_engine, Hact. cbv zeta.
  fold state'. fold new. split.
  - intros Hle. apply Qleb_true in Hle. rewrite Hle.
    set (e1 := set_active_orders _ _).
    assert (Hact1 : active_orders_ e1 !! Fill.order_id fill = Some state')
      by (subst e1; cbn [set_active_orders active_orders_]; apply lookup_insert_eq).
    split.
    + rewrite (finalize_order_active e1 _ state' Hact1). apply lookup_delete_eq.
    + intros Hsize. rewrite (finalize_order_completed e1 _ state' Hact1).
      * apply lookup_insert_eq.
      * exact Hsize.
  - intros Hlt. apply Qleb_false in Hlt. rewrite Hlt.
    cbn [set_active_orders active_orders_ completed_orders_ set_stats].
    split; [apply lookup_insert_eq|reflexivity].
Qed.






(** The order of [std::string::operator<=] is transitive. *)
Lemma string_leb_trans (s1 s2 s3 : string) :
  String.leb s1 s2 = true -> String.leb s2 s3 = true -> String.leb s1 s3 = true.
Proof.
  unfold String.leb. revert s2 s3.
  induction s1 as [|c1 s1 IH]; intros [|c2 s2] [|c3 s3]; cbn; try congruence.
  unfold Ascii.compare.
  destruct (N.compare_spec (N_of_ascii c1) (N_of_ascii c2)) as [H12|H12|H12];
    destruct (N.compare_spec (N_of_ascii c2) (N_of_ascii c3)) as [H23|H23|H23];
    destruct (N.compare_spec (N_of_ascii c1) (N_of_ascii c3)) as [H13|H13|H13];
    try congruence; try lia.
  apply IH.
Qed.

Lemma first_key_foldr (keys : list string) :
  match foldr (fun k acc =>
                 match acc with
                 | None => Some k
                 | Some k' => if String.leb k k' then Some k else Some k'
                 end) None keys with
  | None => keys = []
  | Some k => k ∈ keys /\ forall k', k' ∈ keys -> String.leb k k' = true
  end.
Proof.
  induction keys as [|k keys IH]; [reflexivity|]. cbn [foldr].
  destruct (foldr _ None keys) as [least|].
  - destruct IH as [Hin Hleast].
    destruct (String.leb k least) eqn:Hleb.
    + split; [left|]. intros k' Hk'. apply elem_of_cons in Hk' as [->|Hk'].
      * destruct (String.leb_total k k) as [H|H]; exact H.
      * eapply string_leb_trans; [exact Hleb|]. now apply Hleast.
    + split; [now right|]. intros k' Hk'. apply elem_of_cons in Hk' as [->|Hk'].
      * destruct (String.leb_total least k) as [H|H]; [exact H|congruence].
      * now apply Hleast.
  - subst keys. split; [left|]. intros k' Hk'. apply list_elem_of_singleton in Hk' as ->.
    destruct (String.leb_total k k) as [H|H]; exact H.
Qed.

(** [first_key] finds the least key of a non-empty map. *)
Lemma first_key_spec {A} (m : gmap string A) :
  match first_key m with
  | None => m = ∅
  | Some k => is_Some (m !! k) /\ forall k', is_Some (m !! k') -> String.leb k k' = true
  end.
Proof.
  unfold first_key. pose proof (first_key_foldr (map_to_list m).*1) as Hfold.
  destruct (foldr _ None (map_to_list m).*1) as [k|].
  - destruct Hfold as [Hin Hleast]. split.
    + apply list_elem_of_fmap in Hin as ([k0 v] & -> & Hin).
      apply elem_of_map_to_list in Hin. eauto.
    + intros k' [v Hk']. apply Hleast. apply list_elem_of_fmap.
      exists (k', v). split; [reflexivity|]. now apply elem_of_map_to_list.
  - apply fmap_nil_inv in Hfold. now apply map_to_list_empty_iff.
Qed.

(** The completed orders after [finalize_order] of an active order. *)
Lemma finalize_order_history (e : ExecutionEngine.t) (order_id : string) (state : OrderState.t) :
  active_orders_ e !! order_id = Some state ->
  let completed := <[order_id := state]> (completed_orders_ e) in
  ((size completed <= 1000)%nat /\ completed_orders_ (finalize_order e order_id) = completed) \/
  ((1000 < size completed)%nat /\
   exists oldest,
     completed_orders_ (finalize_order e order_id) = delete oldest completed /\
     is_Some (completed !! oldest) /\
     forall k, is_Some (completed !! k) -> String.leb oldest k = true).
Proof.
  intros Hactive completed. unfold finalize_order. rewrite Hactive. fold completed.
  destruct (Nat.ltb_spec 1000 (size completed)) as [Hgt|Hle]; [right|left; split; [lia|reflexivity]].
  split; [exact Hgt|].
  pose proof (first_key_spec completed) as Hfirst.
  destruct (first_key completed) as [oldest|].
  - exists oldest. split; [reflexivity|exact Hfirst].
  - rewrite Hfirst, map_size_empty in Hgt. lia.
Qed.


(** In binary64 the average the engine keeps and the volume-weighted
    average computed from the fills differ in the last place: after 0.1 @
    1.1 and 0.2 @ 1.3 the engine holds 1.2333333333333334, the quotient of
    value and volume is 1.2333333333333332. *)
Lemma avg_fill_price_rounded :
  let cs :=
    fold_left (ExecutionEngineBinary64.fill_order_state 0.3%float) two_fills
      (ExecutionEngineBinary64.acknowledged 0.3%float) in
  ExecutionEngineBinary64.filled_qty cs = 0.30000000000000004%float /\
  ExecutionEngineBinary64.avg_fill_price cs = 1.2333333333333334%float /\
  ((1.1 * 0.1 + 1.3 * 0.2) / (0.1 + 0.2))%float = 1.2333333333333332%float.
Proof. vm_compute. repeat split; reflexivity. Qed.

(** A fill that leaves [filled_qty] at zero makes [avg_fill_price] the
    quotient 0/0, which is not a number. *)
Lemma avg_fill_price_of_empty_fill :
  let cs :=
    ExecutionEngineBinary64.fill_order_state 0.3%float
      (ExecutionEngineBinary64.acknowledged 0.3%float) empty_fill in
  ExecutionEngineBinary64.filled_qty cs = 0%float /\
  PrimFloat.is_nan (ExecutionEngineBinary64.avg_fill_price cs) = true.
Proof. vm_compute. split; reflexivity. Qed.



End ExecutionEngineFacts.

(** * Further properties *)

(** ** Position manager *)

Section PositionManagerMore.
Import PositionManager.





Lemma sum_num_fills_insert_fresh (m : gmap string Position.t) (i : string) (pos : Position.t) :
  m !! i = None ->
  sum_num_fills (<[i := pos]> m) = (sum_num_fills m + Position.num_fills_today pos)%Z.
Proof.
  intros Hfresh. unfold sum_num_fills.
  rewrite map_fold_insert_L; [reflexivity| |exact Hfresh]. intros. lia.
Qed.

Lemma sum_num_fills_insert_over (m : gmap string Position.t) (i : string) (old pos : Position.t) :
  m !! i = Some old ->
  sum_num_fills (<[i := pos]> m)
  = (sum_num_fills m - Position.num_fills_today old + Position.num_fills_today pos)%Z.
Proof.
  intros Hold.
  rewrite <- (insert_delete_eq m i pos).
  rewrite <- (insert_delete_id m i old Hold) at 2.
  rewrite !sum_num_fills_insert_fresh by apply lookup_delete_eq. lia.
Qed.

Lemma sum_num_fills_reset (m : gmap string Position.t) :
  sum_num_fills (reset_position <$> m) = 0%Z.
Proof.
  induction m as [|i pos m Hfresh IH] using map_ind.
  - rewrite fmap_empty. reflexivity.
  - rewrite fmap_insert, sum_num_fills_insert_fresh by (rewrite lookup_fmap, Hfresh; reflexivity).
    rewrite IH. reflexivity.
Qed.

Lemma fill_counters_step (st : PositionManager.t) (op : pm_op) :
  total_fills_today_ st = sum_num_fills (positions_ st) ->
  total_fills_today_ (pm_step st op) = sum_num_fills (positions_ (pm_step st op)).
Proof.
  intros Hinv. destruct op as [fill|]; cbn [pm_step].
  - unfold on_fill. destruct (positions_ st !! Fill.instrument fill) as [pos|] eqn:Hpos.
    + assert (Hn : Position.num_fills_today (fst (apply_fill pos (total_realized_pnl_ st) fill))
                   = (Position.num_fills_today pos + 1)%Z)
        by (unfold apply_fill; destruct (_ || _); reflexivity).
      destruct (apply_fill pos (total_realized_pnl_ st) fill) as [pos' total].
      cbn [fst total_fills_today_ positions_] in *.
      rewrite (sum_num_fills_insert_over _ _ pos pos' Hpos). lia.
    + cbn [total_fills_today_ positions_].
      rewrite sum_num_fills_insert_fresh by exact Hpos.
      unfold new_position. cbn [Position.num_fills_today]. lia.
  - unfold reset_daily. cbn [total_fills_today_ positions_].
    rewrite sum_num_fills_reset. reflexivity.
Qed.

(** X2. In every state reached from the constructor by [on_fill] and
    [reset_daily], the global counter [total_fills_today_] equals the sum of
    [num_fills_today] over the stored positions. *)
Theorem fill_counters_agree (ops : list pm_op) :
  total_fills_today_ (pm_run ops init) = sum_num_fills (positions_ (pm_run ops init)).
Proof.
  unfold pm_run.
  assert (Hinit : total_fills_today_ init = sum_num_fills (positions_ init)) by reflexivity.
  revert Hinit. generalize init as st.
  induction ops as [|op ops IH]; intros st Hinv; cbn [fold_left].
  - exact Hinv.
  - apply IH. now apply fill_counters_step.
Qed.

Lemma on_fill_existing (st : PositionManager.t) (fill : Fill.t) (pos : Position.t) :
  positions_ st !! Fill.instrument fill = Some pos ->
  on_fill st fill =
    {| positions_ :=
         <[Fill.instrument fill := fst (apply_fill pos (total_realized_pnl_ st) fill)]>
           (positions_ st);
       total_realized_pnl_ := snd (apply_fill pos (total_realized_pnl_ st) fill);
       total_fills_today_ := (total_fills_today_ st + 1)%Z |}.
Proof.
  intros Hpos. unfold on_fill. rewrite Hpos.
  destruct (apply_fill pos (total_realized_pnl_ st) fill). reflexivity.
Qed.

Lemma apply_fill_reducing (pos : Position.t) (total : double) (fill : Fill.t) :
  let q := Position.quantity pos in
  let f := signed_qty fill in
  let realized :=
    calculate_realized_pnl q (Position.entry_price pos) f (Fill.price fill) in
  q * f < 0 ->
  Position.quantity (fst (apply_fill pos total fill)) = q + f /\
  Position.entry_price (fst (apply_fill pos total fill))
  = (if (Qltb 0 q && Qltb (q + f) 0) || (Qltb q 0 && Qltb 0 (q + f))
     then Fill.price fill else Position.entry_price pos) /\
  Position.realized_pnl (fst (apply_fill pos total fill)) = Position.realized_pnl pos + realized /\
  snd (apply_fill pos total fill) = total + realized.
Proof.
  intros q f realized Hprod. unfold apply_fill. fold (signed_qty fill). fold f. fold q.
  assert (Hsame : Qltb 0 (q * f) = false) by (apply Qltb_false; lra).
  assert (Hnz : Qeqb q 0 = false).
  { apply Qeqb_false. intros Hz. rewrite Hz in Hprod. lra. }
  rewrite Hsame, Hnz. cbn [orb fst snd Position.quantity Position.entry_price
                            Position.realized_pnl].
  repeat split.
Qed.

(** X3. Round trip: on an instrument without an entry, a fill of [k > 0]
    units at price [p] followed by a fill of the same size on the other side
    at price [p'] leaves quantity 0 and an entry the manager reports as no
    position, keeps the entry price [p], and realizes [k * (p' - p)] for a
    long ([k * (p - p')] for a short) on the position and on the global
    counter alike. *)
Theorem open_then_close (st : PositionManager.t) (open close : Fill.t) :
  positions_ st !! Fill.instrument open = None ->
  Fill.instrument close = Fill.instrument open ->
  Fill.side close = opposite (Fill.side open) ->
  0 < Fill.quantity open ->
  Fill.quantity close == Fill.quantity open ->
  let st' := on_fill (on_fill st open) close in
  let pos := get_position st' (Fill.instrument open) in
  Position.quantity pos == 0 /\
  Position.entry_price pos = Fill.price open /\
  Position.realized_pnl pos
  == side_sign (Fill.side open) * Fill.quantity open * (Fill.price close - Fill.price open) /\
  total_realized_pnl_ st'
  == total_realized_pnl_ st
     + side_sign (Fill.side open) * Fill.quantity open * (Fill.price close - Fill.price open) /\
  has_position st' (Fill.instrument open) = false /\
  (forall price, get_unrealized_pnl st' (Fill.instrument open) price = 0).
Proof.
  intros Habsent Hinstr Hside Hk Hsame st' pos.
  assert (Hopen : positions_ (on_fill st open) !! Fill.instrument close = Some (new_position open)).
  { unfold on_fill. rewrite Habsent, Hinstr. cbn [positions_]. apply lookup_insert_eq. }
  assert (Htotal : total_realized_pnl_ (on_fill st open) = total_realized_pnl_ st)
    by (unfold on_fill; now rewrite Habsent).
  set (s := side_sign (Fill.side open)).
  set (k := Fill.quantity open) in *.
  assert (Hq1 : Position.quantity (new_position open) = s * k) by reflexivity.
  assert (Hs2 : s * s == 1) by (subst s; destruct (Fill.side open); reflexivity).
  assert (Hf : signed_qty close == - (s * k)).
  { unfold signed_qty. rewrite Hside, Hsame. subst s. destruct (Fill.side open);
      cbn [opposite side_sign]; lra. }
  assert (Hprod : Position.quantity (new_position open) * signed_qty close < 0)
    by (rewrite Hq1, Hf; nra).
  destruct (apply_fill_reducing (new_position open) (total_realized_pnl_ (on_fill st open)) close
              Hprod) as (Hq & He & Hr & Ht).
  assert (Hst' : st' = _) by (subst st'; apply (on_fill_existing _ close _ Hopen)).
  set (pos2 := fst (apply_fill (new_position open) (total_realized_pnl_ (on_fill st open)) close))
    in *.
  assert (Hlook : positions_ st' !! Fill.instrument open = Some pos2).
  { rewrite Hst'. cbn [positions_]. rewrite Hinstr. apply lookup_insert_eq. }
  assert (Hpos : pos = pos2) by (subst pos; unfold get_position; now rewrite Hlook).
  assert (Hsum : Position.quantity pos2 == 0) by (rewrite Hq, Hq1, Hf; lra).
  assert (Hreal : calculate_realized_pnl (Position.quantity (new_position open))
                    (Position.entry_price (new_position open)) (signed_qty close)
                    (Fill.price close)
                  == s * k * (Fill.price close - Fill.price open)).
  { unfold calculate_realized_pnl.
    assert (Hred : Qltb (Position.quantity (new_position open) * signed_qty close) 0 = true)
      by (apply Qltb_true; exact Hprod).
    rewrite Hred. cbn [negb].
    change (Position.entry_price (new_position open)) with (Fill.price open).
    assert (Hmin : std_min (std_abs (Position.quantity (new_position open)))
                     (std_abs (signed_qty close)) == Qabs (s * k)).
    { rewrite std_min_Qmin. unfold std_abs. rewrite Hq1, Hf, Qabs_opp. apply Q.min_id. }
    rewrite Hq1, Hf in Hprod.
    destruct (Qltb 0 (Position.quantity (new_position open))) eqn:Hlt;
      [apply Qltb_true in Hlt|apply Qltb_false in Hlt]; rewrite Hmin; rewrite Hq1 in Hlt.
    - rewrite Qabs_pos by lra. reflexivity.
    - rewrite Qabs_neg by lra. lra. }
  assert (Hdust : Qltb (std_abs (Position.quantity pos2)) EPS = true).
  { apply Qltb_true. unfold std_abs. rewrite Hsum. reflexivity. }
  rewrite Hpos. split; [exact Hsum|]. split; [|split; [|split; [|split]]].
  - rewrite He.
    assert (H1 : Qltb (Position.quantity (new_position open) + signed_qty close) 0 = false).
    { apply Qltb_false. rewrite <- Hq, Hsum. lra. }
    assert (H2 : Qltb 0 (Position.quantity (new_position open) + signed_qty close) = false).
    { apply Qltb_false. rewrite <- Hq, Hsum. lra. }
    rewrite H1, H2, !andb_false_r. reflexivity.
  - rewrite Hr, Hreal. change (Position.realized_pnl (new_position open)) with 0. lra.
  - rewrite Hst'. cbn [total_realized_pnl_]. rewrite Ht, Hreal, Htotal. reflexivity.
  - unfold has_position. rewrite Hlook, Hdust. reflexivity.
  - intros price. unfold get_unrealized_pnl. rewrite Hlook, Hdust. reflexivity.
Qed.

Lemma open_then_close_witness :
  Position.quantity (get_position (on_fill (on_fill init buy_100) sell_100) "EUR/USD") == 0 /\
  Position.realized_pnl (get_position (on_fill (on_fill init buy_100) sell_100) "EUR/USD")
  == 1 # 2.
Proof.
  destruct (open_then_close init buy_100 sell_100) as (Hq & _ & Hr & _).
  - reflexivity.
  - reflexivity.
  - reflexivity.
  - reflexivity.
  - reflexivity.
  - split; [exact Hq|]. rewrite Hr. reflexivity.
Defined.

Lemma reset_position_idempotent (pos : Position.t) :
  reset_position (reset_position pos) = reset_position pos.
Proof. reflexivity. Qed.

(** X4. [reset_daily] keeps every stored instrument with its quantity and
    entry price, zeroes its daily counters together with the global ones, and
    is idempotent. *)
Theorem reset_daily_carries_positions (st : PositionManager.t) :
  dom (positions_ (reset_daily st)) = dom (positions_ st) /\
  (forall instrument,
     let before := get_position st instrument in
     let after := get_position (reset_daily st) instrument in
     Position.quantity after = Position.quantity before /\
     Position.entry_price after = Position.entry_price before /\
     Position.realized_pnl after = 0 /\
     Position.num_fills_today after = 0%Z /\
     Position.total_commission after = 0) /\
  get_total_realized_pnl (reset_daily st) = 0 /\
  total_fills_today_ (reset_daily st) = 0%Z /\
  reset_daily (reset_daily st) = reset_daily st.
Proof.
  split; [|split; [|split; [|split]]].
  - unfold reset_daily. cbn [positions_]. apply dom_fmap_L.
  - intros instrument. cbv zeta. unfold get_position, reset_daily. cbn [positions_].
    rewrite lookup_fmap. destruct (positions_ st !! instrument); repeat split.
  - reflexivity.
  - reflexivity.
  - unfold reset_daily. cbn [positions_]. f_equal.
    rewrite <- map_fmap_compose. apply map_fmap_ext. intros i pos _. reflexivity.
Qed.

(** X5. [get_total_exposure] is never negative, whatever the signs of the
    quantities and prices, and it is zero when no stored position of at least
    [1e-8] units has a price in the map (in particular with an empty price
    map). *)
Theorem total_exposure_nonnegative (st : PositionManager.t) (prices : gmap string double) :
  0 <= get_total_exposure st prices /\
  ((forall instrument pos,
      positions_ st !! instrument = Some pos ->
      prices !! instrument = None \/ Qabs (Position.quantity pos) < EPS) ->
   get_total_exposure st prices = 0).
Proof.
  unfold get_total_exposure. split.
  - apply (map_fold_weak_ind (fun r _ => 0 <= r)); [lra|].
    intros i pos m r _ IH. destruct (Qltb _ _); [exact IH|].
    destruct (prices !! i) as [price|]; [|exact IH].
    unfold std_abs. pose proof (Qabs_nonneg (Position.quantity pos * price)). lra.
  - apply (map_fold_weak_ind
             (fun r m => (forall i pos, m !! i = Some pos ->
                            prices !! i = None \/ Qabs (Position.quantity pos) < EPS) ->
                         r = 0)); [reflexivity|].
    intros i pos m r Hfresh IH Hall.
    assert (Hr : r = 0).
    { apply IH. intros j pos' Hj. apply (Hall j pos').
      rewrite lookup_insert_ne; [exact Hj|]. intros ->. congruence. }
    destruct (Hall i pos (lookup_insert_eq _ _ _)) as [Hnone|Hdust].
    + rewrite Hnone. destruct (Qltb _ _); exact Hr.
    + apply Qltb_true in Hdust. unfold std_abs. rewrite Hdust. exact Hr.
Qed.

Lemma total_exposure_nonnegative_witness :
  get_total_exposure long_100 ∅ = 0.
Proof.
  destruct (total_exposure_nonnegative long_100 ∅) as [_ Hzero].
  apply Hzero. intros instrument pos _. left. apply lookup_empty.
Defined.

Lemma stats_foldr (prices : gmap string double) (s0 : Stats) (l : list (string * Position.t)) :
  let r := foldr (uncurry (stats_add prices)) s0 l in
  total_realized_pnl r = total_realized_pnl s0 /\
  total_fills_today r = total_fills_today s0 /\
  (num_positions s0 <= num_positions r <= num_positions s0 + Z.of_nat (length l))%Z /\
  (Forall (fun entry => EPS <= Qabs (Position.quantity (snd entry))) l ->
   num_positions r = (num_positions s0 + Z.of_nat (length l))%Z /\
   total_unrealized_pnl r =
     foldr (uncurry (fun instrument pos total_unrealized =>
              if Qltb (std_abs (Position.quantity pos)) EPS then total_unrealized
              else match prices !! instrument with
                   | Some p =>
                       total_unrealized + Position.quantity pos * (p - Position.entry_price pos)
                   | None => total_unrealized
                   end))
       (total_unrealized_pnl s0) l).
Proof.
  induction l as [|[i pos] l IH]; cbv zeta.
  - cbn [foldr length]. repeat split; try reflexivity; lia.
  - cbv zeta in IH. destruct IH as (Hr & Hf & Hn & Hall).
    cbn [foldr length]. set (r := foldr (uncurry (stats_add prices)) s0 l) in *.
    cbn [uncurry]. unfold stats_add.
    cbn [total_realized_pnl total_fills_today num_positions total_unrealized_pnl].
    split; [exact Hr|]. split; [exact Hf|]. split.
    + destruct (negb _); lia.
    + intros Hbig. apply Forall_cons_1 in Hbig as [Hpos Hbig]. cbn [snd] in Hpos.
      destruct (Hall Hbig) as [Hn' Hu].
      assert (Hnd : Qltb (std_abs (Position.quantity pos)) EPS = false)
        by (apply Qltb_false; exact Hpos).
      rewrite Hnd. cbn [negb]. split; [lia|]. rewrite Hu. reflexivity.
Qed.

(** X6. [get_stats] reports the manager's realized PnL and fill counter
    unchanged and counts at most one open position per stored instrument.
    When every stored position holds at least [1e-8] units, it counts all of
    them and its unrealized PnL is the value of [get_total_unrealized_pnl]
    (the loop of [get_stats] does not skip smaller positions, the other
    does). *)
Theorem get_stats_consistent (st : PositionManager.t) (prices : gmap string double) :
  total_realized_pnl (get_stats st prices) = get_total_realized_pnl st /\
  total_fills_today (get_stats st prices) = total_fills_today_ st /\
  (0 <= num_positions (get_stats st prices) <= Z.of_nat (size (positions_ st)))%Z /\
  (map_Forall (fun _ pos => EPS <= Qabs (Position.quantity pos)) (positions_ st) ->
   num_positions (get_stats st prices) = Z.of_nat (size (positions_ st)) /\
   total_unrealized_pnl (get_stats st prices) = get_total_unrealized_pnl st prices).
Proof.
  unfold get_stats, get_total_unrealized_pnl, get_total_realized_pnl.
  rewrite !map_fold_foldr, <- length_map_to_list.
  match goal with
  | |- context [foldr (uncurry (stats_add prices)) ?s0 ?l] =>
      destruct (stats_foldr prices s0 l) as (Hr & Hf & Hn & Hall)
  end.
  cbn [total_realized_pnl total_fills_today num_positions total_unrealized_pnl] in *.
  split; [exact Hr|]. split; [exact Hf|]. split; [lia|].
  intros Hbig. apply map_Forall_to_list in Hbig.
  destruct Hall as [Hn' Hu].
  - eapply Forall_impl; [exact Hbig|]. intros [i pos] H. exact H.
  - split; [lia|exact Hu].
Qed.

Lemma get_stats_consistent_witness :
  num_positions (get_stats long_100 ∅) = 1%Z /\
  total_unrealized_pnl (get_stats long_100 {["EUR/USD" := 111 # 100]})
  = get_total_unrealized_pnl long_100 {["EUR/USD" := 111 # 100]}.
Proof.
  assert (Hbig : map_Forall (fun _ pos => EPS <= Qabs (Position.quantity pos))
                   (positions_ long_100)).
  { intros i pos Hlook. change (positions_ long_100) with
      (<["EUR/USD" := new_position buy_100]> (∅ : gmap string Position.t)) in Hlook.
    apply lookup_insert_Some in Hlook as [[_ <-]|[_ Hempty]]; [discriminate|].
    rewrite lookup_empty in Hempty. discriminate. }
  split.
  - destruct (get_stats_consistent long_100 ∅) as (_ & _ & _ & Hall).
    destruct (Hall Hbig) as [Hn _]. rewrite Hn. reflexivity.
  - destruct (get_stats_consistent long_100 {["EUR/USD" := 111 # 100]}) as (_ & _ & _ & Hall).
    destruct (Hall Hbig) as [_ Hu]. exact Hu.
Defined.

End PositionManagerMore.

(** ** Risk manager *)

Section RiskManagerMore.
Import RiskManager.

(** Close a branch of [check_order] that refuses, against an approval. *)
Ltac refused := unfold reject; cbn [fst snd RiskCheckResult.allowed]; discriminate.

(** Everything an approval of [check_order] establishes. *)
Lemma check_order_approved (st : RiskManager.t) (pm : PositionManager.t)
  (order : OrderRequest.t) (current_price : double) (now_check now_push : Z) :
  let st' := fst (check_order st pm order current_price now_check now_push) in
  let result := snd (check_order st pm order current_price now_check now_push) in
  let limits := limits_ st in
  let order_price :=
    if bool_decide (OrderRequest.type order = MARKET) then current_price
    else OrderRequest.price order in
  let order_value := calculate_order_value order order_price in
  let current_qty :=
    if position_mgr_ st then PositionManager.get_quantity pm (OrderRequest.instrument order)
    else 0 in
  let signed_order_qty := side_sign (OrderRequest.side order) * OrderRequest.quantity order in
  let exposure :=
    if position_mgr_ st then PositionManager.get_total_exposure pm (market_prices_ st) else 0 in
  RiskCheckResult.allowed result = true ->
  halt_active_ st = false /\
  0 < OrderRequest.quantity order /\
  (OrderRequest.type order = LIMIT -> 0 < OrderRequest.price order) /\
  OrderRequest.quantity order <= RiskLimits.max_order_size limits /\
  (orders_submitted_today_ st < RiskLimits.max_orders_per_day limits)%Z /\
  Qabs (current_qty + signed_order_qty) <= RiskLimits.max_position_size limits /\
  exposure + total_reserved (reserved_by_order_ st) + Qabs (signed_order_qty * order_price)
  <= RiskLimits.max_total_exposure limits /\
  - RiskLimits.max_daily_loss limits <= daily_pnl_ st /\
  RiskLimits.bankroll limits * RiskLimits.min_free_capital_pct limits
  <= RiskLimits.bankroll limits
     - (exposure + total_reserved (reserved_by_order_ st) + order_value) /\
  result = RiskCheckResult.mk true "OK" order_value (exposure + order_value)
             (Qabs (current_qty + signed_order_qty)) /\
  orders_submitted_today_ st' = (orders_submitted_today_ st + 1)%Z /\
  orders_rejected_today_ st' = orders_rejected_today_ st /\
  halt_active_ st' = false.
Proof.
  cbv zeta. unfold check_order, check_rate_limit.
  destruct (halt_active_ st) eqn:Hhalt; [refused|].
  destruct (Qleb (OrderRequest.quantity order) 0) eqn:Hqty; [refused|].
  destruct (bool_decide (OrderRequest.type order = LIMIT)
            && Qleb (OrderRequest.price order) 0) eqn:Hprice; [refused|].
  destruct (Qltb (RiskLimits.max_order_size (limits_ st)) (OrderRequest.quantity order))
    eqn:Hsize; [refused|].
  cbn [limits_ set_recent_order_timestamps].
  destruct (Z.of_nat _ <? _)%Z eqn:Hrate; cbn [negb]; [|refused].
  unfold check_position_size_limit, check_exposure_limit, check_daily_loss_limit,
    set_recent_order_timestamps.
  cbn [limits_ orders_submitted_today_ position_mgr_ reserved_by_order_ market_prices_
       daily_pnl_ recent_order_timestamps_].
  destruct (RiskLimits.max_orders_per_day (limits_ st) <=? orders_submitted_today_ st)%Z
    eqn:Hday; [refused|].
  destruct (Qleb (std_abs _) (RiskLimits.max_position_size (limits_ st))) eqn:Hposition;
    cbn [negb]; [|refused].
  destruct (Qleb _ (RiskLimits.max_total_exposure (limits_ st))) eqn:Hexposure;
    cbn [negb]; [|refused].
  destruct (Qleb (- RiskLimits.max_daily_loss (limits_ st)) (daily_pnl_ st)) eqn:Hloss;
    cbn [negb]; [|refused].
  cbv zeta.
  match goal with
  | |- context [if Qltb ?a ?b then _ else _] => destruct (Qltb a b) eqn:Hfree; [refused|]
  end.
  intros _. cbn [fst snd].
  apply Qleb_false in Hqty. apply Qltb_false in Hsize. apply Z.leb_gt in Hday.
  apply Qleb_true in Hposition. apply Qleb_true in Hexposure. apply Qleb_true in Hloss.
  apply Qltb_false in Hfree. unfold std_abs in *.
  split; [reflexivity|]. split; [exact Hqty|]. split.
  { intros Htype. rewrite Htype, bool_decide_eq_true_2 in Hprice by reflexivity.
    cbn [andb] in Hprice. now apply Qleb_false in Hprice. }
  split; [exact Hsize|]. split; [exact Hday|]. split; [exact Hposition|].
  split; [exact Hexposure|]. split; [exact Hloss|]. split; [exact Hfree|].
  repeat split.
  unfold set_orders_submitted_today, set_reserved_by_order. cbn [halt_active_]. exact Hhalt.
Qed.

(** X7. An approval is sound: [check_order] answers [allowed = true] only
    when trading is not halted, the quantity is positive (and the price of a
    Limit order too), the order size, the daily order count, the projected
    position, the projected exposure including all reservations, the daily
    loss and the free capital are all within their limits.  The result then
    carries reason ["OK"], the order value as reserved capital and the
    projected position size. *)
Theorem check_order_approval_sound (st : RiskManager.t) (pm : PositionManager.t)
  (order : OrderRequest.t) (current_price : double) (now_check now_push : Z) :
  let result := snd (check_order st pm order current_price now_check now_push) in
  let limits := limits_ st in
  let order_price :=
    if bool_decide (OrderRequest.type order = MARKET) then current_price
    else OrderRequest.price order in
  let order_value := calculate_order_value order order_price in
  let current_qty :=
    if position_mgr_ st then PositionManager.get_quantity pm (OrderRequest.instrument order)
    else 0 in
  let signed_order_qty := side_sign (OrderRequest.side order) * OrderRequest.quantity order in
  let exposure :=
    if position_mgr_ st then PositionManager.get_total_exposure pm (market_prices_ st) else 0 in
  RiskCheckResult.allowed result = true ->
  halt_active_ st = false /\
  0 < OrderRequest.quantity order /\
  (OrderRequest.type order = LIMIT -> 0 < OrderRequest.price order) /\
  OrderRequest.quantity order <= RiskLimits.max_order_size limits /\
  (orders_submitted_today_ st < RiskLimits.max_orders_per_day limits)%Z /\
  Qabs (current_qty + signed_order_qty) <= RiskLimits.max_position_size limits /\
  exposure + total_reserved (reserved_by_order_ st) + Qabs (signed_order_qty * order_price)
  <= RiskLimits.max_total_exposure limits /\
  - RiskLimits.max_daily_loss limits <= daily_pnl_ st /\
  RiskLimits.bankroll limits * RiskLimits.min_free_capital_pct limits
  <= RiskLimits.bankroll limits
     - (exposure + total_reserved (reserved_by_order_ st) + order_value) /\
  result = RiskCheckResult.mk true "OK" order_value (exposure + order_value)
             (Qabs (current_qty + signed_order_qty)).
Proof.
  cbv zeta. intros Hallowed.
  pose proof (check_order_approved st pm order current_price now_check now_push) as H.
  cbv zeta in H. destruct (H Hallowed) as (H1 & H2 & H3 & H4 & H5 & H6 & H7 & H8 & H9 & H10 & _).
  repeat (split; [assumption|]). assumption.
Qed.

Lemma check_order_approval_sound_witness :
  RiskCheckResult.reserved_capital
    (snd (check_order (wired scenario_limits) PositionManager.init
            (test_order "O1" BUY 100 0 MARKET) (11 # 10) 1000 1001)) == 110 /\
  RiskCheckResult.reason
    (snd (check_order (wired scenario_limits) PositionManager.init
            (test_order "O1" BUY 100 0 MARKET) (11 # 10) 1000 1001)) = "OK".
Proof.
  destruct (check_order_approval_sound (wired scenario_limits) PositionManager.init
              (test_order "O1" BUY 100 0 MARKET) (11 # 10) 1000%Z 1001%Z)
    as (_ & _ & _ & _ & _ & _ & _ & _ & _ & Hresult).
  - vm_compute. reflexivity.
  - rewrite Hresult. split; reflexivity.
Defined.

(** What a refusal of [check_order] leaves behind. *)
Lemma check_order_refused (st : RiskManager.t) (pm : PositionManager.t)
  (order : OrderRequest.t) (current_price : double) (now_check now_push : Z) :
  let st' := fst (check_order st pm order current_price now_check now_push) in
  let result := snd (check_order st pm order current_price now_check now_push) in
  RiskCheckResult.allowed result = false ->
  orders_rejected_today_ st' = (orders_rejected_today_ st + 1)%Z /\
  orders_submitted_today_ st' = orders_submitted_today_ st /\
  reserved_by_order_ st' = reserved_by_order_ st /\
  RiskCheckResult.reserved_capital result = 0.
Proof.
  cbv zeta. unfold check_order, check_rate_limit.
  repeat match goal with
         | |- context [if ?b then _ else _] => destruct b
         end;
    unfold reject; cbn [fst snd RiskCheckResult.allowed];
    first [discriminate | intros _; repeat split].
Qed.

(** The fields [check_order] never writes. *)
Lemma check_order_frame (st : RiskManager.t) (pm : PositionManager.t)
  (order : OrderRequest.t) (current_price : double) (now_check now_push : Z) :
  let st' := fst (check_order st pm order current_price now_check now_push) in
  limits_ st' = limits_ st /\
  position_mgr_ st' = position_mgr_ st /\
  daily_pnl_ st' = daily_pnl_ st /\
  daily_high_pnl_ st' = daily_high_pnl_ st /\
  orders_filled_today_ st' = orders_filled_today_ st /\
  orders_cancelled_today_ st' = orders_cancelled_today_ st /\
  market_prices_ st' = market_prices_ st.
Proof.
  cbv zeta. unfold check_order, check_rate_limit.
  repeat match goal with
         | |- context [if ?b then _ else _] => destruct b
         end; repeat split.
Qed.

(** X8. Every call of [check_order] is counted exactly once: a refusal
    adds one to [orders_rejected_today_], leaves [orders_submitted_today_] and
    the reservations alone and reports no reserved capital; an approval adds
    one to [orders_submitted_today_], leaves [orders_rejected_today_] alone
    and reports a reserved capital that is not negative.  Neither touches the
    limits, the PnL snapshots, the fill and cancel counters or the price
    snapshot. *)
Theorem check_order_counts_once (st : RiskManager.t) (pm : PositionManager.t)
  (order : OrderRequest.t) (current_price : double) (now_check now_push : Z) :
  let st' := fst (check_order st pm order current_price now_check now_push) in
  let result := snd (check_order st pm order current_price now_check now_push) in
  (RiskCheckResult.allowed result = false ->
     orders_rejected_today_ st' = (orders_rejected_today_ st + 1)%Z /\
     orders_submitted_today_ st' = orders_submitted_today_ st /\
     reserved_by_order_ st' = reserved_by_order_ st /\
     RiskCheckResult.reserved_capital result = 0) /\
  (RiskCheckResult.allowed result = true ->
     orders_submitted_today_ st' = (orders_submitted_today_ st + 1)%Z /\
     orders_rejected_today_ st' = orders_rejected_today_ st /\
     0 <= RiskCheckResult.reserved_capital result) /\
  limits_ st' = limits_ st /\
  daily_pnl_ st' = daily_pnl_ st /\
  daily_high_pnl_ st' = daily_high_pnl_ st /\
  orders_filled_today_ st' = orders_filled_today_ st /\
  orders_cancelled_today_ st' = orders_cancelled_today_ st /\
  market_prices_ st' = market_prices_ st.
Proof.
  cbv zeta. split; [|split].
  - apply check_order_refused.
  - intros Hallowed.
    pose proof (check_order_approved st pm order current_price now_check now_push) as H.
    cbv zeta in H.
    destruct (H Hallowed) as (_ & _ & _ & _ & _ & _ & _ & _ & _ & Hres & Hsub & Hrej & _).
    split; [exact Hsub|]. split; [exact Hrej|].
    rewrite Hres. cbn [RiskCheckResult.reserved_capital]. unfold calculate_order_value, std_abs.
    apply Qabs_nonneg.
  - destruct (check_order_frame st pm order current_price now_check now_push)
      as (H1 & _ & H3 & H4 & H5 & H6 & H7).
    repeat (split; [assumption|]). assumption.
Qed.

Lemma check_order_counts_once_witness :
  orders_rejected_today_
    (fst (check_order (wired scenario_limits) PositionManager.init zero_qty_order 1 1000 1001))
  = 1%Z /\
  orders_submitted_today_
    (fst (check_order (wired scenario_limits) PositionManager.init
            (test_order "O1" BUY 100 0 MARKET) 1 1000 1001))
  = 1%Z.
Proof.
  split.
  - destruct (check_order_counts_once (wired scenario_limits) PositionManager.init
                zero_qty_order 1 1000%Z 1001%Z) as (Hrefused & _).
    destruct Hrefused as (Hrej & _); [vm_compute; reflexivity|]. rewrite Hrej. reflexivity.
  - destruct (check_order_counts_once (wired scenario_limits) PositionManager.init
                (test_order "O1" BUY 100 0 MARKET) 1 1000%Z 1001%Z) as (_ & Happroved & _).
    destruct Happroved as (Hsub & _); [vm_compute; reflexivity|]. rewrite Hsub. reflexivity.
Defined.



Lemma total_reserved_nonneg (m : gmap string double) :
  map_Forall (fun _ v => 0 <= v) m -> 0 <= total_reserved m.
Proof.
  unfold total_reserved.
  apply (map_fold_weak_ind (fun r m => map_Forall (fun _ v => 0 <= v) m -> 0 <= r)); [lra|].
  intros i v m' r Hfresh IH Hall.
  apply map_Forall_insert in Hall as [Hv Hall]; [|exact Hfresh].
  specialize (IH Hall). lra.
Qed.




Lemma reservations_nonnegative_step (st : RiskManager.t) (pm : PositionManager.t) (op : rm_op) :
  map_Forall (fun _ reserved => 0 <= reserved) (reserved_by_order_ st) ->
  map_Forall (fun _ reserved => 0 <= reserved) (reserved_by_order_ (rm_step st pm op)).
Proof.
  intros Hall. destruct op; cbn [rm_step].
  - pose proof (check_order_reserved st pm order current_price now_check now_push) as Hmap.
    cbv zeta in Hmap. rewrite Hmap.
    destruct (RiskCheckResult.allowed _) eqn:Hallowed; [|exact Hall].
    apply map_Forall_insert_2; [|exact Hall].
    pose proof (check_order_approved st pm order current_price now_check now_push) as H.
    cbv zeta in H.
    destruct (H Hallowed) as (_ & _ & _ & _ & _ & _ & _ & _ & _ & Hres & _).
    rewrite Hres. cbn [RiskCheckResult.reserved_capital].
    unfold calculate_order_value, std_abs. apply Qabs_nonneg.
  - rewrite on_fill_reserved. now apply map_Forall_delete.
  - unfold on_order_rejected. rewrite release_reservation_reserved. now apply map_Forall_delete.
  - unfold on_order_cancelled. rewrite release_reservation_reserved. now apply map_Forall_delete.
  - unfold update_market_prices. destruct (position_mgr_ _); exact Hall.
  - exact Hall.
  - cbn [reset_daily reserved_by_order_]. apply map_Forall_empty.
Qed.

(** X10. In every state reached from the constructor, every reservation is
    the absolute value of an order value: no reserved amount is negative, and
    so their total is not negative either. *)
Theorem reservations_nonnegative (limits : RiskLimits.t)
  (trace : list (PositionManager.t * rm_op)) :
  map_Forall (fun _ reserved => 0 <= reserved) (reserved_by_order_ (rm_run trace (init limits))) /\
  0 <= total_reserved (reserved_by_order_ (rm_run trace (init limits))).
Proof.
  assert (Hall : map_Forall (fun _ reserved => 0 <= reserved)
                   (reserved_by_order_ (rm_run trace (init limits)))).
  { unfold rm_run.
    assert (Hinit : map_Forall (fun (_ : string) (reserved : double) => 0 <= reserved)
                      (reserved_by_order_ (init limits))) by apply map_Forall_empty.
    revert Hinit. generalize (init limits) as st.
    induction trace as [|[pm op] trace IH]; intros st Hinv; cbn [fold_left].
    - exact Hinv.
    - apply IH. now apply reservations_nonnegative_step. }
  split; [exact Hall|]. now apply total_reserved_nonneg.
Qed.

Lemma check_order_halted (st : RiskManager.t) (pm : PositionManager.t)
  (order : OrderRequest.t) (current_price : double) (now_check now_push : Z) :
  halt_active_ st = true ->
  check_order st pm order current_price now_check now_push
  = (set_orders_rejected_today st (orders_rejected_today_ st + 1)%Z,
     RiskCheckResult.mk false (String.append "Trading halted: " (halt_reason_ st)) 0 0 0).
Proof. intros Hhalt. unfold check_order. rewrite Hhalt. reflexivity. Qed.

Lemma rm_step_reserved_halted (st : RiskManager.t) (pm : PositionManager.t) (op : rm_op) :
  is_reset op = false ->
  halt_active_ st = true ->
  dom (reserved_by_order_ (rm_step st pm op)) ⊆ dom (reserved_by_order_ st).
Proof.
  intros Hop Hhalt. destruct op; cbn [rm_step]; try discriminate.
  - rewrite check_order_halted by exact Hhalt. reflexivity.
  - rewrite on_fill_reserved, dom_delete_L. apply subseteq_difference_l. reflexivity.
  - unfold on_order_rejected. rewrite release_reservation_reserved, dom_delete_L.
    cbn [set_orders_rejected_today reserved_by_order_]. apply subseteq_difference_l. reflexivity.
  - unfold on_order_cancelled. rewrite release_reservation_reserved, dom_delete_L.
    cbn [set_orders_cancelled_today reserved_by_order_]. apply subseteq_difference_l. reflexivity.
  - unfold update_market_prices. destruct (position_mgr_ _); reflexivity.
  - reflexivity.
Qed.

(** X11. While trading is halted, [check_order] refuses every order, valid
    or not, with the reason ["Trading halted: "] followed by the stored halt
    reason, and only counts the rejection.  Hence along any run without
    [reset_daily] that starts halted no order is approved and no reservation
    is added. *)
Theorem halted_refuses_every_order :
  (forall (st : RiskManager.t) (pm : PositionManager.t) (order : OrderRequest.t)
          (current_price : double) (now_check now_push : Z),
     halt_active_ st = true ->
     check_order st pm order current_price now_check now_push
     = (set_orders_rejected_today st (orders_rejected_today_ st + 1)%Z,
        RiskCheckResult.mk false (String.append "Trading halted: " (halt_reason_ st)) 0 0 0)) /\
  (forall (trace : list (PositionManager.t * rm_op)) (st : RiskManager.t),
     Forall (fun call => is_reset (snd call) = false) trace ->
     halt_active_ st = true ->
     approvals trace st = [] /\
     dom (reserved_by_order_ (rm_run trace st)) ⊆ dom (reserved_by_order_ st)).
Proof.
  split; [exact check_order_halted|].
  induction trace as [|[pm op] trace IH]; intros st Hops Hhalt.
  - split; reflexivity.
  - apply Forall_cons_1 in Hops as [Hop Hops]. cbn [snd] in Hop.
    destruct (rm_step_halt st pm op Hop Hhalt) as [Hhalt' _].
    destruct (IH (rm_step st pm op) Hops Hhalt') as [Happ Hdom].
    cbn [approvals rm_run fold_left]. split.
    + rewrite Happ, app_nil_r. destruct op; try reflexivity.
      rewrite check_order_halted by exact Hhalt. reflexivity.
    + etransitivity; [exact Hdom|]. now apply rm_step_reserved_halted.
Qed.

Lemma halted_refuses_every_order_witness :
  RiskCheckResult.allowed
    (snd (check_order rm_halted pm_loss (test_order "O4" BUY 10 0 MARKET) 1 2000 2001)) = false /\
  approvals [(pm_loss, RmCheckOrder (test_order "O4" BUY 10 0 MARKET) 1 2000 2001);
             (pm_loss, RmOnFill (test_fill "F3" "O9" BUY 1 1));
             (pm_loss, RmCheckOrder (test_order "O5" SELL 10 0 MARKET) 1 3000 3001)] rm_halted
  = [].
Proof.
  destruct halted_refuses_every_order as [Hcall Hrun]. split.
  - rewrite Hcall by reflexivity. reflexivity.
  - apply Hrun; [repeat constructor|reflexivity].
Defined.

(** X12. [check_order] raises the halt only through the daily-loss gate: if
    trading was not halted before the call and is halted after it, then
    [daily_pnl_] is below [-max_daily_loss], the order is refused, and the
    stored halt reason is the reason returned, which reads
    ["Daily loss limit exceeded: <daily_pnl>, limit=<-max_daily_loss>"]; the
    negated limit is printed with its sign, so a limit of zero reads
    ["limit=-0.000000"]. *)
Theorem check_order_halts_only_on_daily_loss (st : RiskManager.t) (pm : PositionManager.t)
  (order : OrderRequest.t) (current_price : double) (now_check now_push : Z) :
  let st' := fst (check_order st pm order current_price now_check now_push) in
  let result := snd (check_order st pm order current_price now_check now_push) in
  halt_active_ st = false ->
  halt_active_ st' = true ->
  daily_pnl_ st < - RiskLimits.max_daily_loss (limits_ st) /\
  RiskCheckResult.allowed result = false /\
  halt_reason_ st' = RiskCheckResult.reason result /\
  RiskCheckResult.reason result
  = String.append "Daily loss limit exceeded: "
      (String.append (to_string_double (daily_pnl_ st))
         (String.append ", limit="
            (to_string_signed true (- RiskLimits.max_daily_loss (limits_ st))))).
Proof.
  cbv zeta. intros Hhalt. unfold check_order, check_rate_limit. rewrite Hhalt.
  unfold check_daily_loss_limit, set_recent_order_timestamps.
  cbn [limits_ daily_pnl_].
  destruct (Qleb (- RiskLimits.max_daily_loss (limits_ st)) (daily_pnl_ st)) eqn:Hloss;
    cbn [negb].
  - repeat match goal with
           | |- context [if ?b then _ else _] => destruct b
           end;
      unfold reject, set_orders_rejected_today, set_reserved_by_order,
        set_orders_submitted_today, set_recent_order_timestamps;
      cbn [fst halt_active_]; intros Hnow; congruence.
  - apply Qleb_false in Hloss.
    repeat match goal with
           | |- context [if ?b then _ else _] => destruct b
           end;
      unfold reject, set_orders_rejected_today, set_reserved_by_order,
        set_orders_submitted_today, set_recent_order_timestamps, set_halt;
      cbn [fst snd halt_active_ halt_reason_ RiskCheckResult.allowed RiskCheckResult.reason];
      intros Hnow; first [congruence | repeat split; exact Hloss].
Qed.

Lemma check_order_halts_only_on_daily_loss_witness :
  daily_pnl_ rm_marked < - RiskLimits.max_daily_loss (limits_ rm_marked) /\
  halt_reason_ rm_halted = "Daily loss limit exceeded: -150.000000, limit=-100.000000".
Proof.
  destruct (check_order_halts_only_on_daily_loss rm_marked pm_loss
              (test_order "O3" BUY 10 0 MARKET) 1 1000%Z 1001%Z) as (Hloss & _ & Hreason & Htext).
  - reflexivity.
  - reflexivity.
  - split; [exact Hloss|]. unfold rm_halted. rewrite Hreason, Htext. reflexivity.
Defined.

(** X13. After [on_fill] the daily high is never below the daily PnL, the
    fill is counted, and trading is halted exactly when it was halted before
    or the drawdown from the updated high exceeds [max_drawdown_from_high].
    The PnL snapshot is refreshed from the position manager when one is
    wired and kept otherwise. *)
Theorem on_fill_drawdown_halt (st : RiskManager.t) (pm : PositionManager.t) (fill : Fill.t) :
  let st' := on_fill st pm fill in
  daily_pnl_ st' <= daily_high_pnl_ st' /\
  daily_pnl_ st'
  = (if position_mgr_ st
     then PositionManager.get_total_realized_pnl pm
          + PositionManager.get_total_unrealized_pnl pm (market_prices_ st)
     else daily_pnl_ st) /\
  daily_high_pnl_ st'
  = (if Qltb (daily_high_pnl_ st) (daily_pnl_ st') then daily_pnl_ st' else daily_high_pnl_ st) /\
  (halt_active_ st' = true <->
   halt_active_ st = true \/
   RiskLimits.max_drawdown_from_high (limits_ st) < daily_high_pnl_ st' - daily_pnl_ st') /\
  orders_filled_today_ st' = (orders_filled_today_ st + 1)%Z.
Proof.
  cbv zeta. unfold on_fill.
  set (st1 := release_reservation _ _).
  assert (H1 : limits_ st1 = limits_ st /\ position_mgr_ st1 = position_mgr_ st /\
               daily_pnl_ st1 = daily_pnl_ st /\ daily_high_pnl_ st1 = daily_high_pnl_ st /\
               market_prices_ st1 = market_prices_ st /\ halt_active_ st1 = halt_active_ st /\
               orders_filled_today_ st1 = (orders_filled_today_ st + 1)%Z).
  { subst st1. unfold release_reservation. destruct (_ !! _); repeat split. }
  destruct H1 as (Hl1 & Hm1 & Hp1 & Hh1 & Hpr1 & Ha1 & Hf1). clearbody st1.
  set (st2 := update_pnl st1 pm fill).
  assert (H2 : limits_ st2 = limits_ st /\
               daily_pnl_ st2
               = (if position_mgr_ st
                  then PositionManager.get_total_realized_pnl pm
                       + PositionManager.get_total_unrealized_pnl pm (market_prices_ st)
                  else daily_pnl_ st) /\
               daily_high_pnl_ st2 = daily_high_pnl_ st /\ halt_active_ st2 = halt_active_ st /\
               orders_filled_today_ st2 = (orders_filled_today_ st + 1)%Z).
  { subst st2. unfold update_pnl. rewrite Hm1, Hpr1.
    destruct (position_mgr_ st); cbn [set_daily_pnl limits_ daily_pnl_ daily_high_pnl_
                                       halt_active_ orders_filled_today_];
      repeat split; assumption. }
  destruct H2 as (Hl2 & Hp2 & Hh2 & Ha2 & Hf2). clearbody st2. rewrite <- Hp2.
  set (st3 := if Qltb (daily_high_pnl_ st2) (daily_pnl_ st2) then _ else st2).
  assert (H3 : limits_ st3 = limits_ st /\ daily_pnl_ st3 = daily_pnl_ st2 /\
               daily_high_pnl_ st3
               = (if Qltb (daily_high_pnl_ st) (daily_pnl_ st2)
                  then daily_pnl_ st2 else daily_high_pnl_ st) /\
               halt_active_ st3 = halt_active_ st /\
               orders_filled_today_ st3 = (orders_filled_today_ st + 1)%Z).
  { subst st3. rewrite Hh2. destruct (Qltb (daily_high_pnl_ st) (daily_pnl_ st2));
      cbn [set_daily_high_pnl limits_ daily_pnl_ daily_high_pnl_ halt_active_
           orders_filled_today_]; repeat split; assumption. }
  destruct H3 as (Hl3 & Hp3 & Hh3 & Ha3 & Hf3). clearbody st3.
  assert (Hle : daily_pnl_ st3 <= daily_high_pnl_ st3).
  { rewrite Hh3, Hp3. destruct (Qltb (daily_high_pnl_ st) (daily_pnl_ st2)) eqn:E.
    - lra.
    - apply Qltb_false in E. exact E. }
  rewrite Hl3.
  destruct (Qltb (RiskLimits.max_drawdown_from_high (limits_ st))
              (daily_high_pnl_ st3 - daily_pnl_ st3)) eqn:Hdd;
    cbn [set_halt daily_pnl_ daily_high_pnl_ halt_active_ orders_filled_today_].
  - apply Qltb_true in Hdd.
    split; [exact Hle|]. split; [exact Hp3|]. split; [now rewrite <- Hp3 in Hh3|].
    split; [|exact Hf3]. split; [intros _; right; exact Hdd|reflexivity].
  - apply Qltb_false in Hdd.
    split; [exact Hle|]. split; [exact Hp3|]. split; [now rewrite <- Hp3 in Hh3|].
    split; [|exact Hf3]. rewrite Ha3. split.
    + intros Hhalt. left. exact Hhalt.
    + intros [Hhalt|Hlt]; [exact Hhalt|lra].
Qed.

Lemma rm_step_submitted (st : RiskManager.t) (pm : PositionManager.t) (op : rm_op) :
  is_reset op = false ->
  (forall order current_price now_check now_push,
     op <> RmCheckOrder order current_price now_check now_push) ->
  orders_submitted_today_ (rm_step st pm op) = orders_submitted_today_ st.
Proof.
  intros Hreset Hcheck. destruct op; cbn [rm_step]; try discriminate.
  - exfalso. eapply Hcheck. reflexivity.
  - unfold on_fill, release_reservation, update_pnl.
    repeat match goal with
           | |- context [if ?b then _ else _] => destruct b
           | |- context [match ?o with Some _ => _ | None => _ end] => destruct o
           end; reflexivity.
  - unfold on_order_rejected, release_reservation. destruct (_ !! _); reflexivity.
  - unfold on_order_cancelled, release_reservation. destruct (_ !! _); reflexivity.
  - unfold update_market_prices. destruct (position_mgr_ _); reflexivity.
  - reflexivity.
Qed.

Lemma order_caps_step (limits : RiskLimits.t) (st : RiskManager.t) (pm : PositionManager.t)
  (op : rm_op) :
  (0 <= RiskLimits.max_orders_per_minute limits < 2 ^ 64)%Z ->
  (0 <= RiskLimits.max_orders_per_day limits)%Z ->
  limits_ st = limits /\
  (Z.of_nat (length (recent_order_timestamps_ st)) <= RiskLimits.max_orders_per_minute limits)%Z /\
  (0 <= orders_submitted_today_ st <= RiskLimits.max_orders_per_day limits)%Z ->
  limits_ (rm_step st pm op) = limits /\
  (Z.of_nat (length (recent_order_timestamps_ (rm_step st pm op)))
   <= RiskLimits.max_orders_per_minute limits)%Z /\
  (0 <= orders_submitted_today_ (rm_step st pm op) <= RiskLimits.max_orders_per_day limits)%Z.
Proof.
  intros Hminute Hday (Hlim & Hlen & Hsub).
  destruct op as [order current_price now_check now_push| | | | | |].
  - cbn [rm_step].
    destruct (check_order_timestamps st pm order current_price now_check now_push)
      as [Hlim' Hts].
    pose proof (check_order_refused st pm order current_price now_check now_push) as Href.
    pose proof (check_order_approved st pm order current_price now_check now_push) as Happ.
    cbv zeta in Href, Happ.
    assert (Hkept : (length (List.filter (fun ts => negb (older_than_one_minute now_check ts))
                               (recent_order_timestamps_ st))
                     <= length (recent_order_timestamps_ st))%nat)
      by apply List.filter_length_le.
    split; [now rewrite Hlim'|].
    destruct Hts as [[Hallowed [Hsame|Hevict]]|[Hallowed [Hpush Hrate]]].
    + destruct (Href Hallowed) as (_ & Hs & _). rewrite Hsame, Hs. split; assumption.
    + destruct (Href Hallowed) as (_ & Hs & _). rewrite Hevict, Hs. split; [lia|assumption].
    + destruct (Happ Hallowed) as (_ & _ & _ & _ & Hcap & _ & _ & _ & _ & _ & Hs & _).
      rewrite Hpush, Hs, length_app. cbn [length].
      rewrite Hlim in Hrate, Hcap. unfold static_cast_size_t in Hrate.
      rewrite Z.mod_small in Hrate by exact Hminute. split; lia.
  - destruct (rm_step_timestamps st pm (RmOnFill fill)) as [Hl Ht];
      [reflexivity|discriminate|].
    rewrite Hl, Ht, rm_step_submitted by (reflexivity || discriminate). repeat split; tauto.
  - destruct (rm_step_timestamps st pm (RmOnOrderRejected order_id)) as [Hl Ht];
      [reflexivity|discriminate|].
    rewrite Hl, Ht, rm_step_submitted by (reflexivity || discriminate). repeat split; tauto.
  - destruct (rm_step_timestamps st pm (RmOnOrderCancelled order_id)) as [Hl Ht];
      [reflexivity|discriminate|].
    rewrite Hl, Ht, rm_step_submitted by (reflexivity || discriminate). repeat split; tauto.
  - destruct (rm_step_timestamps st pm (RmUpdateMarketPrices prices)) as [Hl Ht];
      [reflexivity|discriminate|].
    rewrite Hl, Ht, rm_step_submitted by (reflexivity || discriminate). repeat split; tauto.
  - destruct (rm_step_timestamps st pm (RmSetPositionManager non_null)) as [Hl Ht];
      [reflexivity|discriminate|].
    rewrite Hl, Ht, rm_step_submitted by (reflexivity || discriminate). repeat split; tauto.
  - cbn [rm_step reset_daily limits_ recent_order_timestamps_ orders_submitted_today_ length].
    split; [exact Hlim|]. lia.
Qed.

(** X14. For non-negative limits, in every state reached from the
    constructor (daily resets included, whatever the clock does) the
    rate-limit history holds at most [max_orders_per_minute] timestamps and
    [orders_submitted_today_] lies between 0 and [max_orders_per_day]. *)
Theorem order_caps_hold (limits : RiskLimits.t) (trace : list (PositionManager.t * rm_op)) :
  (0 <= RiskLimits.max_orders_per_minute limits < 2 ^ 31)%Z ->
  (0 <= RiskLimits.max_orders_per_day limits)%Z ->
  (Z.of_nat (length (recent_order_timestamps_ (rm_run trace (init limits))))
   <= RiskLimits.max_orders_per_minute limits)%Z /\
  (0 <= orders_submitted_today_ (rm_run trace (init limits))
   <= RiskLimits.max_orders_per_day limits)%Z.
Proof.
  intros Hminute Hday.
  assert (Hinv : limits_ (rm_run trace (init limits)) = limits /\
                 (Z.of_nat (length (recent_order_timestamps_ (rm_run trace (init limits))))
                  <= RiskLimits.max_orders_per_minute limits)%Z /\
                 (0 <= orders_submitted_today_ (rm_run trace (init limits))
                  <= RiskLimits.max_orders_per_day limits)%Z).
  { unfold rm_run.
    assert (Hinit : limits_ (init limits) = limits /\
                    (Z.of_nat (length (recent_order_timestamps_ (init limits)))
                     <= RiskLimits.max_orders_per_minute limits)%Z /\
                    (0 <= orders_submitted_today_ (init limits)
                     <= RiskLimits.max_orders_per_day limits)%Z)
      by (cbn [init limits_ recent_order_timestamps_ orders_submitted_today_ length];
          split; [reflexivity|lia]).
    revert Hinit. generalize (init limits) as st.
    induction trace as [|[pm op] trace IH]; intros st Hst; cbn [fold_left].
    - exact Hst.
    - apply IH. apply order_caps_step; [lia|exact Hday|exact Hst]. }
  destruct Hinv as (_ & H1 & H2). split; assumption.
Qed.

Lemma order_caps_hold_witness :
  (Z.of_nat (length (recent_order_timestamps_ (rm_run three_checks (init two_per_minute)))) <= 2)%Z.
Proof.
  destruct (order_caps_hold two_per_minute three_checks) as [Hlen _].
  - split; [discriminate|reflexivity].
  - discriminate.
  - exact Hlen.
Defined.

End RiskManagerMore.

(** ** Execution engine *)

Section ExecutionEngineMore.
Import ExecutionEngine.

Lemma publish_order_event_fields (w : world) (update : OrderUpdate.t) :
  engine (publish_order_event w update) = engine w /\
  risk_mgr (publish_order_event w update) = risk_mgr w /\
  position_mgr (publish_order_event w update) = position_mgr w /\
  trace (publish_order_event w update)
  = trace w ++ (if redis_ (engine w) && enable_redis (engine w)
                then [PublishOrder update] else []).
Proof.
  unfold publish_order_event.
  destruct (redis_ (engine w)), (enable_redis (engine w)); cbn [negb orb andb emit engine
    risk_mgr position_mgr trace]; rewrite ?app_nil_r; repeat split.
Qed.

Lemma order_callback_calls_app (cb : nat) (l1 l2 : list event) :
  order_callback_calls cb (l1 ++ l2) = order_callback_calls cb l1 ++ order_callback_calls cb l2.
Proof. unfold order_callback_calls. apply omap_app. Qed.

Lemma order_callback_calls_publish (cb : nat) (b : bool) (update : OrderUpdate.t) :
  order_callback_calls cb (if b then [PublishOrder update] else []) = [].
Proof. destruct b; reflexivity. Qed.

Lemma on_order_rejected_released (rm : RiskManager.t) (order_id : string) :
  RiskManager.reserved_by_order_ (RiskManager.on_order_rejected rm order_id) !! order_id = None.
Proof.
  unfold RiskManager.on_order_rejected. rewrite release_reservation_reserved.
  apply lookup_delete_eq.
Qed.

(** X15. Outside shutdown, [submit_order] ends in one of two ways.  Either
    the risk check approved, a registered provider was connected and answered
    with a status other than REJECTED: then that answer is returned, the order
    is tracked in [active_orders_] under the selected provider and its
    reservation is in place.  Or the order is not tracked, the answer is
    REJECTED or ERROR, and no reservation is left under its id, whichever
    step refused (risk, routing, connection, provider answer or exception). *)
Theorem submit_order_tracked_or_released (w w' : world) (order : OrderRequest.t)
  (now now_check now_push : Z) (connected : bool) (reply : provider_reply)
  (result : OrderUpdate.t) :
  submit_order w order now now_check now_push connected reply = Some (w', result) ->
  shutdown_requested_ (engine w) = false ->
  (exists update,
     reply = Returns update /\
     OrderUpdate.status update <> REJECTED /\
     result = update /\
     connected = true /\
     active_orders_ (engine w')
     = <[OrderRequest.order_id order :=
           OrderState.mk order update (select_provider_for_order (engine w) order)
             (OrderUpdate.timestamp_ns update) (OrderUpdate.timestamp_ns update)]>
         (active_orders_ (engine w)) /\
     is_Some (RiskManager.reserved_by_order_ (risk_mgr w') !! OrderRequest.order_id order)) \/
  (active_orders_ (engine w') = active_orders_ (engine w) /\
   RiskManager.reserved_by_order_ (risk_mgr w') !! OrderRequest.order_id order = None /\
   (OrderUpdate.status result = REJECTED \/ OrderUpdate.status result = ERROR)).
Proof.
  intros Hsubmit Hshutdown. unfold submit_order in Hsubmit. rewrite Hshutdown in Hsubmit.
  set (price := if Qeqb _ 0 then 1 else _) in Hsubmit.
  pose proof (check_order_reserved (risk_mgr w) (position_mgr w) order price now_check now_push)
    as Hres. cbv zeta in Hres.
  destruct (RiskManager.check_order (risk_mgr w) (position_mgr w) order price now_check now_push)
    as [rm risk_result] eqn:Hcheck.
  cbn [fst snd] in Hres.
  destruct (RiskCheckResult.allowed risk_result) eqn:Hallowed; cbn [negb] in Hsubmit.
  - destruct (if String.eqb (select_provider_for_order (engine (set_risk_mgr w rm)) order) ""
              then None
              else providers_ (engine (set_risk_mgr w rm))
                     !! select_provider_for_order (engine (set_risk_mgr w rm)) order)
      as [[|]|] eqn:Hprovider; [|discriminate|].
    + destruct connected; cbn [negb] in Hsubmit.
      * destruct reply as [update|what].
        -- destruct (bool_decide (OrderUpdate.status update = REJECTED)) eqn:Hrej;
             cbn [negb] in Hsubmit; injection Hsubmit as <- <-.
           ++ right. apply bool_decide_eq_true in Hrej.
              match goal with
              | |- context [publish_order_event ?w0 update] =>
                  destruct (publish_order_event_fields w0 update) as (He & Hr & _)
              end.
              unfold notify_order_callbacks. cbn [emit engine risk_mgr]. rewrite He, Hr.
              cbn [set_risk_mgr set_engine engine risk_mgr set_stats active_orders_].
              split; [reflexivity|]. split; [apply on_order_rejected_released|]. now left.
           ++ left. apply bool_decide_eq_false in Hrej. exists update.
              split; [reflexivity|]. split; [exact Hrej|]. split; [reflexivity|].
              split; [reflexivity|].
              match goal with
              | |- context [publish_order_event ?w0 update] =>
                  destruct (publish_order_event_fields w0 update) as (He & Hr & _)
              end.
              unfold notify_order_callbacks. cbn [emit engine risk_mgr]. rewrite He, Hr.
              cbn [set_risk_mgr set_engine engine risk_mgr set_stats set_active_orders
                   active_orders_].
              split; [reflexivity|]. rewrite Hres. rewrite lookup_insert_eq. eauto.
        -- injection Hsubmit as <- <-. right.
           match goal with
           | |- context [publish_order_event ?w0 ?u] =>
               destruct (publish_order_event_fields w0 u) as (He & Hr & _)
           end.
           unfold notify_order_callbacks. cbn [emit engine risk_mgr]. rewrite He, Hr.
           cbn [set_risk_mgr set_engine engine risk_mgr set_stats active_orders_
                OrderUpdate.status].
           split; [reflexivity|]. split; [apply on_order_rejected_released|]. now right.
      * injection Hsubmit as <- <-. right.
        match goal with
        | |- context [publish_order_event ?w0 ?u] =>
            destruct (publish_order_event_fields w0 u) as (He & Hr & _)
        end.
        rewrite He, Hr.
        cbn [set_risk_mgr set_engine engine risk_mgr set_stats active_orders_ OrderUpdate.status].
        split; [reflexivity|]. split; [apply on_order_rejected_released|]. now left.
    + injection Hsubmit as <- <-. right.
      match goal with
      | |- context [publish_order_event ?w0 ?u] =>
          destruct (publish_order_event_fields w0 u) as (He & Hr & _)
      end.
      rewrite He, Hr.
      cbn [set_risk_mgr set_engine engine risk_mgr set_stats active_orders_ OrderUpdate.status].
      split; [reflexivity|]. split; [apply on_order_rejected_released|]. now left.
  - injection Hsubmit as <- <-. right.
    match goal with
    | |- context [publish_order_event ?w0 ?u] =>
        destruct (publish_order_event_fields w0 u) as (He & Hr & _)
    end.
    rewrite He, Hr.
    cbn [set_risk_mgr set_engine engine risk_mgr set_stats active_orders_ OrderUpdate.status].
    split; [reflexivity|]. split; [apply on_order_rejected_released|]. now left.
Qed.

Lemma submit_order_tracked_or_released_witness :
  submit_order world0 order_300 10 11 12 true (Returns ack_300) = Some (world_submitted, ack_300) /\
  active_orders_ (engine world_submitted) !! "O1"
  = Some (OrderState.mk order_300 ack_300 "mock" 10 10) /\
  is_Some (RiskManager.reserved_by_order_ (risk_mgr world_submitted) !! "O1").
Proof.
  assert (Hrun : submit_order world0 order_300 10 11 12 true (Returns ack_300)
                 = Some (world_submitted, ack_300)) by (vm_compute; reflexivity).
  split; [exact Hrun|].
  destruct (submit_order_tracked_or_released world0 world_submitted order_300 10 11 12 true
              (Returns ack_300) ack_300 Hrun eq_refl)
    as [(update & Hreply & _ & _ & _ & Hactive & Hreserved)|(_ & _ & [Hstatus|Hstatus])].
  - injection Hreply as <-. rewrite Hactive, lookup_insert_eq. split; [reflexivity|exact Hreserved].
  - discriminate Hstatus.
  - discriminate Hstatus.
Defined.

Lemma order_callback_calls_notify (cb n : nat) (update : OrderUpdate.t) :
  order_callback_calls cb (List.map (fun cb' => OrderCallback cb' update) (seq 0 n))
  = if Nat.ltb cb n then [update] else [].
Proof.
  induction n as [|n IH]; [reflexivity|].
  rewrite seq_S, List.map_app, order_callback_calls_app, IH.
  assert (Hone : order_callback_calls cb (List.map (fun cb' => OrderCallback cb' update) [(0 + n)%nat])
                 = if Nat.eqb cb n then [update] else []).
  { cbn. destruct (Nat.eqb cb n); reflexivity. }
  rewrite Hone.
  destruct (Nat.ltb_spec cb n) as [Hlt|Hge], (Nat.eqb_spec cb n) as [Heq|Hne],
    (Nat.ltb_spec cb (S n)) as [Hlt'|Hge']; try lia; reflexivity.
Qed.

Lemma finalize_order_stats (e : ExecutionEngine.t) (order_id : string) :
  stats_ (finalize_order e order_id)
  = match active_orders_ e !! order_id with
    | Some _ => stats_active_dec (stats_ e)
    | None => stats_ e
    end.
Proof.
  unfold finalize_order. destruct (active_orders_ e !! order_id); [|reflexivity].
  destruct (Nat.ltb _ _); [|reflexivity]. destruct (first_key _); reflexivity.
Qed.

Lemma release_reservation_counters (st : RiskManager.t) (order_id : string) :
  RiskManager.orders_cancelled_today_ (RiskManager.release_reservation st order_id)
  = RiskManager.orders_cancelled_today_ st /\
  RiskManager.orders_rejected_today_ (RiskManager.release_reservation st order_id)
  = RiskManager.orders_rejected_today_ st /\
  RiskManager.orders_submitted_today_ (RiskManager.release_reservation st order_id)
  = RiskManager.orders_submitted_today_ st.
Proof.
  unfold RiskManager.release_reservation. destruct (_ !! _); repeat split.
Qed.

(** X16. When the provider confirms a cancellation (its answer has status
    CANCELLED) of a tracked order, [cancel_order] returns that answer, moves
    the order out of [active_orders_], releases its reservation in the risk
    manager, counts the cancellation once in both components and hands the
    answer to every registered order callback exactly once. *)
Theorem cancel_order_confirmed (w : world) (order_id : string) (now : Z)
  (update : OrderUpdate.t) (state : OrderState.t) (cb : nat) :
  active_orders_ (engine w) !! order_id = Some state ->
  providers_ (engine w) !! OrderState.provider_name state = Some true ->
  OrderUpdate.status update = CANCELLED ->
  let w' := fst (cancel_order w order_id now (Returns update)) in
  snd (cancel_order w order_id now (Returns update)) = update /\
  active_orders_ (engine w') = delete order_id (active_orders_ (engine w)) /\
  RiskManager.reserved_by_order_ (risk_mgr w')
  = delete order_id (RiskManager.reserved_by_order_ (risk_mgr w)) /\
  RiskManager.orders_cancelled_today_ (risk_mgr w')
  = (RiskManager.orders_cancelled_today_ (risk_mgr w) + 1)%Z /\
  Stats.total_orders_cancelled (stats_ (engine w'))
  = (Stats.total_orders_cancelled (stats_ (engine w)) + 1)%Z /\
  position_mgr w' = position_mgr w /\
  order_callback_calls cb (trace w')
  = order_callback_calls cb (trace w)
    ++ (if Nat.ltb cb (order_callbacks_ (engine w)) then [update] else []).
Proof.
  intros Hactive Hprovider Hstatus. unfold cancel_order.
  rewrite Hactive, Hprovider. unfold default. cbn [from_option id negb].
  rewrite bool_decide_eq_true_2 by exact Hstatus. cbn [fst snd].
  match goal with
  | |- context [publish_order_event ?w0 update] =>
      destruct (publish_order_event_fields w0 update) as (He & Hr & Hp & Ht)
  end.
  unfold notify_order_callbacks. cbn [emit engine risk_mgr position_mgr trace].
  rewrite He, Hr, Hp, Ht.
  cbn [set_engine set_risk_mgr engine risk_mgr position_mgr trace].
  split; [reflexivity|].
  split; [erewrite finalize_order_active by exact Hactive; reflexivity|].
  split; [unfold RiskManager.on_order_cancelled; rewrite release_reservation_reserved; reflexivity|].
  split.
  { unfold RiskManager.on_order_cancelled.
    destruct (release_reservation_counters
                (RiskManager.set_orders_cancelled_today (risk_mgr w)
                   (RiskManager.orders_cancelled_today_ (risk_mgr w) + 1)%Z) order_id)
      as (-> & _). reflexivity. }
  split.
  { rewrite finalize_order_stats. cbn [set_stats active_orders_ stats_]. rewrite Hactive.
    reflexivity. }
  split; [reflexivity|].
  rewrite !order_callback_calls_app, order_callback_calls_publish, app_nil_r.
  destruct (finalize_order_callbacks
              (set_stats (engine w) (stats_cancelled_inc (stats_ (engine w)))) order_id)
    as (-> & _).
  cbn [set_stats order_callbacks_]. rewrite order_callback_calls_notify. reflexivity.
Qed.

Lemma cancel_order_confirmed_witness :
  let w' := fst (cancel_order world_submitted "O1" 30 (Returns cancelled_300)) in
  snd (cancel_order world_submitted "O1" 30 (Returns cancelled_300)) = cancelled_300 /\
  active_orders_ (engine w') = delete "O1" (active_orders_ (engine world_submitted)) /\
  RiskManager.reserved_by_order_ (risk_mgr w')
  = delete "O1" (RiskManager.reserved_by_order_ (risk_mgr world_submitted)) /\
  RiskManager.orders_cancelled_today_ (risk_mgr w')
  = (RiskManager.orders_cancelled_today_ (risk_mgr world_submitted) + 1)%Z /\
  Stats.total_orders_cancelled (stats_ (engine w'))
  = (Stats.total_orders_cancelled (stats_ (engine world_submitted)) + 1)%Z /\
  position_mgr w' = position_mgr world_submitted /\
  order_callback_calls 0 (trace w')
  = order_callback_calls 0 (trace world_submitted)
    ++ (if Nat.ltb 0 (order_callbacks_ (engine world_submitted)) then [cancelled_300] else []).
Proof.
  apply (cancel_order_confirmed world_submitted "O1" 30 cancelled_300
           (OrderState.mk order_300 ack_300 "mock" 10 10) 0).
  - vm_compute. reflexivity.
  - vm_compute. reflexivity.
  - reflexivity.
Defined.

(** X17. A cancellation that the provider does not confirm (it answers with
    a status other than CANCELLED, or throws), like one for an order that is
    not active, changes nothing that is tracked: the active and completed
    orders, the statistics, the risk manager with its reservations and the
    positions are as before. *)
Theorem cancel_order_unconfirmed (w : world) (order_id : string) (now : Z)
  (reply : provider_reply) :
  (forall update, reply = Returns update -> OrderUpdate.status update <> CANCELLED) ->
  let w' := fst (cancel_order w order_id now reply) in
  active_orders_ (engine w') = active_orders_ (engine w) /\
  completed_orders_ (engine w') = completed_orders_ (engine w) /\
  stats_ (engine w') = stats_ (engine w) /\
  risk_mgr w' = risk_mgr w /\
  position_mgr w' = position_mgr w.
Proof.
  intros Hreply. unfold cancel_order.
  destruct (active_orders_ (engine w) !! order_id) as [state|]; [|repeat split].
  set (w1 := match providers_ (engine w) !! OrderState.provider_name state with
             | Some _ => w
             | None => _
             end).
  assert (Hw1 : active_orders_ (engine w1) = active_orders_ (engine w) /\
                completed_orders_ (engine w1) = completed_orders_ (engine w) /\
                stats_ (engine w1) = stats_ (engine w) /\
                risk_mgr w1 = risk_mgr w /\ position_mgr w1 = position_mgr w).
  { subst w1. destruct (providers_ (engine w) !! _); repeat split. }
  destruct (negb _); [exact Hw1|].
  destruct reply as [update|what].
  - rewrite bool_decide_eq_false_2 by (apply Hreply; reflexivity).
    cbn [fst]. unfold notify_order_callbacks. cbn [emit engine risk_mgr position_mgr].
    destruct (publish_order_event_fields w1 update) as (-> & -> & -> & _). exact Hw1.
  - cbn [fst]. unfold notify_order_callbacks. cbn [emit engine risk_mgr position_mgr].
    match goal with
    | |- context [publish_order_event w1 ?u] =>
        destruct (publish_order_event_fields w1 u) as (-> & -> & -> & _)
    end.
    exact Hw1.
Qed.

Lemma cancel_order_unconfirmed_witness :
  let w' := fst (cancel_order world_submitted "O1" 30 (Throws "timeout")) in
  active_orders_ (engine w') = active_orders_ (engine world_submitted) /\
  completed_orders_ (engine w') = completed_orders_ (engine world_submitted) /\
  stats_ (engine w') = stats_ (engine world_submitted) /\
  risk_mgr w' = risk_mgr world_submitted /\
  position_mgr w' = position_mgr world_submitted.
Proof.
  apply (cancel_order_unconfirmed world_submitted "O1" 30 (Throws "timeout")).
  intros update Hreply. discriminate Hreply.
Defined.

(** X18. [modify_order] never touches what the engine tracks: whatever the
    provider answers, also when it accepts the modification, the active
    orders (with the request the fills are measured against), the completed
    orders, the statistics, the risk manager and the positions are as before,
    and no order callback is invoked. *)
Theorem modify_order_leaves_tracking (w : world) (modification : OrderModification.t)
  (reply : provider_reply) (cb : nat) :
  let w' := fst (modify_order w modification reply) in
  active_orders_ (engine w') = active_orders_ (engine w) /\
  completed_orders_ (engine w') = completed_orders_ (engine w) /\
  stats_ (engine w') = stats_ (engine w) /\
  risk_mgr w' = risk_mgr w /\
  position_mgr w' = position_mgr w /\
  order_callback_calls cb (trace w') = order_callback_calls cb (trace w).
Proof.
  unfold modify_order.
  destruct (active_orders_ (engine w) !! _) as [state|]; [|repeat split].
  set (w1 := match providers_ (engine w) !! OrderState.provider_name state with
             | Some _ => w
             | None => _
             end).
  assert (Hw1 : active_orders_ (engine w1) = active_orders_ (engine w) /\
                completed_orders_ (engine w1) = completed_orders_ (engine w) /\
                stats_ (engine w1) = stats_ (engine w) /\
                risk_mgr w1 = risk_mgr w /\ position_mgr w1 = position_mgr w /\
                order_callback_calls cb (trace w1) = order_callback_calls cb (trace w)).
  { subst w1. destruct (providers_ (engine w) !! _); repeat split. }
  destruct (negb _); [exact Hw1|].
  cbn [fst].
  match goal with
  | |- context [publish_order_event w1 ?u] =>
      destruct (publish_order_event_fields w1 u) as (-> & -> & -> & ->)
  end.
  rewrite order_callback_calls_app, order_callback_calls_publish, app_nil_r. exact Hw1.
Qed.

(** X19. The history of completed orders is evicted by key, not by age:
    when [completed_orders_] holds 1000 orders and another one is finalized,
    the entry dropped is the one whose order id is least in string order
    among the 1000 and the newcomer.  So an order whose id sorts before all
    completed ones is dropped at once, and [get_order_status] no longer
    knows it. *)
Theorem finalize_order_evicts_least_key (e : ExecutionEngine.t) (order_id : string)
  (state : OrderState.t) :
  active_orders_ e !! order_id = Some state ->
  completed_orders_ e !! order_id = None ->
  size (completed_orders_ e) = 1000%nat ->
  let e' := finalize_order e order_id in
  (exists oldest,
     completed_orders_ e' = delete oldest (<[order_id := state]> (completed_orders_ e)) /\
     (oldest = order_id \/ is_Some (completed_orders_ e !! oldest)) /\
     String.leb oldest order_id = true /\
     forall k, is_Some (completed_orders_ e !! k) -> String.leb oldest k = true) /\
  size (completed_orders_ e') = 1000%nat /\
  ((forall k, is_Some (completed_orders_ e !! k) -> String.leb k order_id = false) ->
   completed_orders_ e' = completed_orders_ e /\ get_order_status e' order_id = None).
Proof.
  intros Hactive Hfresh Hsize e'.
  destruct (finalize_order_history e order_id state Hactive) as [[Hle _]|[_ Hevict]].
  { rewrite map_size_insert_None in Hle by exact Hfresh. lia. }
  destruct Hevict as (oldest & Hcompleted & Hin & Hleast).
  assert (Hcases : oldest = order_id \/ is_Some (completed_orders_ e !! oldest)).
  { destruct (decide (oldest = order_id)) as [->|Hne]; [now left|right].
    now rewrite lookup_insert_ne in Hin by congruence. }
  assert (Hsize' : size (completed_orders_ e') = 1000%nat).
  { subst e'. rewrite Hcompleted.
    rewrite map_size_delete_Some by exact Hin.
    rewrite map_size_insert_None by exact Hfresh. lia. }
  split; [|split; [exact Hsize'|]].
  - exists oldest. split; [exact Hcompleted|]. split; [exact Hcases|]. split.
    + apply Hleast. rewrite lookup_insert_eq. eauto.
    + intros k [v Hk]. apply Hleast. destruct (decide (k = order_id)) as [->|Hne].
      * rewrite lookup_insert_eq. eauto.
      * rewrite lookup_insert_ne by congruence. eauto.
  - intros Hbefore.
    assert (Holdest : oldest = order_id).
    { destruct Hcases as [Heq|Hold]; [exact Heq|].
      apply Hbefore in Hold.
      assert (Hleb : String.leb oldest order_id = true).
      { apply Hleast. rewrite lookup_insert_eq. eauto. }
      congruence. }
    subst oldest.
    assert (Hsame : completed_orders_ e' = completed_orders_ e).
    { subst e'. rewrite Hcompleted, delete_insert_eq. now apply delete_id. }
    split; [exact Hsame|].
    unfold get_order_status. subst e'.
    erewrite finalize_order_active by exact Hactive.
    rewrite lookup_delete_eq, Hsame, Hfresh. reflexivity.
Qed.

Lemma finalize_order_evicts_least_key_witness :
  size (completed_orders_ (finalize_order full_engine "A")) = 1000%nat.
Proof.
  refine (proj1 (proj2 (finalize_order_evicts_least_key full_engine "A"
              (OrderState.mk (test_order "A" BUY 300 0 MARKET)
                 (OrderUpdate.mk "A" ACKNOWLEDGED 0 300 0 "" 10 None) "mock" 10 10) _ _ _))).
  - vm_compute. reflexivity.
  - vm_compute. reflexivity.
  - vm_compute. reflexivity.
Defined.

Lemma finalize_order_bounds (e : ExecutionEngine.t) (order_id : string) :
  tracking_bounds e -> tracking_bounds (finalize_order e order_id).
Proof.
  intros [Hhistory Hactive].
  destruct (active_orders_ e !! order_id) as [state|] eqn:Hlook;
    [|unfold finalize_order; rewrite Hlook; split; assumption].
  split.
  - assert (Hinsert : (size (<[order_id := state]> (completed_orders_ e)) <= 1001)%nat).
    { rewrite map_size_insert. destruct (completed_orders_ e !! order_id); cbn; lia. }
    destruct (finalize_order_history e order_id state Hlook)
      as [[Hle ->]|[_ (oldest & -> & Hin & _)]]; [exact Hle|].
    rewrite map_size_delete_Some by exact Hin. lia.
  - erewrite finalize_order_active by exact Hlook.
    rewrite finalize_order_stats, Hlook. cbn [stats_active_dec Stats.active_orders].
    rewrite <- (insert_delete_id (active_orders_ e) order_id state Hlook) in Hactive.
    rewrite map_size_insert_None in Hactive by apply lookup_delete_eq. lia.
Qed.

Lemma update_active_bounds (e : ExecutionEngine.t) (order_id : string)
  (old new : OrderState.t) (stats : Stats.t) :
  active_orders_ e !! order_id = Some old ->
  Stats.active_orders stats = Stats.active_orders (stats_ e) ->
  tracking_bounds e ->
  tracking_bounds
    (set_active_orders (set_stats e stats) (<[order_id := new]> (active_orders_ e))).
Proof.
  intros Hlook Hstats [Hhistory Hactive]. split; [exact Hhistory|].
  cbn [set_active_orders set_stats active_orders_ stats_].
  rewrite map_size_insert_Some by eauto. rewrite Hstats. exact Hactive.
Qed.

Lemma update_order_state_bounds (e : ExecutionEngine.t) (update : OrderUpdate.t) :
  tracking_bounds e -> tracking_bounds (update_order_state e update).
Proof.
  intros Hbounds. unfold update_order_state.
  destruct (active_orders_ e !! OrderUpdate.order_id update) as [state|] eqn:Hlook;
    [|exact Hbounds].
  pose proof (update_active_bounds e (OrderUpdate.order_id update) state
                (OrderState.mk (OrderState.request state) update
                   (OrderState.provider_name state) (OrderState.submit_timestamp_ns state)
                   (OrderUpdate.timestamp_ns update)) (stats_ e) Hlook eq_refl Hbounds) as Hnew.
  destruct (is_terminal _); [apply finalize_order_bounds|]; exact Hnew.
Qed.

Lemma on_fill_bounds (w : world) (fill : Fill.t) :
  tracking_bounds (engine w) -> tracking_bounds (engine (on_fill w fill)).
Proof.
  intros Hbounds. rewrite on_fill_engine. cbv zeta.
  destruct (active_orders_ (engine w) !! Fill.order_id fill) as [state|] eqn:Hlook.
  - pose proof (update_active_bounds (engine w) (Fill.order_id fill) state
                  (fill_order_state state fill) (stats_fill (stats_ (engine w)) fill)
                  Hlook eq_refl Hbounds) as Hnew.
    destruct (Qleb _ _); [apply finalize_order_bounds|]; exact Hnew.
  - destruct Hbounds as [Hhistory Hactive]. split; assumption.
Qed.

Lemma cancel_order_bounds (w : world) (order_id : string) (now : Z) (reply : provider_reply) :
  tracking_bounds (engine w) ->
  tracking_bounds (engine (fst (cancel_order w order_id now reply))).
Proof.
  intros Hbounds. unfold cancel_order.
  destruct (active_orders_ (engine w) !! order_id) as [state|]; [|exact Hbounds].
  set (w1 := match providers_ (engine w) !! OrderState.provider_name state with
             | Some _ => w
             | None => _
             end).
  assert (Hw1 : tracking_bounds (engine w1)).
  { subst w1. destruct (providers_ (engine w) !! _); exact Hbounds. }
  destruct (negb _); [exact Hw1|].
  destruct reply as [update|what].
  - destruct (bool_decide _); cbn [fst]; unfold notify_order_callbacks;
      cbn [emit engine];
      match goal with
      | |- context [publish_order_event ?w0 ?u] =>
          destruct (publish_order_event_fields w0 u) as (-> & _)
      end; [|exact Hw1].
    cbn [set_engine set_risk_mgr engine]. apply finalize_order_bounds.
    destruct Hw1 as [Hhistory Hactive]. split; assumption.
  - cbn [fst]. unfold notify_order_callbacks. cbn [emit engine].
    match goal with
    | |- context [publish_order_event ?w0 ?u] =>
        destruct (publish_order_event_fields w0 u) as (-> & _)
    end.
    exact Hw1.
Qed.

Lemma modify_order_bounds (w : world) (modification : OrderModification.t)
  (reply : provider_reply) :
  tracking_bounds (engine w) ->
  tracking_bounds (engine (fst (modify_order w modification reply))).
Proof.
  intros Hbounds. unfold modify_order.
  destruct (active_orders_ (engine w) !! _) as [state|]; [|exact Hbounds].
  set (w1 := match providers_ (engine w) !! OrderState.provider_name state with
             | Some _ => w
             | None => _
             end).
  assert (Hw1 : tracking_bounds (engine w1)).
  { subst w1. destruct (providers_ (engine w) !! _); exact Hbounds. }
  destruct (negb _); [exact Hw1|]. cbn [fst].
  match goal with
  | |- context [publish_order_event ?w0 ?u] =>
      destruct (publish_order_event_fields w0 u) as (-> & _)
  end.
  exact Hw1.
Qed.

Lemma rejected_bounds (e : ExecutionEngine.t) :
  tracking_bounds e -> tracking_bounds (set_stats e (stats_rejected_inc (stats_ e))).
Proof. intros [Hhistory Hactive]. split; assumption. Qed.

Lemma submit_order_bounds (w w' : world) (order : OrderRequest.t)
  (now now_check now_push : Z) (connected : bool) (reply : provider_reply)
  (result : OrderUpdate.t) :
  submit_order w order now now_check now_push connected reply = Some (w', result) ->
  tracking_bounds (engine w) -> tracking_bounds (engine w').
Proof.
  intros Hsubmit Hbounds. unfold submit_order in Hsubmit.
  pose proof (rejected_bounds (engine w) Hbounds) as Hrejected.
  destruct (shutdown_requested_ (engine w)).
  { injection Hsubmit as <- _.
    match goal with
    | |- context [publish_order_event ?w0 ?u] =>
        destruct (publish_order_event_fields w0 u) as (-> & _)
    end.
    exact Hrejected. }
  destruct (RiskManager.check_order _ _ _ _ _ _) as [rm risk_result].
  destruct (negb (RiskCheckResult.allowed risk_result)).
  { injection Hsubmit as <- _.
    match goal with
    | |- context [publish_order_event ?w0 ?u] =>
        destruct (publish_order_event_fields w0 u) as (-> & _)
    end.
    exact Hrejected. }
  destruct (if String.eqb _ "" then None else _) as [[|]|]; [|discriminate|].
  - destruct (negb connected).
    { injection Hsubmit as <- _.
      match goal with
      | |- context [publish_order_event ?w0 ?u] =>
          destruct (publish_order_event_fields w0 u) as (-> & _)
      end.
      exact Hrejected. }
    destruct reply as [update|what].
    + destruct (negb (bool_decide _)); injection Hsubmit as <- _;
        unfold notify_order_callbacks; cbn [emit engine];
        match goal with
        | |- context [publish_order_event ?w0 ?u] =>
            destruct (publish_order_event_fields w0 u) as (-> & _)
        end; [|exact Hrejected].
      destruct Hbounds as [Hhistory Hactive]. split; [exact Hhistory|].
      cbn [set_engine set_risk_mgr engine set_stats set_active_orders active_orders_ stats_
           stats_submitted Stats.active_orders].
      rewrite map_size_insert. destruct (active_orders_ (engine w) !! _); cbn [id]; lia.
    + injection Hsubmit as <- _. unfold notify_order_callbacks. cbn [emit engine].
      match goal with
      | |- context [publish_order_event ?w0 ?u] =>
          destruct (publish_order_event_fields w0 u) as (-> & _)
      end.
      exact Hrejected.
  - injection Hsubmit as <- _.
    match goal with
    | |- context [publish_order_event ?w0 ?u] =>
        destruct (publish_order_event_fields w0 u) as (-> & _)
    end.
    exact Hrejected.
Qed.

Lemma engine_step_bounds (w w' : world) (op : engine_op) :
  engine_step w op = Some w' -> tracking_bounds (engine w) -> tracking_bounds (engine w').
Proof.
  intros Hstep Hbounds. destruct op; cbn [engine_step] in Hstep.
  - injection Hstep as <-. cbn [set_engine engine]. unfold register_provider.
    destruct (negb _); [exact Hbounds|]. destruct Hbounds. split; assumption.
  - injection Hstep as <-. cbn [set_engine engine]. unfold set_instrument_provider.
    destruct (providers_ _ !! _); [|exact Hbounds]. destruct Hbounds. split; assumption.
  - injection Hstep as <-. destruct Hbounds. split; assumption.
  - injection Hstep as <-. destruct Hbounds. split; assumption.
  - destruct (submit_order w order now now_check now_push connected reply)
      as [[w1 result]|] eqn:Hsubmit; [|discriminate].
    injection Hstep as <-. eapply submit_order_bounds; eassumption.
  - injection Hstep as <-. now apply cancel_order_bounds.
  - injection Hstep as <-. now apply modify_order_bounds.
  - injection Hstep as <-. now apply on_fill_bounds.
  - injection Hstep as <-. unfold on_order_update, notify_order_callbacks. cbn [emit engine].
    match goal with
    | |- context [publish_order_event ?w0 ?u] =>
        destruct (publish_order_event_fields w0 u) as (-> & _)
    end.
    cbn [set_engine engine]. now apply update_order_state_bounds.
Qed.

Lemma engine_ops_bounds (ops : list engine_op) :
  forall w w', engine_ops ops w = Some w' ->
  tracking_bounds (engine w) -> tracking_bounds (engine w').
Proof.
  induction ops as [|op ops IH]; intros w w' Hrun Hbounds; cbn [engine_ops] in Hrun.
  - injection Hrun as <-. exact Hbounds.
  - destruct (engine_step w op) as [w1|] eqn:Hstep; [|discriminate].
    eapply IH; [exact Hrun|]. eapply engine_step_bounds; eassumption.
Qed.

(** X20. However an engine is driven from construction on (providers and
    callbacks registered, orders submitted, cancelled, modified, fills and
    order updates delivered, with any answers of the providers and the
    clock, over any state of the two managers), its history of completed
    orders never holds more than 1000 orders. *)
Theorem completed_orders_bounded (enable redis : bool) (ops : list engine_op) (w0 w : world) :
  engine w0 = ExecutionEngine.init enable redis ->
  engine_ops ops w0 = Some w ->
  (size (completed_orders_ (engine w)) <= 1000)%nat.
Proof.
  intros Hinit Hrun. apply (engine_ops_bounds ops w0 w Hrun). rewrite Hinit.
  split; cbn; [rewrite map_size_empty; lia|rewrite map_size_empty; reflexivity].
Qed.

Lemma completed_orders_bounded_witness :
  exists w, engine_ops session new_world = Some w /\
            (size (completed_orders_ (engine w)) <= 1000)%nat.
Proof.
  assert (Hrun : engine_ops session new_world
                 = Some (default new_world (engine_ops session new_world)))
    by (vm_compute; reflexivity).
  exists (default new_world (engine_ops session new_world)).
  split; [exact Hrun|].
  exact (completed_orders_bounded false false session new_world _ eq_refl Hrun).
Defined.

(** X21. Along every such run the statistics' [active_orders] counter is at
    least the number of orders in [active_orders_]; in particular it never
    goes negative. *)
Theorem active_counter_covers_active_orders (enable redis : bool) (ops : list engine_op)
  (w0 w : world) :
  engine w0 = ExecutionEngine.init enable redis ->
  engine_ops ops w0 = Some w ->
  (Z.of_nat (size (active_orders_ (engine w))) <= Stats.active_orders (get_stats (engine w)))%Z.
Proof.
  intros Hinit Hrun. apply (engine_ops_bounds ops w0 w Hrun). rewrite Hinit.
  split; cbn; [rewrite map_size_empty; lia|rewrite map_size_empty; reflexivity].
Qed.

Lemma active_counter_covers_active_orders_witness :
  exists w, engine_ops session new_world = Some w /\
            (Z.of_nat (size (active_orders_ (engine w)))
             <= Stats.active_orders (get_stats (engine w)))%Z.
Proof.
  assert (Hrun : engine_ops session new_world
                 = Some (default new_world (engine_ops session new_world)))
    by (vm_compute; reflexivity).
  exists (default new_world (engine_ops session new_world)).
  split; [exact Hrun|].
  exact (active_counter_covers_active_orders false false session new_world _ eq_refl Hrun).
Defined.

Lemma publish_fill_event_fields (w : world) (fill : Fill.t) :
  engine (publish_fill_event w fill) = engine w /\
  risk_mgr (publish_fill_event w fill) = risk_mgr w /\
  position_mgr (publish_fill_event w fill) = position_mgr w /\
  trace (publish_fill_event w fill)
  = trace w ++ (if redis_ (engine w) && enable_redis (engine w)
                then [PublishFill fill] else []).
Proof.
  unfold publish_fill_event.
  destruct (redis_ (engine w)), (enable_redis (engine w)); cbn [negb orb andb emit engine
    risk_mgr position_mgr trace]; rewrite ?app_nil_r; repeat split.
Qed.

Lemma on_fill_managers (w : world) (fill : Fill.t) :
  position_mgr (on_fill w fill) = PositionManager.on_fill (position_mgr w) fill /\
  risk_mgr (on_fill w fill)
  = RiskManager.on_fill (risk_mgr w) (PositionManager.on_fill (position_mgr w) fill) fill.
Proof.
  unfold on_fill, notify_fill_callbacks. cbn [emit position_mgr risk_mgr].
  match goal with
  | |- context [publish_fill_event ?w0 fill] =>
      destruct (publish_fill_event_fields w0 fill) as (_ & -> & -> & _)
  end.
  split; reflexivity.
Qed.

Lemma submit_order_position_mgr (w w' : world) (order : OrderRequest.t)
  (now now_check now_push : Z) (connected : bool) (reply : provider_reply)
  (result : OrderUpdate.t) :
  submit_order w order now now_check now_push connected reply = Some (w', result) ->
  position_mgr w' = position_mgr w.
Proof.
  intros Hsubmit. unfold submit_order in Hsubmit.
  destruct (shutdown_requested_ (engine w)).
  { injection Hsubmit as <- _.
    match goal with
    | |- context [publish_order_event ?w0 ?u] =>
        destruct (publish_order_event_fields w0 u) as (_ & _ & -> & _)
    end.
    reflexivity. }
  destruct (RiskManager.check_order _ _ _ _ _ _) as [rm risk_result].
  destruct (negb (RiskCheckResult.allowed risk_result)).
  { injection Hsubmit as <- _.
    match goal with
    | |- context [publish_order_event ?w0 ?u] =>
        destruct (publish_order_event_fields w0 u) as (_ & _ & -> & _)
    end.
    reflexivity. }
  destruct (if String.eqb _ "" then None else _) as [[|]|]; [|discriminate|].
  - destruct (negb connected).
    { injection Hsubmit as <- _.
      match goal with
      | |- context [publish_order_event ?w0 ?u] =>
          destruct (publish_order_event_fields w0 u) as (_ & _ & -> & _)
      end.
      reflexivity. }
    destruct reply as [update|what].
    + destruct (negb (bool_decide _)); injection Hsubmit as <- _;
        unfold notify_order_callbacks; cbn [emit position_mgr];
        match goal with
        | |- context [publish_order_event ?w0 ?u] =>
            destruct (publish_order_event_fields w0 u) as (_ & _ & -> & _)
        end; reflexivity.
    + injection Hsubmit as <- _. unfold notify_order_callbacks. cbn [emit position_mgr].
      match goal with
      | |- context [publish_order_event ?w0 ?u] =>
          destruct (publish_order_event_fields w0 u) as (_ & _ & -> & _)
      end.
      reflexivity.
  - injection Hsubmit as <- _.
    match goal with
    | |- context [publish_order_event ?w0 ?u] =>
        destruct (publish_order_event_fields w0 u) as (_ & _ & -> & _)
    end.
    reflexivity.
Qed.

Lemma cancel_order_position_mgr (w : world) (order_id : string) (now : Z)
  (reply : provider_reply) :
  position_mgr (fst (cancel_order w order_id now reply)) = position_mgr w.
Proof.
  unfold cancel_order.
  destruct (active_orders_ (engine w) !! order_id) as [state|]; [|reflexivity].
  set (w1 := match providers_ (engine w) !! OrderState.provider_name state with
             | Some _ => w
             | None => _
             end).
  assert (Hw1 : position_mgr w1 = position_mgr w).
  { subst w1. destruct (providers_ (engine w) !! _); reflexivity. }
  destruct (negb _); [exact Hw1|].
  destruct reply as [update|what]; [destruct (bool_decide _)|];
    cbn [fst]; unfold notify_order_callbacks; cbn [emit position_mgr];
    match goal with
    | |- context [publish_order_event ?w0 ?u] =>
        destruct (publish_order_event_fields w0 u) as (_ & _ & -> & _)
    end; exact Hw1.
Qed.

Lemma modify_order_position_mgr (w : world) (modification : OrderModification.t)
  (reply : provider_reply) :
  position_mgr (fst (modify_order w modification reply)) = position_mgr w.
Proof.
  unfold modify_order.
  destruct (active_orders_ (engine w) !! _) as [state|]; [|reflexivity].
  set (w1 := match providers_ (engine w) !! OrderState.provider_name state with
             | Some _ => w
             | None => _
             end).
  assert (Hw1 : position_mgr w1 = position_mgr w).
  { subst w1. destruct (providers_ (engine w) !! _); reflexivity. }
  destruct (negb _); [exact Hw1|]. cbn [fst].
  match goal with
  | |- context [publish_order_event ?w0 ?u] =>
      destruct (publish_order_event_fields w0 u) as (_ & _ & -> & _)
  end.
  exact Hw1.
Qed.

(** X22. Only fills move positions: after any run of engine calls the
    position manager is exactly what the run's fills, applied in order to the
    position manager alone, make of it.  Submissions, cancellations,
    modifications, order updates and registrations leave it untouched, and a
    fill is applied whether or not the engine tracks the order it names. *)
Theorem positions_follow_fills (ops : list engine_op) (w w' : world) :
  engine_ops ops w = Some w' ->
  position_mgr w' = pm_run (engine_fills ops) (position_mgr w).
Proof.
  revert w. induction ops as [|op ops IH]; intros w Hrun; cbn [engine_ops] in Hrun.
  - injection Hrun as <-. reflexivity.
  - destruct (engine_step w op) as [w1|] eqn:Hstep; [|discriminate].
    rewrite (IH w1 Hrun). unfold engine_fills, pm_run. cbn [omap list_omap].
    destruct op; cbn [engine_step] in Hstep;
      try (injection Hstep as <-; reflexivity).
    + destruct (submit_order w order now now_check now_push connected reply)
        as [[w2 result]|] eqn:Hsubmit; [|discriminate].
      injection Hstep as <-. now rewrite (submit_order_position_mgr _ _ _ _ _ _ _ _ _ Hsubmit).
    + injection Hstep as <-. now rewrite cancel_order_position_mgr.
    + injection Hstep as <-. now rewrite modify_order_position_mgr.
    + injection Hstep as <-. cbn [fold_left pm_step].
      now destruct (on_fill_managers w fill) as [-> _].
    + injection Hstep as <-. unfold on_order_update, notify_order_callbacks.
      cbn [emit position_mgr].
      match goal with
      | |- context [publish_order_event ?w0 ?u] =>
          destruct (publish_order_event_fields w0 u) as (_ & _ & -> & _)
      end.
      reflexivity.
Qed.

Lemma positions_follow_fills_witness :
  exists w, engine_ops session new_world = Some w /\
            position_mgr w = PositionManager.on_fill PositionManager.init (fill_100 "FILL_1").
Proof.
  assert (Hrun : engine_ops session new_world
                 = Some (default new_world (engine_ops session new_world)))
    by (vm_compute; reflexivity).
  exists (default new_world (engine_ops session new_world)).
  split; [exact Hrun|].
  exact (positions_follow_fills session new_world _ Hrun).
Defined.

Lemma fill_callback_calls_app (cb : nat) (l1 l2 : list event) :
  fill_callback_calls cb (l1 ++ l2) = fill_callback_calls cb l1 ++ fill_callback_calls cb l2.
Proof. unfold fill_callback_calls. apply omap_app. Qed.

Lemma fill_callback_calls_notify (cb n : nat) (fill : Fill.t) :
  fill_callback_calls cb (List.map (fun cb' => FillCallback cb' fill) (seq 0 n))
  = if Nat.ltb cb n then [fill] else [].
Proof.
  induction n as [|n IH]; [reflexivity|].
  rewrite seq_S, List.map_app, fill_callback_calls_app, IH.
  assert (Hone : fill_callback_calls cb (List.map (fun cb' => FillCallback cb' fill) [(0 + n)%nat])
                 = if Nat.eqb cb n then [fill] else []).
  { cbn. destruct (Nat.eqb cb n); reflexivity. }
  rewrite Hone.
  destruct (Nat.ltb_spec cb n) as [Hlt|Hge], (Nat.eqb_spec cb n) as [Heq|Hne],
    (Nat.ltb_spec cb (S n)) as [Hlt'|Hge']; try lia; reflexivity.
Qed.

Lemma finalize_order_fill_callbacks (e : ExecutionEngine.t) (order_id : string) :
  fill_callbacks_ (finalize_order e order_id) = fill_callbacks_ e.
Proof.
  unfold finalize_order. destruct (active_orders_ e !! order_id); [|reflexivity].
  destruct (Nat.ltb _ _); [|reflexivity]. destruct (first_key _); reflexivity.
Qed.

Lemma on_fill_effects (w : world) (fill : Fill.t) (cb : nat) :
  fill_callbacks_ (engine (on_fill w fill)) = fill_callbacks_ (engine w) /\
  fill_callback_calls cb (trace (on_fill w fill))
  = fill_callback_calls cb (trace w)
    ++ (if Nat.ltb cb (fill_callbacks_ (engine w)) then [fill] else []) /\
  Stats.total_orders_filled (stats_ (engine (on_fill w fill)))
  = (Stats.total_orders_filled (stats_ (engine w)) + 1)%Z /\
  Stats.total_volume_traded (stats_ (engine (on_fill w fill)))
  = Stats.total_volume_traded (stats_ (engine w)) + Fill.quantity fill.
Proof.
  assert (Hengine : fill_callbacks_ (engine (on_fill w fill)) = fill_callbacks_ (engine w) /\
                    stats_ (engine (on_fill w fill))
                    = (if match active_orders_ (engine w) !! Fill.order_id fill with
                          | Some state =>
                              Qleb (OrderUpdate.remaining_qty
                                      (OrderState.current_status (fill_order_state state fill)))
                                EPS
                          | None => false
                          end
                       then stats_active_dec (stats_fill (stats_ (engine w)) fill)
                       else stats_fill (stats_ (engine w)) fill)).
  { rewrite on_fill_engine. cbv zeta.
    destruct (active_orders_ (engine w) !! Fill.order_id fill) as [state|] eqn:Hlook;
      [|split; reflexivity].
    destruct (Qleb _ _); [|split; reflexivity].
    rewrite finalize_order_fill_callbacks, finalize_order_stats.
    cbn [set_active_orders set_stats active_orders_ stats_ fill_callbacks_].
    rewrite lookup_insert_eq. split; reflexivity. }
  destruct Hengine as [Hcallbacks Hstats]. split; [exact Hcallbacks|]. split.
  - unfold on_fill at 1, notify_fill_callbacks. cbn [emit trace engine].
    match goal with
    | |- context [publish_fill_event ?w0 fill] =>
        destruct (publish_fill_event_fields w0 fill) as (He & _ & _ & Ht);
        rewrite He, Ht; change (engine w0) with (engine (set_engine w0 (engine w0)))
    end.
    rewrite !fill_callback_calls_app.
    assert (Hpub : forall b, fill_callback_calls cb (if b : bool then [PublishFill fill] else [])
                             = []) by (intros []; reflexivity).
    rewrite Hpub, app_nil_r, fill_callback_calls_notify.
    cbn [set_engine set_risk_mgr set_position_mgr engine trace].
    match goal with
    | |- context [fill_callbacks_ ?e0] =>
        replace (fill_callbacks_ e0) with (fill_callbacks_ (engine w)); [reflexivity|]
    end.
    rewrite <- Hcallbacks, on_fill_engine. reflexivity.
  - rewrite Hstats.
    destruct (active_orders_ (engine w) !! Fill.order_id fill) as [state|];
      [destruct (Qleb _ _)|]; split; reflexivity.
Qed.

(** X23. Every registered fill callback receives every fill delivered to
    [on_fill], once each and in the order of delivery, whether or not the
    fill belongs to a tracked order; a callback that is not registered
    receives none. *)
Theorem fill_callbacks_receive_every_fill (fills : list Fill.t) (w : world) (cb : nat) :
  fill_callback_calls cb (trace (engine_run fills w))
  = fill_callback_calls cb (trace w)
    ++ (if Nat.ltb cb (fill_callbacks_ (engine w)) then fills else []).
Proof.
  revert w. induction fills as [|fill fills IH]; intros w.
  - cbn [engine_run fold_left]. destruct (Nat.ltb _ _); now rewrite app_nil_r.
  - unfold engine_run in *. cbn [fold_left]. rewrite IH.
    destruct (on_fill_effects w fill cb) as (-> & -> & _).
    rewrite <- app_assoc. destruct (Nat.ltb _ _); reflexivity.
Qed.


(** X25. After [on_order_update] for an active order, [get_order_status]
    answers with that update, whether the update is terminal (the order has
    moved to the completed orders, which have room) or not (the order is
    still active); [get_active_orders] lists the order exactly when the
    update is not terminal. *)
Theorem get_order_status_after_update (w : world) (update : OrderUpdate.t)
  (state : OrderState.t) :
  active_orders_ (engine w) !! OrderUpdate.order_id update = Some state ->
  (size (completed_orders_ (engine w)) < 1000)%nat ->
  let e' := engine (on_order_update w update) in
  get_order_status e' (OrderUpdate.order_id update) = Some update /\
  get_active_orders e' !! OrderUpdate.order_id update
  = (if is_terminal (OrderUpdate.status update) then None else Some update).
Proof.
  intros Hactive Hroom e'.
  assert (He' : e' = update_order_state (engine w) update).
  { subst e'. unfold on_order_update, notify_order_callbacks. cbn [emit engine].
    match goal with
    | |- context [publish_order_event ?w0 ?u] =>
        destruct (publish_order_event_fields w0 u) as (-> & _)
    end.
    reflexivity. }
  rewrite He'. unfold update_order_state. rewrite Hactive.
  set (state' := OrderState.mk _ update _ _ _).
  set (e1 := set_active_orders (engine w) _).
  assert (Hlook : active_orders_ e1 !! OrderUpdate.order_id update = Some state').
  { subst e1. cbn [set_active_orders active_orders_]. apply lookup_insert_eq. }
  unfold get_order_status, get_active_orders.
  destruct (is_terminal (OrderUpdate.status update)).
  - rewrite (finalize_order_active e1 _ state' Hlook).
    rewrite (finalize_order_completed e1 _ state' Hlook Hroom).
    rewrite lookup_fmap, lookup_delete_eq, lookup_insert_eq. split; reflexivity.
  - rewrite lookup_fmap, Hlook. split; reflexivity.
Qed.

Lemma get_order_status_after_update_witness :
  get_order_status (engine (on_order_update world_submitted cancelled_300)) "O1"
  = Some cancelled_300 /\
  get_active_orders (engine (on_order_update world_submitted cancelled_300)) !! "O1" = None.
Proof.
  apply (get_order_status_after_update world_submitted cancelled_300
           (OrderState.mk order_300 ack_300 "mock" 10 10)).
  - vm_compute. reflexivity.
  - vm_compute. lia.
Defined.

End ExecutionEngineMore.

(** ** Mock broker *)

Section MockBrokerFacts.

Lemma generate_fill_fields (config : MockBroker.Config.t) (order_id : string) (num_fills i : Z)
  (qty_per_fill market_price : double) (now : Z) (state : MockBroker.OrderState.t)
  (next_fill_id : Z) (stats : MockBroker.Stats.t) :
  let fill_qty :=
    if Z.eqb i (num_fills - 1) then MockBroker.OrderState.remaining_qty state
    else qty_per_fill in
  let out :=
    MockBroker.generate_fill config order_id num_fills i qty_per_fill market_price now
      state next_fill_id stats in
  let fill := out.1.1.1 in
  let state' := out.1.1.2 in
  Fill.order_id fill = order_id /\
  Fill.instrument fill = OrderRequest.instrument (MockBroker.OrderState.request state) /\
  Fill.side fill = OrderRequest.side (MockBroker.OrderState.request state) /\
  Fill.quantity fill = fill_qty /\
  Fill.price fill
  = MockBroker.calculate_fill_price config (MockBroker.OrderState.request state) market_price /\
  MockBroker.OrderState.request state' = MockBroker.OrderState.request state /\
  MockBroker.OrderState.cancelled state' = MockBroker.OrderState.cancelled state /\
  MockBroker.OrderState.filled_qty state' = MockBroker.OrderState.filled_qty state + fill_qty /\
  MockBroker.OrderState.remaining_qty state'
  = MockBroker.OrderState.remaining_qty state - fill_qty /\
  OrderUpdate.status (MockBroker.OrderState.current_status state')
  = (if Qleb (MockBroker.OrderState.remaining_qty state - fill_qty) EPS
     then FILLED else PARTIALLY_FILLED) /\
  out.1.2 = (next_fill_id + 1)%Z /\
  MockBroker.Stats.fills_generated out.2 = (MockBroker.Stats.fills_generated stats + 1)%Z /\
  MockBroker.Stats.orders_filled out.2
  = (MockBroker.Stats.orders_filled stats
     + (if Qleb (MockBroker.OrderState.remaining_qty state - fill_qty) EPS then 1 else 0))%Z.
Proof.
  cbv zeta. unfold MockBroker.generate_fill, MockBroker.generate_fill_id.
  cbn [fst snd Fill.order_id Fill.instrument Fill.side Fill.quantity Fill.price
       MockBroker.OrderState.request MockBroker.OrderState.cancelled
       MockBroker.OrderState.filled_qty MockBroker.OrderState.remaining_qty
       MockBroker.OrderState.current_status OrderUpdate.status].
  repeat (split; [reflexivity|]).
  destruct (Qleb _ EPS); cbn; split; lia.
Qed.

(** What one run of the fill loop does to the order's figures: each fill's
    quantity is added to [filled_qty] and taken from [remaining_qty], in the
    order of the fills. *)
Lemma fill_loop_accumulates (config : MockBroker.Config.t) (order_id : string)
  (num_fills : Z) (qty_per_fill market_price : double) (clock : Z -> Z) (k : nat) :
  forall (i : Z) (state : MockBroker.OrderState.t) (next_fill_id : Z)
         (stats : MockBroker.Stats.t) fills state' next_fill_id' stats',
  MockBroker.fill_loop k config order_id num_fills i qty_per_fill market_price clock
    state next_fill_id stats = (fills, state', next_fill_id', stats') ->
  MockBroker.OrderState.filled_qty state'
  = fold_left (fun filled fill => filled + Fill.quantity fill) fills
      (MockBroker.OrderState.filled_qty state) /\
  MockBroker.OrderState.remaining_qty state'
  = fold_left (fun remaining fill => remaining - Fill.quantity fill) fills
      (MockBroker.OrderState.remaining_qty state) /\
  MockBroker.OrderState.request state' = MockBroker.OrderState.request state /\
  MockBroker.OrderState.cancelled state' = MockBroker.OrderState.cancelled state /\
  Forall (fun fill =>
            Fill.order_id fill = order_id /\
            Fill.instrument fill
            = OrderRequest.instrument (MockBroker.OrderState.request state) /\
            Fill.side fill = OrderRequest.side (MockBroker.OrderState.request state) /\
            Fill.price fill
            = MockBroker.calculate_fill_price config (MockBroker.OrderState.request state)
                market_price) fills /\
  next_fill_id' = (next_fill_id + Z.of_nat (length fills))%Z /\
  MockBroker.Stats.fills_generated stats'
  = (MockBroker.Stats.fills_generated stats + Z.of_nat (length fills))%Z.
Proof.
  induction k as [|k IH]; intros i state next_fill_id stats fills state' next' stats' Hloop;
    cbn [MockBroker.fill_loop] in Hloop.
  - injection Hloop as <- <- <- <-. cbn [fold_left length].
    repeat split; try reflexivity; try lia. apply Forall_nil_2.
  - destruct (Qltb EPS _ && negb _).
    + pose proof (generate_fill_fields config order_id num_fills i qty_per_fill market_price
                    (clock i) state next_fill_id stats) as Hfill. cbv zeta in Hfill.
      destruct (MockBroker.generate_fill config order_id num_fills i qty_per_fill market_price
                  (clock i) state next_fill_id stats) as [[[fill state1] next1] stats1].
      cbn [fst snd] in Hfill.
      destruct Hfill as (Hid & Hinstr & Hside & Hqty & Hprice & Hreq & Hcanc & Hfilled & Hrem
                         & _ & Hnext & Hgen & _).
      destruct (MockBroker.fill_loop k config order_id num_fills (i + 1) qty_per_fill
                  market_price clock state1 next1 stats1)
        as [[[fills2 state2] next2] stats2] eqn:Hrest.
      injection Hloop as <- <- <- <-.
      destruct (IH _ _ _ _ _ _ _ _ Hrest) as (Hfsum & Hsum & Hreq2 & Hcanc2 & Hall & Hn2 & Hg2).
      cbn [fold_left length]. rewrite Hqty, <- Hfilled, <- Hrem.
      split; [exact Hfsum|]. split; [exact Hsum|]. split; [congruence|]. split; [congruence|].
      split.
      { apply Forall_cons. split; [repeat split; assumption|].
        rewrite Hreq in Hall. exact Hall. }
      split; lia.
    + injection Hloop as <- <- <- <-. cbn [fold_left length].
      repeat split; try reflexivity; try lia. apply Forall_nil_2.
Qed.

(** A run of the fill loop entered with more than [1e-8] open completes the
    order: it stops only once no more than [1e-8] is open, at the latest
    after the last fill, which takes all that is left. *)
Lemma fill_loop_completion (config : MockBroker.Config.t) (order_id : string)
  (num_fills : Z) (qty_per_fill market_price : double) (clock : Z -> Z) (k : nat) :
  forall (i : Z) (state : MockBroker.OrderState.t) (next_fill_id : Z)
         (stats : MockBroker.Stats.t) fills state' next_fill_id' stats',
  MockBroker.fill_loop (S k) config order_id num_fills i qty_per_fill market_price clock
    state next_fill_id stats = (fills, state', next_fill_id', stats') ->
  i = (num_fills - Z.of_nat (S k))%Z ->
  MockBroker.OrderState.cancelled state = false ->
  EPS < MockBroker.OrderState.remaining_qty state ->
  0 < qty_per_fill ->
  MockBroker.OrderState.remaining_qty state' <= EPS /\
  OrderUpdate.status (MockBroker.OrderState.current_status state') = FILLED /\
  OrderUpdate.remaining_qty (MockBroker.OrderState.current_status state')
  = MockBroker.OrderState.remaining_qty state' /\
  OrderUpdate.filled_qty (MockBroker.OrderState.current_status state')
  = MockBroker.OrderState.filled_qty state' /\
  fills <> [] /\
  Forall (fun fill => 0 < Fill.quantity fill) fills /\
  MockBroker.Stats.orders_filled stats' = (MockBroker.Stats.orders_filled stats + 1)%Z.
Proof.
  induction k as [|k IH];
    intros i state next_fill_id stats fills state' next' stats' Hloop Hi Hcanc Hopen Hpos.
  - cbn [MockBroker.fill_loop] in Hloop.
    rewrite (proj2 (Qltb_true _ _) Hopen), Hcanc in Hloop. cbn [andb negb] in Hloop.
    assert (Hlast : Z.eqb i (num_fills - 1) = true) by (apply Z.eqb_eq; lia).
    unfold MockBroker.generate_fill, MockBroker.generate_fill_id in Hloop. rewrite Hlast in Hloop.
    cbn [fst snd] in Hloop.
    assert (Hdone : Qleb (MockBroker.OrderState.remaining_qty state
                          - MockBroker.OrderState.remaining_qty state) EPS = true).
    { apply Qleb_true. unfold EPS in *. lra. }
    rewrite Hdone in Hloop. injection Hloop as <- <- <- <-.
    cbn [MockBroker.OrderState.remaining_qty MockBroker.OrderState.current_status
         MockBroker.OrderState.filled_qty OrderUpdate.status OrderUpdate.remaining_qty
         OrderUpdate.filled_qty MockBroker.stats_fill_generated MockBroker.stats_filled
         MockBroker.Stats.orders_filled].
    split; [unfold EPS; lra|]. repeat (split; [reflexivity|]).
    split; [discriminate|]. split; [|reflexivity].
    apply Forall_cons. split; [|apply Forall_nil_2]. cbn [Fill.quantity]. unfold EPS in Hopen. lra.
  - remember (S k) as k1 eqn:Hk1. cbn [MockBroker.fill_loop] in Hloop.
    rewrite (proj2 (Qltb_true _ _) Hopen), Hcanc in Hloop. cbn [andb negb] in Hloop.
    pose proof (generate_fill_fields config order_id num_fills i qty_per_fill market_price
                  (clock i) state next_fill_id stats) as Hfill. cbv zeta in Hfill.
    assert (Hnotlast : Z.eqb i (num_fills - 1) = false) by (apply Z.eqb_neq; lia).
    rewrite Hnotlast in Hfill.
    destruct (MockBroker.generate_fill config order_id num_fills i qty_per_fill market_price
                (clock i) state next_fill_id stats) as [[[fill state1] next1] stats1] eqn:Hgen.
    cbn [fst snd] in Hfill.
    destruct Hfill as (_ & _ & _ & Hqty & _ & _ & Hcanc1 & Hfilled & Hrem & Hstatus & _ & _
                       & Hof).
    assert (Hstatus_fields :
              OrderUpdate.remaining_qty (MockBroker.OrderState.current_status state1)
              = MockBroker.OrderState.remaining_qty state1 /\
              OrderUpdate.filled_qty (MockBroker.OrderState.current_status state1)
              = MockBroker.OrderState.filled_qty state1).
    { unfold MockBroker.generate_fill, MockBroker.generate_fill_id in Hgen.
      injection Hgen as _ <- _ _. split; reflexivity. }
    destruct (MockBroker.fill_loop k1 config order_id num_fills (i + 1) qty_per_fill
                market_price clock state1 next1 stats1)
      as [[[fills2 state2] next2] stats2] eqn:Hrest.
    injection Hloop as <- <- <- <-.
    destruct (Qleb (MockBroker.OrderState.remaining_qty state - qty_per_fill) EPS) eqn:Hdone.
    + apply Qleb_true in Hdone. rewrite <- Hrem in Hdone.
      rewrite Hk1 in Hrest. cbn [MockBroker.fill_loop] in Hrest.
      rewrite (proj2 (Qltb_false _ _) Hdone) in Hrest. cbn [andb] in Hrest.
      injection Hrest as <- <- <- <-.
      split; [exact Hdone|]. split; [exact Hstatus|].
      split; [apply Hstatus_fields|]. split; [apply Hstatus_fields|].
      split; [discriminate|]. split; [|lia].
      apply Forall_cons. split; [rewrite Hqty; exact Hpos|apply Forall_nil_2].
    + apply Qleb_false in Hdone. rewrite <- Hrem in Hdone.
      destruct (IH (i + 1)%Z state1 next1 stats1 fills2 state2 next2 stats2 Hrest)
        as (HE & Hst & Hr & Hf & _ & Hall & Hof2);
        [lia|congruence|exact Hdone|exact Hpos|].
      split; [exact HE|]. split; [exact Hst|]. split; [exact Hr|].
      split; [exact Hf|]. split; [discriminate|]. split; [|lia].
      apply Forall_cons. split; [rewrite Hqty; exact Hpos|exact Hall].
Qed.

Lemma fill_loop_length (config : MockBroker.Config.t) (order_id : string)
  (num_fills : Z) (qty_per_fill market_price : double) (clock : Z -> Z) (k : nat) :
  forall (i : Z) (state : MockBroker.OrderState.t) (next_fill_id : Z)
         (stats : MockBroker.Stats.t),
  (length (MockBroker.fill_loop k config order_id num_fills i qty_per_fill market_price clock
             state next_fill_id stats).1.1.1 <= k)%nat.
Proof.
  induction k as [|k IH]; intros i state next_fill_id stats; cbn [MockBroker.fill_loop].
  - cbn. lia.
  - destruct (Qltb EPS _ && negb _); [|cbn; lia].
    destruct (MockBroker.generate_fill _ _ _ _ _ _ _ _ _ _) as [[[fill state1] next1] stats1].
    specialize (IH (i + 1)%Z state1 next1 stats1).
    destruct (MockBroker.fill_loop k _ _ _ _ _ _ _ _ _ _) as [[[fills2 state2] next2] stats2].
    cbn [fst length] in *. lia.
Qed.

(** X26. [simulate_fill] completes the order it runs for: when the broker is
    not shutting down, the order is known, not cancelled and has more than
    [1e-8] open, and at least one fill is configured, the fills generated
    are between one and [num_fills] many, each of positive quantity and
    for that order, instrument and side; each fill's quantity is added to
    the order's [filled_qty] and taken from its [remaining_qty], in that
    order, which leaves no more than [1e-8] open; and the order is left
    FILLED, counted once in [orders_filled]. *)
Theorem simulate_fill_completes_order (st : MockBroker.t) (order_id : string)
  (clock : Z -> Z) (state : MockBroker.OrderState.t) :
  let num_fills :=
    if MockBroker.Config.enable_partial_fills (MockBroker.config_ st)
    then MockBroker.Config.partial_fill_count (MockBroker.config_ st) else 1%Z in
  let st' := fst (MockBroker.simulate_fill st order_id clock) in
  let fills := snd (MockBroker.simulate_fill st order_id clock) in
  MockBroker.shutdown_requested_ st = false ->
  MockBroker.orders_ st !! order_id = Some state ->
  MockBroker.OrderState.cancelled state = false ->
  EPS < MockBroker.OrderState.remaining_qty state ->
  (1 <= num_fills)%Z ->
  exists state',
    MockBroker.orders_ st' !! order_id = Some state' /\
    MockBroker.OrderState.filled_qty state'
    = fold_left (fun filled fill => filled + Fill.quantity fill) fills
        (MockBroker.OrderState.filled_qty state) /\
    MockBroker.OrderState.remaining_qty state'
    = fold_left (fun remaining fill => remaining - Fill.quantity fill) fills
        (MockBroker.OrderState.remaining_qty state) /\
    MockBroker.OrderState.remaining_qty state' <= EPS /\
    MockBroker.get_order_status st' order_id
    = Some (MockBroker.OrderState.current_status state') /\
    OrderUpdate.status (MockBroker.OrderState.current_status state') = FILLED /\
    (1 <= Z.of_nat (length fills) <= num_fills)%Z /\
    Forall (fun fill =>
              0 < Fill.quantity fill /\
              Fill.order_id fill = order_id /\
              Fill.instrument fill
              = OrderRequest.instrument (MockBroker.OrderState.request state) /\
              Fill.side fill = OrderRequest.side (MockBroker.OrderState.request state)) fills /\
    MockBroker.Stats.orders_filled (MockBroker.get_stats st')
    = (MockBroker.Stats.orders_filled (MockBroker.get_stats st) + 1)%Z /\
    MockBroker.Stats.fills_generated (MockBroker.get_stats st')
    = (MockBroker.Stats.fills_generated (MockBroker.get_stats st) + Z.of_nat (length fills))%Z.
Proof.
  intros num_fills st' fills Hshutdown Hlook Hcanc Hopen Hnum.
  subst st' fills. unfold MockBroker.simulate_fill.
  rewrite Hshutdown, Hlook, Hcanc. fold num_fills.
  set (market_price := match MockBroker.market_prices_ st !! _ with
                       | Some price => price
                       | None => _
                       end).
  set (qty_per_fill := MockBroker.OrderState.remaining_qty state / inject_Z num_fills).
  pose proof (fill_loop_length (MockBroker.config_ st) order_id num_fills qty_per_fill
                market_price clock (Z.to_nat num_fills) 0 state (MockBroker.next_fill_id_ st)
                (MockBroker.stats_ st)) as Hlen.
  destruct (MockBroker.fill_loop (Z.to_nat num_fills) (MockBroker.config_ st) order_id num_fills
              0 qty_per_fill market_price clock state (MockBroker.next_fill_id_ st)
              (MockBroker.stats_ st)) as [[[fills state'] next'] stats'] eqn:Hloop.
  cbn [fst snd] in *.
  assert (Hn : 0 < inject_Z num_fills).
  { change 0 with (inject_Z 0). rewrite <- Zlt_Qlt. lia. }
  assert (Hpos : 0 < qty_per_fill).
  { subst qty_per_fill. apply Qlt_shift_div_l; [exact Hn|]. unfold EPS in Hopen. lra. }
  destruct (fill_loop_accumulates _ _ _ _ _ _ _ _ _ _ _ _ _ _ _ Hloop)
    as (Hfsum & Hsum & _ & _ & Hall & _ & Hgen).
  destruct (Z.to_nat num_fills) as [|k] eqn:Hk; [lia|].
  destruct (fill_loop_completion _ _ _ _ _ _ _ _ _ _ _ _ _ _ _ Hloop)
    as (HE & Hstatus & _ & _ & Hne & Hqty & Hof);
    [lia|exact Hcanc|exact Hopen|exact Hpos|].
  exists state'. unfold MockBroker.get_order_status, MockBroker.get_stats.
  cbn [MockBroker.orders_ MockBroker.stats_]. rewrite lookup_insert_eq.
  split; [reflexivity|]. split; [exact Hfsum|]. split; [exact Hsum|].
  split; [exact HE|]. split; [reflexivity|]. split; [exact Hstatus|].
  split.
  { destruct fills as [|fill fills]; [congruence|]. cbn [length] in *. lia. }
  split; [|split; [exact Hof|exact Hgen]].
  apply Forall_forall. intros fill Hin.
  rewrite Forall_forall in Hall, Hqty.
  destruct (Hall fill Hin) as (Hid & Hinstr & Hside & _).
  repeat split; auto.
Qed.

Lemma simulate_fill_completes_order_witness :
  exists state',
    MockBroker.orders_ (fst (MockBroker.simulate_fill broker_submitted "O1" tick)) !! "O1"
    = Some state' /\
    MockBroker.OrderState.remaining_qty state' <= EPS /\
    OrderUpdate.status (MockBroker.OrderState.current_status state') = FILLED.
Proof.
  destruct (simulate_fill_completes_order broker_submitted "O1" tick broker_state_300)
    as (state' & Hlook & _ & _ & Hdone & _ & Hstatus & _).
  - reflexivity.
  - vm_compute. reflexivity.
  - reflexivity.
  - vm_compute. reflexivity.
  - vm_compute. discriminate.
  - exists state'. split; [exact Hlook|]. split; [exact Hdone|exact Hstatus].
Defined.

(** X27. Slippage always goes against the order, also past a limit: with
    [slippage_bps] positive and a positive base price (the market price for
    a MARKET order, the order's own price otherwise), a buy is filled above
    the base price and a sell below it, by the factor [slippage_bps / 10000].
    A LIMIT buy is thus filled above its limit price. *)
Theorem calculate_fill_price_slippage (config : MockBroker.Config.t) (order : OrderRequest.t)
  (market_price : double) :
  let base_price :=
    if bool_decide (OrderRequest.type order = MARKET) then market_price
    else OrderRequest.price order in
  let fill_price := MockBroker.calculate_fill_price config order market_price in
  0 < MockBroker.Config.slippage_bps config ->
  0 < base_price ->
  match OrderRequest.side order with
  | BUY =>
      base_price < fill_price /\
      fill_price == base_price * (1 + MockBroker.Config.slippage_bps config / 10000)
  | SELL =>
      fill_price < base_price /\
      fill_price == base_price * (1 - MockBroker.Config.slippage_bps config / 10000)
  end.
Proof.
  intros base_price fill_price Hslip Hbase. subst fill_price.
  unfold MockBroker.calculate_fill_price. fold base_price.
  rewrite (proj2 (Qltb_true _ _) Hslip).
  assert (Hfactor : 0 < MockBroker.Config.slippage_bps config / 10000).
  { apply Qlt_shift_div_l; lra. }
  assert (Hprod : 0 < base_price * (MockBroker.Config.slippage_bps config / 10000)).
  { apply Qmult_lt_0_compat; assumption. }
  destruct (OrderRequest.side order); split; try reflexivity; lra.
Qed.

Lemma calculate_fill_price_slippage_witness :
  110 # 100 < MockBroker.calculate_fill_price
                (MockBroker.Config.mk "mock" 100 0 false 3 5 true) limit_buy 1.
Proof.
  apply (calculate_fill_price_slippage
           (MockBroker.Config.mk "mock" 100 0 false 3 5 true) limit_buy 1).
  - reflexivity.
  - reflexivity.
Defined.

(** X28. A cancellation the broker accepts stops the fills: for an order
    that is known and not yet FILLED, CANCELLED or REJECTED, [cancel_order]
    answers CANCELLED with the quantities filled and open so far, and a
    fill thread that runs afterwards generates no fill and changes nothing. *)
Theorem cancel_order_stops_fills (st : MockBroker.t) (order_id : string) (now : Z)
  (clock : Z -> Z) (state : MockBroker.OrderState.t) :
  let st' := fst (MockBroker.cancel_order st order_id now) in
  let result := snd (MockBroker.cancel_order st order_id now) in
  MockBroker.orders_ st !! order_id = Some state ->
  OrderUpdate.status (MockBroker.OrderState.current_status state) <> FILLED ->
  OrderUpdate.status (MockBroker.OrderState.current_status state) <> CANCELLED ->
  OrderUpdate.status (MockBroker.OrderState.current_status state) <> REJECTED ->
  OrderUpdate.status result = CANCELLED /\
  OrderUpdate.filled_qty result = MockBroker.OrderState.filled_qty state /\
  OrderUpdate.remaining_qty result = MockBroker.OrderState.remaining_qty state /\
  (OrderUpdate.status <$> MockBroker.get_order_status st' order_id) = Some CANCELLED /\
  MockBroker.Stats.orders_cancelled (MockBroker.get_stats st')
  = (MockBroker.Stats.orders_cancelled (MockBroker.get_stats st) + 1)%Z /\
  MockBroker.simulate_fill st' order_id clock = (st', []).
Proof.
  intros st' result Hlook Hfilled Hcancelled Hrejected. subst st' result.
  unfold MockBroker.cancel_order. rewrite Hlook.
  rewrite !bool_decide_eq_false_2 by assumption. cbn [orb fst snd OrderUpdate.status
    OrderUpdate.filled_qty OrderUpdate.remaining_qty].
  repeat (split; [reflexivity|]).
  unfold MockBroker.get_order_status, MockBroker.get_stats, MockBroker.simulate_fill.
  cbn [MockBroker.set_stats MockBroker.set_orders MockBroker.orders_ MockBroker.stats_
       MockBroker.shutdown_requested_].
  rewrite lookup_insert_eq. cbn [fmap option_fmap option_map MockBroker.OrderState.current_status
    OrderUpdate.status MockBroker.OrderState.cancelled MockBroker.stats_cancelled
    MockBroker.Stats.orders_cancelled].
  split; [reflexivity|]. split; [reflexivity|].
  destruct (MockBroker.shutdown_requested_ st); reflexivity.
Qed.

Lemma cancel_order_stops_fills_witness :
  OrderUpdate.status (snd (MockBroker.cancel_order broker_submitted "O1" 15)) = CANCELLED /\
  MockBroker.simulate_fill (fst (MockBroker.cancel_order broker_submitted "O1" 15)) "O1" tick
  = (fst (MockBroker.cancel_order broker_submitted "O1" 15), []).
Proof.
  destruct (cancel_order_stops_fills broker_submitted "O1" 15 tick broker_state_300)
    as (Hstatus & _ & _ & _ & _ & Hfills).
  - vm_compute. reflexivity.
  - discriminate.
  - discriminate.
  - discriminate.
  - split; [exact Hstatus|exact Hfills].
Defined.

(** X29. The broker's parameter checks never refuse what the risk manager
    approved: an order that [check_order] allows is acknowledged by
    [MockBroker::submit_order] and stored with its full quantity open,
    unless the simulated random rejection strikes. *)
Theorem broker_accepts_approved_orders (rm : RiskManager.t) (pm : PositionManager.t)
  (order : OrderRequest.t) (current_price : double) (now_check now_push : Z)
  (st : MockBroker.t) (now : Z) (roll : double) :
  let result := snd (MockBroker.submit_order st order now roll) in
  let st' := fst (MockBroker.submit_order st order now roll) in
  RiskCheckResult.allowed
    (snd (RiskManager.check_order rm pm order current_price now_check now_push)) = true ->
  MockBroker.should_reject st roll = false ->
  result
  = OrderUpdate.mk (OrderRequest.order_id order) ACKNOWLEDGED 0 (OrderRequest.quantity order) 0
      "Order accepted by mock broker" now None /\
  MockBroker.orders_ st' !! OrderRequest.order_id order
  = Some (MockBroker.OrderState.mk order result 0 (OrderRequest.quantity order) now false) /\
  MockBroker.Stats.orders_rejected (MockBroker.get_stats st')
  = MockBroker.Stats.orders_rejected (MockBroker.get_stats st).
Proof.
  intros result st' Hallowed Hroll. subst result st'.
  pose proof (check_order_approved rm pm order current_price now_check now_push) as Happroved.
  cbv zeta in Happroved. destruct (Happroved Hallowed) as (_ & Hqty & Hprice & _).
  unfold MockBroker.submit_order.
  change (MockBroker.should_reject (MockBroker.set_stats st _) roll)
    with (MockBroker.should_reject st roll).
  rewrite Hroll, (proj2 (Qleb_false _ _) Hqty).
  assert (Hlimit : bool_decide (OrderRequest.type order = LIMIT)
                   && Qleb (OrderRequest.price order) 0 = false).
  { destruct (bool_decide (OrderRequest.type order = LIMIT)) eqn:Htype; [|reflexivity].
    apply bool_decide_eq_true in Htype. cbn [andb]. apply Qleb_false. now apply Hprice. }
  rewrite Hlimit. cbn [fst snd]. split; [reflexivity|].
  unfold MockBroker.get_stats.
  destruct (negb _); cbn [MockBroker.set_fill_threads MockBroker.set_orders MockBroker.set_stats
    MockBroker.orders_ MockBroker.stats_ MockBroker.stats_received
    MockBroker.Stats.orders_rejected]; rewrite lookup_insert_eq; split; reflexivity.
Qed.

Lemma broker_accepts_approved_orders_witness :
  snd (MockBroker.submit_order broker0 order_300 10 (1 # 2)) = ack_300.
Proof.
  refine (proj1 (broker_accepts_approved_orders (wired scenario_limits) PositionManager.init
                   order_300 1 11 12 broker0 10 (1 # 2) _ _)).
  - vm_compute. reflexivity.
  - reflexivity.
Defined.

(** X30. With partial fills disabled, broker and engine agree on
    completion.  When the broker is not shutting down and has the order,
    not cancelled, with more than [1e-8] open, the engine tracks it with
    nothing filled and the requested quantity is what the broker has open,
    and the engine's history of completed orders holds fewer than 1000
    entries, the one fill of a [simulate_fill] run, delivered to [on_fill],
    closes the order on both sides: the broker leaves it FILLED with
    nothing open, and the engine moves it from the active to the completed
    orders with status FILLED, nothing open and the fill's quantity as
    [filled_qty]. *)
Theorem broker_fill_completes_engine_order (st : MockBroker.t) (w : ExecutionEngine.world)
  (order_id : string) (clock : Z -> Z) (state : MockBroker.OrderState.t)
  (tracked : OrderState.t) :
  let st' := fst (MockBroker.simulate_fill st order_id clock) in
  let fills := snd (MockBroker.simulate_fill st order_id clock) in
  let w' := engine_run fills w in
  MockBroker.shutdown_requested_ st = false ->
  MockBroker.orders_ st !! order_id = Some state ->
  MockBroker.OrderState.cancelled state = false ->
  EPS < MockBroker.OrderState.remaining_qty state ->
  MockBroker.Config.enable_partial_fills (MockBroker.config_ st) = false ->
  ExecutionEngine.active_orders_ (ExecutionEngine.engine w) !! order_id = Some tracked ->
  OrderUpdate.filled_qty (OrderState.current_status tracked) == 0 ->
  OrderRequest.quantity (OrderState.request tracked)
  == MockBroker.OrderState.remaining_qty state ->
  (size (ExecutionEngine.completed_orders_ (ExecutionEngine.engine w)) < 1000)%nat ->
  Fill.quantity <$> fills = [MockBroker.OrderState.remaining_qty state] /\
  ExecutionEngine.active_orders_ (ExecutionEngine.engine w') !! order_id = None /\
  exists update state',
    ExecutionEngine.get_order_status (ExecutionEngine.engine w') order_id = Some update /\
    MockBroker.orders_ st' !! order_id = Some state' /\
    OrderUpdate.status update = FILLED /\
    OrderUpdate.status (MockBroker.OrderState.current_status state') = FILLED /\
    OrderUpdate.remaining_qty update == 0 /\
    MockBroker.OrderState.remaining_qty state' == 0 /\
    OrderUpdate.filled_qty update == MockBroker.OrderState.remaining_qty state.
Proof.
  intros st' fills w' Hshutdown Hlook Hcanc Hopen Hsingle Hactive Hfresh Hagree Hroom.
  subst st' w' fills. unfold MockBroker.simulate_fill.
  rewrite Hshutdown, Hlook, Hcanc, Hsingle.
  change (Z.to_nat 1) with 1%nat. cbn [MockBroker.fill_loop].
  rewrite (proj2 (Qltb_true _ _) Hopen), Hcanc. cbn [andb negb].
  unfold MockBroker.generate_fill, MockBroker.generate_fill_id.
  change (Z.eqb 0 (1 - 1)) with true. cbn [fst snd fmap list_fmap Fill.quantity].
  assert (Hdone : Qleb (MockBroker.OrderState.remaining_qty state
                        - MockBroker.OrderState.remaining_qty state) EPS = true).
  { apply Qleb_true. unfold EPS. lra. }
  rewrite Hdone.
  split; [reflexivity|].
  unfold engine_run. cbn [fold_left].
  match goal with
  | |- context [ExecutionEngine.on_fill w ?f] => set (fill := f)
  end.
  assert (Hid : Fill.order_id fill = order_id) by reflexivity.
  rewrite <- Hid in Hactive.
  destruct (on_fill_tracked w fill tracked Hactive) as [Hclosed _].
  destruct (fill_order_state_fields tracked fill) as (_ & Hf & Hr & _ & Hst & _).
  cbv zeta in Hclosed, Hf, Hr, Hst.
  assert (Hqty : Fill.quantity fill = MockBroker.OrderState.remaining_qty state) by reflexivity.
  assert (Hzero : OrderUpdate.remaining_qty
                    (OrderState.current_status (ExecutionEngine.fill_order_state tracked fill))
                  == 0).
  { rewrite Hr, Hf, Hqty, Hfresh, Hagree. lra. }
  assert (Hle : OrderUpdate.remaining_qty
                  (OrderState.current_status (ExecutionEngine.fill_order_state tracked fill))
                <= EPS).
  { rewrite Hzero. unfold EPS. lra. }
  destruct (Hclosed Hle) as [Hgone Hkept]. rewrite Hid in Hgone, Hkept.
  split; [exact Hgone|].
  eexists (OrderState.current_status (ExecutionEngine.fill_order_state tracked fill)), _.
  unfold ExecutionEngine.get_order_status. rewrite Hgone, (Hkept Hroom).
  cbn [MockBroker.orders_]. rewrite lookup_insert_eq.
  split; [reflexivity|]. split; [reflexivity|]. split; [exact (Hst Hle)|].
  cbn [MockBroker.OrderState.current_status MockBroker.OrderState.remaining_qty
       OrderUpdate.status].
  split; [reflexivity|]. split; [exact Hzero|]. split; [lra|].
  rewrite Hf, Hqty, Hfresh. lra.
Qed.

Lemma broker_fill_completes_engine_order_witness :
  ExecutionEngine.active_orders_
    (ExecutionEngine.engine
       (engine_run (snd (MockBroker.simulate_fill single_fill_broker "O1" tick))
          world_submitted))
  !! "O1" = None.
Proof.
  refine (proj1 (proj2 (broker_fill_completes_engine_order single_fill_broker world_submitted
                          "O1" tick broker_state_300
                          (OrderState.mk order_300 ack_300 "mock" 10 10)
                          _ _ _ _ _ _ _ _ _))).
  - reflexivity.
  - vm_compute. reflexivity.
  - reflexivity.
  - vm_compute. reflexivity.
  - reflexivity.
  - vm_compute. reflexivity.
  - reflexivity.
  - reflexivity.
  - vm_compute. lia.
Defined.

End MockBrokerFacts.
